(** * Service Manager: runner, configuration parser and wire conversion

    A shallow embedding of three translation units of the service manager:

    - [src/runner/runner.cpp]: the adapter to the host supervisor
      (unit names, drop-in parameters, start, stop and the monitor loop);
    - [src/config/config.cpp]: the configuration parser;
    - [src/utils/convert.cpp]: the conversions between domain and wire types.

    Stateful code is written in state-passing style over explicit records;
    exceptions are an explicit result type; the supervisor connection and the
    file system faults are test doubles (records of functions) over which
    every theorem quantifies. *)

From Stdlib Require Import ZArith String Ascii List Lia DecimalString Bool.
From stdpp Require Import base gmap strings list.
Import ListNotations.

Local Open Scope Z_scope.

(** ** Errors and exceptions (aos::Error, AosException) *)

Module Aos.

(** The error kinds of [aos::ErrorEnum] the three files refer to, and the
    remaining ones of the taxonomy. *)
Inductive ErrorEnum : Set :=
| eNone | eFailed | eRuntime | eNoMemory | eOutOfRange | eInvalidArgument
| eNotFound | eAlreadyExist | eTimeout | eWrongState.

#[global] Instance ErrorEnum_eq_dec : EqDecision ErrorEnum.
Proof. solve_decision. Defined.

(** [aos::Error]: a kind, the underlying errno (or exit code) and a message.
    File name and line number, which [AOS_ERROR_WRAP] adds, are not kept. *)
Record Error : Set := mkError {
  mErr : ErrorEnum;
  mErrno : Z;
  mMessage : string
}.

#[global] Instance Error_eq_dec : EqDecision Error.
Proof. solve_decision. Defined.

(** [Error()] and [Error(ErrorEnum::eNone)]. *)
Definition ErrNone : Error := mkError eNone 0 "".

(** [Error(ErrorEnum e, const char* msg)]. *)
Definition ErrorOf (e : ErrorEnum) (msg : string) : Error := mkError e 0 msg.

(** [Error(int errNo, const char* msg)]: built from an errno value (the runner
    also passes unit exit codes through it). Zero is no error. *)
Definition ErrorOfErrno (errNo : Z) (msg : string) : Error :=
  mkError (if errNo =? 0 then eNone else eFailed) errNo msg.

(** [Error(const Error& err, const char* msg)]: same error, new message. *)
Definition ErrorWithMessage (err : Error) (msg : string) : Error :=
  mkError (mErr err) (mErrno err) msg.

Definition IsNone (err : Error) : bool := bool_decide (mErr err = eNone).

Definition Is (err : Error) (e : ErrorEnum) : bool := bool_decide (mErr err = e).

(** [AOS_ERROR_WRAP] records the source position only. *)
Definition AOS_ERROR_WRAP (err : Error) : Error := err.

(** The exceptions that reach a [catch (const std::exception&)] handler. *)
Inductive Exception : Set :=
| AosException (msg : string) (err : Error)
| PocoException (msg : string)
| StdException (msg : string).

(** A computation that returns or throws. *)
Inductive Result (A : Type) : Type :=
| Ok (a : A)
| Throw (e : Exception).

Arguments Ok {A} a.
Arguments Throw {A} e.

Definition bind {A B : Type} (m : Result A) (k : A -> Result B) : Result B :=
  match m with
  | Ok a => k a
  | Throw e => Throw e
  end.

(** [AOS_ERROR_THROW(err, msg)]. *)
Definition AOS_ERROR_THROW {A : Type} (err : Error) (msg : string) : Result A :=
  Throw (AosException msg err).

(** [AOS_ERROR_CHECK_AND_THROW(err, msg)]: throws only a real error. *)
Definition AOS_ERROR_CHECK_AND_THROW (err : Error) (msg : string) : Result unit :=
  if IsNone err then Ok tt else Throw (AosException msg err).

(** [common::utils::ToAosError(e)]: the error an [AosException] carries,
    otherwise [eFailed] with the exception's text. *)
Definition ToAosError (e : Exception) : Error :=
  match e with
  | AosException _ err => err
  | PocoException msg => ErrorOf eFailed msg
  | StdException msg => ErrorOf eFailed msg
  end.

End Aos.

Export Aos.

#[global] Instance Result_ret : MRet Result := fun A a => Ok a.
#[global] Instance Result_bind : MBind Result := fun A B k m => bind m k.

(** ** The fragment of Poco used by the runner *)

Module Poco.

(** A value passed to [Poco::format] with its static type. *)
Inductive Any : Set :=
| AString (s : string)
| AUnsigned (n : Z)
| ALong (z : Z)
| AInt (z : Z).

Definition dec (z : Z) : string := NilZero.string_of_int (Z.to_int z).

Definition cERRFMT : string := "[ERRFMT]".

(** One conversion. The value's type has to be the one the conversion asks
    for, otherwise the bad cast is caught and [[ERRFMT]] is written. *)
Definition formatS (v : Any) : string :=
  match v with AString s => s | _ => cERRFMT end.

Definition formatU (v : Any) : string :=
  match v with AUnsigned n => dec n | _ => cERRFMT end.

Definition formatD (v : Any) : string :=
  match v with AInt z => dec z | _ => cERRFMT end.

Definition formatLD (v : Any) : string :=
  match v with ALong z => dec z | _ => cERRFMT end.

(** [Poco::format(fmt, values...)] for the conversions [%s], [%u], [%d] and
    [%ld] (no flags, width or precision, which the templates of this
    repository do not use). A [%] with no value left copies the next
    character; an unknown conversion character is copied and consumes no
    value. *)
Fixpoint format (fmt : string) (values : list Any) : string :=
  match fmt with
  | EmptyString => EmptyString
  | String "%" EmptyString => EmptyString
  | String "%" (String c rest) =>
      match values with
      | [] => String c (format rest [])
      | v :: values' =>
          match c, rest with
          | "s"%char, _ => formatS v +:+ format rest values'
          | "u"%char, _ => formatU v +:+ format rest values'
          | "d"%char, _ => formatD v +:+ format rest values'
          | "l"%char, String "d" rest' => formatLD v +:+ format rest' values'
          | _, _ => String c (format rest values)
          end
      end
  | String c rest => String c (format rest values)
  end.

(** [Poco::startsWith(str, prefix)]. *)
Definition startsWith (str prefix : string) : bool :=
  (String.length prefix <=? String.length str)%nat && String.prefix prefix str.

(** [Poco::endsWith(str, suffix)]. *)
Definition endsWith (str suffix : string) : bool :=
  (String.length suffix <=? String.length str)%nat
  && String.eqb
       (substring (String.length str - String.length suffix)
                  (String.length suffix) str)
       suffix.

End Poco.

(** [std::string::c_str()] read as a C string, and [String::CStr()] handed
    to a [std::string]: the characters before the first zero. The capacity
    of the static strings is not modelled: an assignment asserts it. *)
Fixpoint c_str (s : string) : string :=
  match s with
  | EmptyString => EmptyString
  | String c rest => if Ascii.eqb c Ascii.zero then EmptyString else String c (c_str rest)
  end.

(** ** Unit names (runner.cpp, CreateSystemdUnitName and CreateInstanceID) *)

(** Modelled from the spec: the constant [cSystemdUnitNameTemplate] of
    runner.hpp, which the spec gives as the fixed template
    aos-service@<instanceID>.service. *)
Definition cSystemdUnitNameTemplate : string := "aos-service@%s.service".

Definition CreateSystemdUnitName (instance : string) : string :=
  Poco.format cSystemdUnitNameTemplate [Poco.AString instance].

(** [std::string::substr(pos, count)]: throws past the end of the string. *)
Definition substr (s : string) (pos count : nat) : Result string :=
  if (pos <=? String.length s)%nat then Ok (substring pos count s)
  else Throw (StdException "basic_string::substr").

Definition CreateInstanceID (unitname : string) : Result string :=
  let prefix := "aos-service@" in
  let suffix := ".service" in
  if Poco.startsWith unitname prefix && Poco.endsWith unitname suffix then
    substr unitname (String.length prefix)
      (String.length unitname - String.length prefix - String.length suffix)
  else
    AOS_ERROR_THROW (AOS_ERROR_WRAP (ErrorOf eInvalidArgument ""))
                    "not a valid Aos service name".

(** ** Runner data (runner.hpp, systemdconn.hpp and the aos runner interface) *)

(** Modelled from the spec: the unit states of systemdconn.hpp, which the spec
    lists as Inactive, Activating, Active, Deactivating, Failed. *)
Module UnitStateEnum.
Inductive t : Set := eActive | eInactive | eFailed | eActivating | eDeactivating.
#[global] Instance eq_dec : EqDecision t.
Proof. solve_decision. Defined.
End UnitStateEnum.

Abbreviation UnitState := UnitStateEnum.t.

(** Modelled from the spec: the run states of an instance, Active or Failed. *)
Module InstanceRunStateEnum.
Inductive t : Set := eActive | eFailed.
#[global] Instance eq_dec : EqDecision t.
Proof. solve_decision. Defined.
End InstanceRunStateEnum.

Abbreviation InstanceRunState := InstanceRunStateEnum.t.

(** [aos::Duration]: a signed count of nanoseconds. *)
Definition Duration : Set := Z.

Definition cSeconds : Duration := 1000000000.

(** [Duration::Seconds()]: integer division, truncated as in C++. *)
Definition Seconds (d : Duration) : Z := Z.quot d cSeconds.

(** [static_cast<uint32_t>]. *)
Definition to_uint32 (z : Z) : Z := z mod 2 ^ 32.

Record UnitStatus : Set := mkUnitStatus {
  mName : string;
  mActiveState : UnitState;
  mExitCode : option Z
}.

Record RunParameters : Set := mkRunParameters {
  mStartInterval : option Duration;
  mStartBurst : option Z;
  mRestartInterval : option Duration
}.

Record RunStatus : Set := mkRunStatus {
  mInstanceID : string;
  mState : InstanceRunState;
  mError : Error
}.

(** An entry of [mStartingUnits]; its condition variable is the wait of
    [GetStartingUnitState] below. *)
Record StartingUnitData : Set := mkStartingUnitData {
  suRunState : UnitState;
  suExitCode : option Z
}.

Record RunningUnitData : Set := mkRunningUnitData {
  ruRunState : InstanceRunState;
  ruExitCode : option Z
}.

#[global] Instance RunningUnitData_eq_dec : EqDecision RunningUnitData.
Proof. solve_decision. Defined.

(** The constants of runner.hpp, taken as parameters. [startTime] stands
    for the product
    [static_cast<Duration>(cStartTimeMultiplier * startInterval)]. *)
Record RunnerConsts : Set := mkRunnerConsts {
  cDefaultStartInterval : Duration;
  cDefaultStartBurst : Z;
  cDefaultRestartInterval : Duration;
  cDefaultStopTimeout : Duration;
  startTime : Duration -> Duration;
  cSystemdDropInsDir : string;
  cParametersFileName : string;
  (** the value of a default-constructed [UnitState] *)
  cUnitStateDefault : UnitState
}.

(** [SystemdConnItf]: the supervisor connection, as a test double. *)
Record SystemdConnItf : Type := mkSystemdConn {
  StartUnit : string -> string -> Duration -> Error;
  StopUnit : string -> string -> Duration -> Error;
  ResetFailedUnit : string -> Error;
  GetUnitStatus : string -> UnitStatus * Error
}.

(** ** The file system *)

Inductive Node : Set :=
| Dir (perms : Z)
| File (perms : Z) (content : string).

#[global] Instance Node_eq_dec : EqDecision Node.
Proof. solve_decision. Defined.

(** Faults the environment injects into the file operations of a call: an
    error code (not 0) and message for the two std::filesystem calls, an
    error for [fs::WriteStringToFile] and [fs::RemoveAll]. [umaskDirPerms] is
    the mode a newly made directory starts with. *)
Record FsFaults : Type := mkFsFaults {
  create_directories_fault : string -> option (positive * string);
  permissions_fault : string -> option (positive * string);
  write_fault : string -> option Error;
  remove_fault : string -> option Error;
  umaskDirPerms : Z
}.

(** A fault is an error: a value that says none stands for [eFailed]. *)
Definition asFault (e : Error) : Error :=
  if IsNone e then ErrorOf eFailed (mMessage e) else e.

Inductive LogLevel : Set := LogDbg | LogWrn | LogErr.

(** What the runner did to its environment, in order. *)
Inductive Event : Type :=
| EvLog (lvl : LogLevel) (msg : string)
| EvCreateDirectories (path : string)
| EvPermissions (path : string) (perms : Z)
| EvWriteStringToFile (path content : string) (perms : Z)
| EvRemoveAll (path : string)
| EvStartUnit (name mode : string) (timeout : Duration)
| EvStopUnit (name mode : string) (timeout : Duration)
| EvResetFailedUnit (name : string)
| EvGetUnitStatus (name : string) (answer : UnitStatus * Error)
| EvListUnits (answer : list UnitStatus * Error)
| EvNotifyAll (name : string)
| EvUpdateRunStatus (instances : Result (list RunStatus)).

(** [std::thread mMonitoringThread]. *)
Inductive Thread : Set := NoThread | ThreadRunning | ThreadFinished.

Definition joinable (t : Thread) : bool :=
  match t with NoThread => false | _ => true end.

(** The runner object together with the file system it writes to and the
    history of its calls. *)
Record World : Type := mkWorld {
  mStartingUnits : gmap string StartingUnitData;
  mRunningUnits : gmap string RunningUnitData;
  mRunningInstances : list RunStatus;
  mClosed : bool;
  mMonitoringThread : Thread;
  mFS : gmap string Node;
  mHistory : list Event
}.

Definition emit (ev : Event) (w : World) : World :=
  mkWorld (mStartingUnits w) (mRunningUnits w) (mRunningInstances w)
          (mClosed w) (mMonitoringThread w) (mFS w) (mHistory w ++ [ev]).

Definition setFS (fs : gmap string Node) (w : World) : World :=
  mkWorld (mStartingUnits w) (mRunningUnits w) (mRunningInstances w)
          (mClosed w) (mMonitoringThread w) fs (mHistory w).

Definition setStartingUnits (m : gmap string StartingUnitData) (w : World) : World :=
  mkWorld m (mRunningUnits w) (mRunningInstances w)
          (mClosed w) (mMonitoringThread w) (mFS w) (mHistory w).

Definition setRunningUnits (m : gmap string RunningUnitData) (w : World) : World :=
  mkWorld (mStartingUnits w) m (mRunningInstances w)
          (mClosed w) (mMonitoringThread w) (mFS w) (mHistory w).

Definition setRunningInstances (l : list RunStatus) (w : World) : World :=
  mkWorld (mStartingUnits w) (mRunningUnits w) l
          (mClosed w) (mMonitoringThread w) (mFS w) (mHistory w).

Definition setClosed (b : bool) (w : World) : World :=
  mkWorld (mStartingUnits w) (mRunningUnits w) (mRunningInstances w)
          b (mMonitoringThread w) (mFS w) (mHistory w).

Definition setThread (t : Thread) (w : World) : World :=
  mkWorld (mStartingUnits w) (mRunningUnits w) (mRunningInstances w)
          (mClosed w) t (mFS w) (mHistory w).

(** The proper ancestors of a path: every non-empty prefix that ends just
    before a separator. *)
Fixpoint ancestors_from (acc rest : string) : list string :=
  match rest with
  | EmptyString => []
  | String c rest' =>
      (if Ascii.eqb c "/" && negb (String.eqb acc "") then [acc] else [])
      ++ ancestors_from (acc +:+ String c EmptyString) rest'
  end.

Definition ancestors (path : string) : list string := ancestors_from "" path.

Definition is_file (fs : gmap string Node) (path : string) : bool :=
  match fs !! path with Some (File _ _) => true | _ => false end.

Definition mkdir_if_absent (perms : Z) (fs : gmap string Node) (path : string)
  : gmap string Node :=
  match fs !! path with
  | Some _ => fs
  | None => <[path := Dir perms]> fs
  end.

Definition ENOTDIR : Z := 20.

(** [std::filesystem::create_directories(path, code)]: makes the directory
    and its missing ancestors; fails when one of them is a regular file, or
    when the environment says so. Returns the error code (0 for success). *)
Definition create_directories (ff : FsFaults) (path : string) (fs : gmap string Node)
  : (Z * string) * gmap string Node :=
  match create_directories_fault ff path with
  | Some (code, msg) => ((Z.pos code, msg), fs)
  | None =>
      if existsb (is_file fs) (ancestors path ++ [path])
      then ((ENOTDIR, "Not a directory"), fs)
      else ((0, ""),
            foldl (mkdir_if_absent (umaskDirPerms ff)) fs (ancestors path ++ [path]))
  end.

(** [std::filesystem::permissions(path, perms, perm_options::replace, code)]. *)
Definition permissions (ff : FsFaults) (path : string) (perms : Z) (fs : gmap string Node)
  : (Z * string) * gmap string Node :=
  match permissions_fault ff path with
  | Some (code, msg) => ((Z.pos code, msg), fs)
  | None =>
      match fs !! path with
      | Some (Dir _) => ((0, ""), <[path := Dir perms]> fs)
      | Some (File _ c) => ((0, ""), <[path := File perms c]> fs)
      | None => ((2, "No such file or directory"), fs)
      end
  end.

(** [fs::WriteStringToFile(path, content, perms)]. *)
Definition WriteStringToFile (ff : FsFaults) (path content : string) (perms : Z)
  (fs : gmap string Node) : Error * gmap string Node :=
  match write_fault ff path with
  | Some e => (asFault e, fs)
  | None => (ErrNone, <[path := File perms content]> fs)
  end.

(** A path at or below [dir]. *)
Definition under (dir path : string) : bool :=
  String.eqb path dir || String.prefix (dir +:+ "/") path.

(** [fs::RemoveAll(path)]: removes the entry and everything below it. *)
Definition RemoveAll (ff : FsFaults) (dir : string) (fs : gmap string Node)
  : Error * gmap string Node :=
  match remove_fault ff dir with
  | Some e => (asFault e, fs)
  | None => (ErrNone, filter (fun kv => under dir (fst kv) = false) fs)
  end.

(** ** Runner operations (runner.cpp) *)

Definition ToInstanceState (state : UnitState) : InstanceRunState :=
  if decide (state = UnitStateEnum.eActive) then InstanceRunStateEnum.eActive
  else InstanceRunStateEnum.eFailed.

(** The static [CreateDir(path, perms)]. *)
Definition CreateDir (ff : FsFaults) (path : string) (perms : Z) (w : World)
  : Error * World :=
  let '(code, fs1) := create_directories ff path (mFS w) in
  let w1 := emit (EvCreateDirectories path) (setFS fs1 w) in
  if negb (fst code =? 0) then
    (AOS_ERROR_WRAP (ErrorOfErrno (fst code) (snd code)), w1)
  else
    let '(code2, fs2) := permissions ff path perms (mFS w1) in
    let w2 := emit (EvPermissions path perms) (setFS fs2 w1) in
    if negb (fst code2 =? 0) then
      (AOS_ERROR_WRAP (ErrorOfErrno (fst code2) (snd code2)), w2)
    else (ErrNone, w2).

Definition nl : string := String "010" EmptyString.

Definition parametersFormat : string :=
  "[Unit]" +:+ nl +:+
  "StartLimitIntervalSec=%us" +:+ nl +:+
  "StartLimitBurst=%ld" +:+ nl +:+ nl +:+
  "[Service]" +:+ nl +:+
  "RestartSec=%us" +:+ nl.

(** The octal literals 0755 and 0644. *)
Definition perms_0755 : Z := 7 * 64 + 5 * 8 + 5.
Definition perms_0644 : Z := 6 * 64 + 4 * 8 + 4.

Definition parametersDirOf (K : RunnerConsts) (unitName : string) : string :=
  cSystemdDropInsDir K +:+ "/" +:+ unitName +:+ ".d".

(** [Optional::operator*] and [operator->] on the three run parameters; the
    only caller passes parameters whose three fields are set. *)
Definition deref (o : option Z) : Z := default 0 o.

Definition SetRunParameters (K : RunnerConsts) (ff : FsFaults)
  (unitName : string) (params : RunParameters) (w : World) : Error * World :=
  let formattedContent :=
    Poco.format parametersFormat
      [Poco.AUnsigned (to_uint32 (Seconds (deref (mStartInterval params))));
       Poco.ALong (deref (mStartBurst params));
       Poco.AUnsigned (to_uint32 (Seconds (deref (mRestartInterval params))))] in
  let parametersDir := parametersDirOf K unitName in
  let '(err, w1) := CreateDir ff parametersDir perms_0755 w in
  if negb (IsNone err) then (err, w1)
  else
    let paramsFile := parametersDir +:+ "/" +:+ cParametersFileName K in
    let '(err2, fs2) :=
      WriteStringToFile ff paramsFile formattedContent perms_0644 (mFS w1) in
    (err2, emit (EvWriteStringToFile paramsFile formattedContent perms_0644)
                (setFS fs2 w1)).

Definition RemoveRunParameters (K : RunnerConsts) (ff : FsFaults)
  (unitName : string) (w : World) : Error * World :=
  let parametersDir := parametersDirOf K unitName in
  let '(err, fs1) := RemoveAll ff parametersDir (mFS w) in
  (err, emit (EvRemoveAll parametersDir) (setFS fs1 w)).

(** The lambda of [GetRunningInstances]. *)
Definition toRunStatus (instanceID : string) (data : RunningUnitData) : RunStatus :=
  let error := match ruExitCode data with
               | Some code => ErrorOfErrno code ""
               | None => ErrNone
               end in
  mkRunStatus instanceID (ruRunState data) error.

(** [std::transform] with a back inserter: the elements converted before an
    exception stay in the destination. *)
Fixpoint transformUnits (units : list (string * RunningUnitData))
  : list RunStatus * option Exception :=
  match units with
  | [] => ([], None)
  | (name, data) :: rest =>
      match CreateInstanceID name with
      | Throw e => ([], Some e)
      | Ok instanceID =>
          let '(l, e) := transformUnits rest in
          (toRunStatus instanceID data :: l, e)
      end
  end.

Definition GetRunningInstances (w : World) : Result (list RunStatus) * World :=
  let '(l, e) := transformUnits (map_to_list (mRunningUnits w)) in
  let w1 := setRunningInstances l w in
  match e with
  | Some e => (Throw e, w1)
  | None => (Ok l, w1)
  end.

(** The body of the loop over the listed units in [MonitorUnits]. *)
Definition updateUnit (st : World * bool) (unit : UnitStatus) : World * bool :=
  let '(w, unitChanged) := st in
  let w1 :=
    match mStartingUnits w !! mName unit with
    | Some _ =>
        let w' := setStartingUnits
                    (<[mName unit := mkStartingUnitData (mActiveState unit) (mExitCode unit)]>
                       (mStartingUnits w)) w in
        if decide (mActiveState unit = UnitStateEnum.eFailed)
        then emit (EvNotifyAll (mName unit)) w' else w'
    | None => w
    end in
  match mRunningUnits w1 !! mName unit with
  | Some runningState =>
      let instanceState := ToInstanceState (mActiveState unit) in
      if negb (bool_decide (instanceState = ruRunState runningState))
         || negb (bool_decide (mExitCode unit = ruExitCode runningState))
      then (setRunningUnits
              (<[mName unit := mkRunningUnitData instanceState (mExitCode unit)]>
                 (mRunningUnits w1)) w1, true)
      else (w1, unitChanged)
  | None => (w1, unitChanged)
  end.

(** One wake-up of the monitor thread: whether [Stop()] has set [mClosed]
    during the wait, and what [ListUnits] answers. *)
Record Poll : Type := mkPoll {
  pStopRequested : bool;
  pListUnits : list UnitStatus * Error
}.

Inductive Outcome : Set := Continue | Return.

(** One iteration of the [while (!mClosed)] loop of [MonitorUnits]. An
    exception that leaves [GetRunningInstances] is not caught in the thread
    function: the model records it in the history and ends the thread. *)
Definition MonitorIteration (p : Poll) (w : World) : Outcome * World :=
  if mClosed w then (Return, w)
  else
    let w0 := if pStopRequested p then setClosed true w else w in
    if mClosed w0 then (Return, w0)
    else
      let '(units, err) := pListUnits p in
      let w1 := emit (EvListUnits (pListUnits p)) w0 in
      if negb (IsNone err) then
        (Return, emit (EvLog LogErr "Systemd list units failed") w1)
      else
        let '(w2, unitChanged) := foldl updateUnit (w1, false) units in
        if unitChanged
           || negb (size (mRunningUnits w2) =? length (mRunningInstances w2))%nat
        then
          let '(r, w3) := GetRunningInstances w2 in
          match r with
          | Ok l => (Continue, emit (EvUpdateRunStatus (Ok l)) w3)
          | Throw e => (Return, emit (EvUpdateRunStatus (Throw e)) w3)
          end
        else (Continue, w2).

(** [Runner::MonitorUnits], the thread function, run on the wake-ups it gets;
    when they are used up the thread is still in its wait. *)
Fixpoint MonitorUnits (polls : list Poll) (w : World) : World :=
  match polls with
  | [] => w
  | p :: rest =>
      match MonitorIteration p w with
      | (Continue, w1) => MonitorUnits rest w1
      | (Return, w1) => setThread ThreadFinished w1
      end
  end.

(** What the monitor thread does while another thread waits: nothing unless
    the thread is running. *)
Definition RunMonitor (polls : list Poll) (w : World) : World :=
  match mMonitoringThread w with
  | ThreadRunning => MonitorUnits polls w
  | _ => w
  end.

(** [Runner::Start]. [conn] is the outcome of [CreateSystemdConn()].
    Assigning to a joinable [std::thread] ends the process: [None]. *)
Definition Start (conn : Result unit) (w : World) : option (Error * World) :=
  let w0 := emit (EvLog LogDbg "Start runner") w in
  match conn with
  | Throw e => Some (AOS_ERROR_WRAP (ToAosError e), w0)
  | Ok _ =>
      let w1 := setClosed false w0 in
      if joinable (mMonitoringThread w1) then None
      else Some (ErrNone, setThread ThreadRunning w1)
  end.

(** [Runner::Stop]: the join lets the monitor thread see [mClosed] and
    return. *)
Definition Stop (w : World) : Error * World :=
  if mClosed w then (ErrNone, w)
  else
    let w0 := setClosed true (emit (EvLog LogDbg "Stop runner") w) in
    let w1 := if joinable (mMonitoringThread w0) then setThread NoThread w0 else w0 in
    (ErrNone, w1).

(** [mStartingUnits[unitName]]: [operator[]] default-constructs an entry
    that is not there. *)
Definition startingAt (K : RunnerConsts) (unitName : string) (w : World)
  : StartingUnitData :=
  default (mkStartingUnitData (cUnitStateDefault K) None)
          (mStartingUnits w !! unitName).

(** The second half of [GetStartingUnitState], from the return of
    [wait_for] on: the entry is read and erased, and the unit becomes a
    running one only when its last recorded state is active. *)
Definition GetStartingUnitState_wake (K : RunnerConsts) (unitName : string) (w : World)
  : (InstanceRunState * Error) * World :=
  let runState := suRunState (startingAt K unitName w) in
  let exitCode := suExitCode (startingAt K unitName w) in
  let w3 := setStartingUnits (delete unitName (mStartingUnits w)) w in
  if negb (bool_decide (runState = UnitStateEnum.eActive)) then
    let errMsg := "failed to start unit" in
    let err' := match exitCode with
                | Some code => ErrorOfErrno code errMsg
                | None => ErrorOf eFailed errMsg
                end in
    ((InstanceRunStateEnum.eFailed, AOS_ERROR_WRAP err'), w3)
  else
    let w4 := setRunningUnits
                (<[unitName := mkRunningUnitData InstanceRunStateEnum.eActive exitCode]>
                   (mRunningUnits w3)) w3 in
    ((InstanceRunStateEnum.eActive, ErrNone), w4).

(** The first half: the initial status is asked for and recorded in
    [mStartingUnits]. [inl] is the early return. *)
Definition GetStartingUnitState_register (sd : SystemdConnItf) (unitName : string)
  (w : World) : ((InstanceRunState * Error) * World) + World :=
  let '(initialStatus, err) := GetUnitStatus sd unitName in
  let w0 := emit (EvGetUnitStatus unitName (initialStatus, err)) w in
  if negb (IsNone err) then
    inl ((InstanceRunStateEnum.eFailed,
          AOS_ERROR_WRAP (ErrorWithMessage err "failed to get unit status")), w0)
  else
    inr (setStartingUnits
           (<[unitName := mkStartingUnitData (mActiveState initialStatus)
                                             (mExitCode initialStatus)]>
              (mStartingUnits w0)) w0).

(** [Runner::GetStartingUnitState]. [ticks] are the wake-ups the monitor
    thread gets while this thread waits on the unit's condition variable
    (none on a spurious wake-up): [wait_for] releases the mutex, the monitor
    iterations run under it, and the waiter takes it again. *)
Definition GetStartingUnitState (K : RunnerConsts) (sd : SystemdConnItf)
  (unitName : string) (startInterval : Duration) (ticks : list Poll) (w : World)
  : (InstanceRunState * Error) * World :=
  match GetStartingUnitState_register sd unitName w with
  | inl early => early
  | inr w1 => GetStartingUnitState_wake K unitName (RunMonitor ticks w1)
  end.

(** The first lines of [StartInstance]: absent parameters get defaults. *)
Definition FixRunParameters (K : RunnerConsts) (params : RunParameters) : RunParameters :=
  let fixedParams := params in
  let fixedParams :=
    if negb (bool_decide (is_Some (mStartInterval params)))
    then mkRunParameters (Some (cDefaultStartInterval K))
                         (mStartBurst fixedParams) (mRestartInterval fixedParams)
    else fixedParams in
  let fixedParams :=
    if negb (bool_decide (is_Some (mStartBurst params)))
    then mkRunParameters (mStartInterval fixedParams)
                         (Some (cDefaultStartBurst K)) (mRestartInterval fixedParams)
    else fixedParams in
  if negb (bool_decide (is_Some (mRestartInterval params)))
  then mkRunParameters (mStartInterval fixedParams) (mStartBurst fixedParams)
                       (Some (cDefaultRestartInterval K))
  else fixedParams.

(** [Runner::StartInstance]. *)
Definition StartInstance (K : RunnerConsts) (sd : SystemdConnItf) (ff : FsFaults)
  (instanceID runtimeDir : string) (params : RunParameters) (ticks : list Poll)
  (w : World) : RunStatus * World :=
  let fixedParams := FixRunParameters K params in
  let w0 := emit (EvLog LogDbg "Start service instance") w in
  let unitName := CreateSystemdUnitName instanceID in
  let '(err, w1) := SetRunParameters K ff unitName fixedParams w0 in
  if negb (IsNone err) then
    (mkRunStatus instanceID InstanceRunStateEnum.eFailed err, w1)
  else
    let startTime := startTime K (deref (mStartInterval fixedParams)) in
    let err2 := StartUnit sd unitName "replace" startTime in
    let w2 := emit (EvStartUnit unitName "replace" startTime) w1 in
    if negb (IsNone err2) then
      (mkRunStatus instanceID InstanceRunStateEnum.eFailed err2, w2)
    else
      let '((state, err3), w3) :=
        GetStartingUnitState K sd unitName startTime ticks w2 in
      (mkRunStatus instanceID state err3, emit (EvLog LogDbg "Start instance") w3).

(** [Runner::StopInstance]. *)
Definition StopInstance (K : RunnerConsts) (sd : SystemdConnItf) (ff : FsFaults)
  (instanceID : string) (w : World) : Error * World :=
  let w0 := emit (EvLog LogDbg "Stop service instance") w in
  let unitName := CreateSystemdUnitName instanceID in
  let w1 := setRunningUnits (delete unitName (mRunningUnits w0)) w0 in
  let err := StopUnit sd unitName "replace" (cDefaultStopTimeout K) in
  let w2 := emit (EvStopUnit unitName "replace" (cDefaultStopTimeout K)) w1 in
  let '(err, w3) :=
    if negb (IsNone err) then
      if Is err eNotFound
      then (ErrNone, emit (EvLog LogDbg "Service not loaded") w2)
      else (err, w2)
    else (err, w2) in
  let releaseErr := ResetFailedUnit sd unitName in
  let w4 := emit (EvResetFailedUnit unitName) w3 in
  let err :=
    if negb (IsNone releaseErr) then
      if negb (Is releaseErr eNotFound) && IsNone err then releaseErr else err
    else err in
  let '(rmErr, w5) := RemoveRunParameters K ff unitName w4 in
  let err :=
    if negb (IsNone rmErr) then
      if IsNone err then rmErr else err
    else err in
  (err, w5).

(** ** The runner as a system

    The caller threads and the monitor thread take the runner's mutex in
    turn. A call of [StartInstance] holds it twice, before and after its
    wait; in between any of the other actions may run, also the first half
    of another [StartInstance] of the same instance: the entry of
    [mStartingUnits] a waiter reads is then not the one it has written, and
    is a default-constructed one when another waiter has erased it. *)

(** [StartInstance] up to the wait: [inl] is a return before the wait. *)
Definition StartInstance_begin (K : RunnerConsts) (sd : SystemdConnItf) (ff : FsFaults)
  (instanceID runtimeDir : string) (params : RunParameters) (w : World)
  : (RunStatus * World) + World :=
  let fixedParams := FixRunParameters K params in
  let w0 := emit (EvLog LogDbg "Start service instance") w in
  let unitName := CreateSystemdUnitName instanceID in
  let '(err, w1) := SetRunParameters K ff unitName fixedParams w0 in
  if negb (IsNone err) then
    inl (mkRunStatus instanceID InstanceRunStateEnum.eFailed err, w1)
  else
    let startTime := startTime K (deref (mStartInterval fixedParams)) in
    let err2 := StartUnit sd unitName "replace" startTime in
    let w2 := emit (EvStartUnit unitName "replace" startTime) w1 in
    if negb (IsNone err2) then
      inl (mkRunStatus instanceID InstanceRunStateEnum.eFailed err2, w2)
    else
      match GetStartingUnitState_register sd unitName w2 with
      | inl ((state, err3), w3) =>
          inl (mkRunStatus instanceID state err3, emit (EvLog LogDbg "Start instance") w3)
      | inr w3 => inr w3
      end.

(** [StartInstance] from the return of the wait on. *)
Definition StartInstance_finish (K : RunnerConsts) (instanceID : string) (w : World)
  : RunStatus * World :=
  let unitName := CreateSystemdUnitName instanceID in
  let '((state, err3), w3) := GetStartingUnitState_wake K unitName w in
  (mkRunStatus instanceID state err3, emit (EvLog LogDbg "Start instance") w3).

Inductive Action : Type :=
| AStart (conn : Result unit)
| AStop
| AStartInstance_begin (sd : SystemdConnItf) (ff : FsFaults)
    (instanceID runtimeDir : string) (params : RunParameters)
| AStartInstance_finish (instanceID : string)
| AStopInstance (sd : SystemdConnItf) (ff : FsFaults) (instanceID : string)
| AMonitor (polls : list Poll).

(** A list without the first occurrence of an element. *)
Fixpoint removeFirst (x : string) (l : list string) : list string :=
  match l with
  | [] => []
  | y :: rest => if String.eqb x y then rest else y :: removeFirst x rest
  end.

(** One action, on the runner and on the calls of [StartInstance] that are
    in their wait ([waiting]: their instance IDs, one entry for each call).
    [None] when the action cannot happen: [Start] over a joinable thread
    ends the process, and only a call that waits finishes. A call of
    [StartInstance] begins whatever other calls wait, also one of the same
    instance: the mutex is free during the wait. *)
Definition perform (K : RunnerConsts) (a : Action) (w : World) (waiting : list string)
  : option (World * list string) :=
  match a with
  | AStart conn =>
      match Start conn w with
      | Some (_, w') => Some (w', waiting)
      | None => None
      end
  | AStop => Some (snd (Stop w), waiting)
  | AStartInstance_begin sd ff instanceID runtimeDir params =>
      match StartInstance_begin K sd ff instanceID runtimeDir params w with
      | inl (_, w') => Some (w', waiting)
      | inr w' => Some (w', instanceID :: waiting)
      end
  | AStartInstance_finish instanceID =>
      if bool_decide (instanceID ∈ waiting)
      then Some (snd (StartInstance_finish K instanceID w),
                 removeFirst instanceID waiting)
      else None
  | AStopInstance sd ff instanceID =>
      Some (snd (StopInstance K sd ff instanceID w), waiting)
  | AMonitor polls => Some (RunMonitor polls w, waiting)
  end.

Fixpoint runFrom (K : RunnerConsts) (actions : list Action) (w : World)
  (waiting : list string) : option (World * list string) :=
  match actions with
  | [] => Some (w, waiting)
  | a :: rest =>
      match perform K a w waiting with
      | Some (w', waiting') => runFrom K rest w' waiting'
      | None => None
      end
  end.

(** The runner after a sequence of actions, no call waiting at first. *)
Definition run (K : RunnerConsts) (actions : list Action) (w : World) : option World :=
  fst <$> runFrom K actions w [].


(** A runner after construction and [Init]. *)
Definition initWorld (closed : bool) (fs : gmap string Node) : World :=
  mkWorld ∅ ∅ [] closed NoThread fs [].

(** An answer of the supervisor that reports the unit in state active. *)
Definition reportsActive (unitName : string) (ev : Event) : bool :=
  match ev with
  | EvGetUnitStatus name (status, err) =>
      bool_decide (name = unitName) && IsNone err
      && bool_decide (mActiveState status = UnitStateEnum.eActive)
  | EvListUnits (units, err) =>
      IsNone err
      && existsb (fun unit => bool_decide (mName unit = unitName)
                              && bool_decide (mActiveState unit = UnitStateEnum.eActive))
                 units
  | _ => false
  end.

Definition observedActive (unitName : string) (history : list Event) : bool :=
  existsb (reportsActive unitName) history.

(** ** Reference definitions and doubles for the runner *)

(** The monitor thread does not touch the file system, neither adds nor
    removes a unit of the two maps, and only adds to the history. *)
Definition monitored (w w' : World) : Prop :=
  mFS w' = mFS w
  /\ dom (mRunningUnits w') = dom (mRunningUnits w)
  /\ dom (mStartingUnits w') = dom (mStartingUnits w)
  /\ exists evs, mHistory w' = mHistory w ++ evs.


(** The content of the drop-in file, written out. *)
Definition dropInContent (startInterval : Duration) (startBurst : Z)
  (restartInterval : Duration) : string :=
  "[Unit]" +:+ nl +:+
  "StartLimitIntervalSec=" +:+ Poco.dec (to_uint32 (Seconds startInterval)) +:+ "s" +:+ nl +:+
  "StartLimitBurst=" +:+ Poco.dec startBurst +:+ nl +:+ nl +:+
  "[Service]" +:+ nl +:+
  "RestartSec=" +:+ Poco.dec (to_uint32 (Seconds restartInterval)) +:+ "s" +:+ nl.

(** The first real error of a list, none when there is none. *)
Fixpoint firstError (errs : list Error) : Error :=
  match errs with
  | [] => ErrNone
  | e :: rest => if IsNone e then firstError rest else e
  end.

(** An error with NotFound turned into success. *)
Definition unlessNotFound (e : Error) : Error :=
  if Is e eNotFound then ErrNone else e.

(** Every running unit is named after an instance. *)
Definition unitsAreNames (w : World) : Prop :=
  forall unitName data,
    mRunningUnits w !! unitName = Some data ->
    exists instanceID, unitName = CreateSystemdUnitName instanceID.

(** A unit recorded as active, running or starting, has been reported
    active by the supervisor. *)
Definition activeObserved (w : World) : Prop :=
  (forall unitName data,
     mRunningUnits w !! unitName = Some data ->
     ruRunState data = InstanceRunStateEnum.eActive ->
     observedActive unitName (mHistory w) = true)
  /\ (forall unitName data,
        mStartingUnits w !! unitName = Some data ->
        suRunState data = UnitStateEnum.eActive ->
        observedActive unitName (mHistory w) = true).

(** Every status array handed to the receiver has its active instances
    reported active before. *)
Definition emissionsObserved (history : list Event) : Prop :=
  forall pre instances post,
    history = pre ++ EvUpdateRunStatus (Ok instances) :: post ->
    forall status,
      In status instances ->
      mState status = InstanceRunStateEnum.eActive ->
      observedActive (CreateSystemdUnitName (mInstanceID status)) pre = true.

Definition RunnerInv (w : World) : Prop :=
  unitsAreNames w /\ activeObserved w /\ emissionsObserved (mHistory w).


(** The events of the file operations. *)
Definition isFileOp (ev : Event) : Prop :=
  match ev with
  | EvCreateDirectories _ | EvPermissions _ _ | EvWriteStringToFile _ _ _ => True
  | _ => False
  end.

(** Events other than a status array handed to the receiver. *)
Definition quiet (evs : list Event) : Prop :=
  forall instances, ~ In (EvUpdateRunStatus (Ok instances)) evs.

(** A step of the runner that hands nothing to the receiver and whose new
    or changed map entries are accounted for: a running unit that is new is
    named after an instance, and an entry that is new or changed and active
    has been reported active. *)
Definition justified (w w' : World) : Prop :=
  (exists evs, mHistory w' = mHistory w ++ evs /\ quiet evs)
  /\ (forall unitName data,
        mRunningUnits w' !! unitName = Some data ->
        (is_Some (mRunningUnits w !! unitName)
         \/ exists instanceID, unitName = CreateSystemdUnitName instanceID)
        /\ (mRunningUnits w !! unitName = Some data
            \/ (ruRunState data = InstanceRunStateEnum.eActive ->
                observedActive unitName (mHistory w') = true)))
  /\ (forall unitName data,
        mStartingUnits w' !! unitName = Some data ->
        mStartingUnits w !! unitName = Some data
        \/ (suRunState data = UnitStateEnum.eActive ->
            observedActive unitName (mHistory w') = true)).

Module Doubles.

(** Constants for the examples: a start timeout of five start intervals,
    drop-ins under the run-time directory of the supervisor. *)
Definition K : RunnerConsts :=
  mkRunnerConsts (5 * cSeconds) 3 (1 * cSeconds) (5 * cSeconds)
    (fun d => 5 * d) "/run/systemd/system" "parameters.conf"
    UnitStateEnum.eInactive.


(** A supervisor that accepts every call and reports every unit in the
    given state. *)
Definition systemd (state : UnitState) (exitCode : option Z) : SystemdConnItf :=
  mkSystemdConn (fun _ _ _ => ErrNone) (fun _ _ _ => ErrNone) (fun _ => ErrNone)
    (fun name => (mkUnitStatus name state exitCode, ErrNone)).

(** A supervisor that does not know the unit. *)
Definition systemdNotLoaded : SystemdConnItf :=
  mkSystemdConn (fun _ _ _ => ErrNone)
    (fun _ _ _ => ErrorOf eNotFound "unit not loaded")
    (fun _ => ErrorOf eNotFound "unit not loaded")
    (fun name => (mkUnitStatus name UnitStateEnum.eInactive None,
                  ErrorOf eNotFound "unit not loaded")).

(** A file system without faults. *)
Definition noFaults : FsFaults :=
  mkFsFaults (fun _ => None) (fun _ => None) (fun _ => None) (fun _ => None)
    perms_0755.

(** A file system whose removal answers NotFound. *)
Definition removalNotFound : FsFaults :=
  mkFsFaults (fun _ => None) (fun _ => None) (fun _ => None)
    (fun _ => Some (ErrorOf eNotFound "no such directory")) perms_0755.

Definition listed (name : string) (state : UnitState) (exitCode : option Z) : Poll :=
  mkPoll false ([mkUnitStatus name state exitCode], ErrNone).

Definition listFails : Poll :=
  mkPoll false ([], ErrorOf eFailed "connection reset").

(** A started runner: not closed, monitor thread running. *)
Definition started : World := mkWorld ∅ ∅ [] false ThreadRunning ∅ [].

End Doubles.

(** ** Configuration (config.hpp, config.cpp) *)

Module Config.

(** State and exception: a parser writes into its out-parameter and may
    throw; what it wrote before the throw stays written. *)
Definition M (S A : Type) : Type := S -> Result A * S.

#[global] Instance M_ret {S} : MRet (M S) := fun A a s => (Ok a, s).
#[global] Instance M_bind {S} : MBind (M S) := fun A B k m s =>
  match m s with
  | (Ok a, s') => k a s'
  | (Throw e, s') => (Throw e, s')
  end.

Definition lift {S A} (r : Result A) : M S A := fun s => (r, s).
Definition modify {S} (f : S -> S) : M S unit := fun s => (Ok tt, f s).
Definition get {S} : M S S := fun s => (Ok s, s).

(** Run a parser of a part on the whole. *)
Definition zoom {S T A} (proj : S -> T) (upd : T -> S -> S) (m : M T A) : M S A :=
  fun s => let '(r, t) := m (proj s) in (r, upd t s).

(** What a Poco call yields: a value or a Poco exception with its text. *)
Inductive Outcome (A : Type) : Type :=
| Value (a : A)
| Raises (msg : string).

Arguments Value {A} a.
Arguments Raises {A} msg.

Definition poco {S A} (o : Outcome A) : M S A :=
  lift (match o with Value a => Ok a | Raises msg => Throw (PocoException msg) end).

(** The JSON side of the parser: [Poco::JSON::Parser] and the
    [common::utils::CaseInsensitiveObjectWrapper] of the common library, as a
    test double over an object type [Obj]. *)
Record JsonItf (Obj : Type) : Type := mkJsonItf {
  parse : string -> Outcome Obj;
  emptyObject : Obj;
  Has : Obj -> string -> bool;
  GetObject : Obj -> string -> Outcome Obj;
  GetString : Obj -> string -> Outcome string;
  GetStringOr : Obj -> string -> string -> Outcome string;
  GetUInt32 : Obj -> string -> Outcome Z;
  GetUInt64Or : Obj -> string -> Z -> Outcome Z;
  GetSizeOr : Obj -> string -> Z -> Outcome Z;
  GetOptionalString : Obj -> string -> Outcome (option string);
  GetOptionalInt : Obj -> string -> Outcome (option Z);
  GetArrayString : Obj -> string -> Outcome (list string);
  GetArrayObject : Obj -> string -> Outcome (list Obj)
}.

Arguments parse {Obj} _ _.
Arguments emptyObject {Obj} _.
Arguments Has {Obj} _ _ _.
Arguments GetObject {Obj} _ _ _.
Arguments GetString {Obj} _ _ _.
Arguments GetStringOr {Obj} _ _ _ _.
Arguments GetUInt32 {Obj} _ _ _.
Arguments GetUInt64Or {Obj} _ _ _ _.
Arguments GetSizeOr {Obj} _ _ _ _.
Arguments GetOptionalString {Obj} _ _ _.
Arguments GetOptionalInt {Obj} _ _ _.
Arguments GetArrayString {Obj} _ _ _.
Arguments GetArrayObject {Obj} _ _ _.

(** Library parts the parser relies on: [common::utils::ParseDuration], the
    log content length and the capacities of the two static arrays. *)
Record Lib : Type := mkLib {
  ParseDuration : string -> Duration * Error;
  cLogContentLen : Z;
  cMaxNumHostBinds : nat;
  cMaxNumHosts : nat
}.

Definition cDefaultServiceTTLDays : string := "30d".
Definition cDefaultLayerTTLDays : string := "30d".
Definition cDefaultHealthCheckTimeout : string := "35s".
Definition cDefaultCMReconnectTimeout : string := "10s".
Definition cDefaultMonitoringPollPeriod : string := "35s".
Definition cDefaultMonitoringAverageWindow : string := "35s".
Definition cDefaultServiceAlertPriority : Z := 4.
Definition cDefaultSystemAlertPriority : Z := 3.
Definition cMaxAlertPriorityLevel : Z := 7.
Definition cMinAlertPriorityLevel : Z := 0.

Record Host : Set := mkHost { mIP : string; mHostname : string }.

Record IAMClientConfig : Set := mkIAMClientConfig {
  mIAMPublicServerURL : string;
  mCACert : string
}.

Record LayerManagerConfig : Set := mkLayerManagerConfig {
  mLayersDir : string;
  lmDownloadDir : string;
  lmPartLimit : Z;
  lmTTL : Duration;
  lmRemoveOutdatedPeriod : Duration
}.

Record ServiceManagerConfig : Set := mkServiceManagerConfig {
  mServicesDir : string;
  smDownloadDir : string;
  smPartLimit : Z;
  smTTL : Duration;
  smRemoveOutdatedPeriod : Duration
}.

Record LauncherConfig : Set := mkLauncherConfig {
  mStorageDir : string;
  mStateDir : string;
  mWorkDir : string;
  mHostBinds : list string;
  mHosts : list Host;
  lRemoveOutdatedPeriod : Duration
}.

Record SMClientConfig : Set := mkSMClientConfig {
  scCertStorage : string;
  mCMServerURL : string;
  mCMReconnectTimeout : Duration
}.

Record MonitoringConfig : Set := mkMonitoringConfig {
  mPollPeriod : Duration;
  mAverageWindow : Duration
}.

Record LoggingConfig : Set := mkLoggingConfig {
  mMaxPartSize : Z;
  mMaxPartCount : Z
}.

Record JournalAlertsConfig : Set := mkJournalAlertsConfig {
  mFilter : list string;
  mServiceAlertPriority : Z;
  mSystemAlertPriority : Z
}.

Record MigrationConfig : Set := mkMigrationConfig {
  mMigrationPath : string;
  mMergedMigrationPath : string
}.

Record Config : Set := mkConfig {
  mIAMClientConfig : IAMClientConfig;
  mLayerManagerConfig : LayerManagerConfig;
  mServiceManagerConfig : ServiceManagerConfig;
  mLauncherConfig : LauncherConfig;
  mSMClientConfig : SMClientConfig;
  mCertStorage : string;
  mIAMProtectedServerURL : string;
  mWorkingDir : string;
  mServicesPartLimit : Z;
  mLayersPartLimit : Z;
  mNodeConfigFile : string;
  mMonitoring : MonitoringConfig;
  mLogging : LoggingConfig;
  mJournalAlerts : JournalAlertsConfig;
  mMigration : MigrationConfig
}.

(** The out-parameter of [ParseConfig] and the log lines written so far. *)
Record PState : Type := mkPState {
  cfg : Config;
  logged : list Event
}.

Definition onCfg (f : Config -> Config) (s : PState) : PState :=
  mkPState (f (cfg s)) (logged s).

Definition setIAMClientConfig v c := mkConfig v (mLayerManagerConfig c)
  (mServiceManagerConfig c) (mLauncherConfig c) (mSMClientConfig c) (mCertStorage c)
  (mIAMProtectedServerURL c) (mWorkingDir c) (mServicesPartLimit c) (mLayersPartLimit c)
  (mNodeConfigFile c) (mMonitoring c) (mLogging c) (mJournalAlerts c) (mMigration c).
Definition setLayerManagerConfig v c := mkConfig (mIAMClientConfig c) v
  (mServiceManagerConfig c) (mLauncherConfig c) (mSMClientConfig c) (mCertStorage c)
  (mIAMProtectedServerURL c) (mWorkingDir c) (mServicesPartLimit c) (mLayersPartLimit c)
  (mNodeConfigFile c) (mMonitoring c) (mLogging c) (mJournalAlerts c) (mMigration c).
Definition setServiceManagerConfig v c := mkConfig (mIAMClientConfig c)
  (mLayerManagerConfig c) v (mLauncherConfig c) (mSMClientConfig c) (mCertStorage c)
  (mIAMProtectedServerURL c) (mWorkingDir c) (mServicesPartLimit c) (mLayersPartLimit c)
  (mNodeConfigFile c) (mMonitoring c) (mLogging c) (mJournalAlerts c) (mMigration c).
Definition setLauncherConfig v c := mkConfig (mIAMClientConfig c)
  (mLayerManagerConfig c) (mServiceManagerConfig c) v (mSMClientConfig c) (mCertStorage c)
  (mIAMProtectedServerURL c) (mWorkingDir c) (mServicesPartLimit c) (mLayersPartLimit c)
  (mNodeConfigFile c) (mMonitoring c) (mLogging c) (mJournalAlerts c) (mMigration c).
Definition setSMClientConfig v c := mkConfig (mIAMClientConfig c)
  (mLayerManagerConfig c) (mServiceManagerConfig c) (mLauncherConfig c) v (mCertStorage c)
  (mIAMProtectedServerURL c) (mWorkingDir c) (mServicesPartLimit c) (mLayersPartLimit c)
  (mNodeConfigFile c) (mMonitoring c) (mLogging c) (mJournalAlerts c) (mMigration c).
Definition setCertStorage v c := mkConfig (mIAMClientConfig c)
  (mLayerManagerConfig c) (mServiceManagerConfig c) (mLauncherConfig c) (mSMClientConfig c) v
  (mIAMProtectedServerURL c) (mWorkingDir c) (mServicesPartLimit c) (mLayersPartLimit c)
  (mNodeConfigFile c) (mMonitoring c) (mLogging c) (mJournalAlerts c) (mMigration c).
Definition setIAMProtectedServerURL v c := mkConfig (mIAMClientConfig c)
  (mLayerManagerConfig c) (mServiceManagerConfig c) (mLauncherConfig c) (mSMClientConfig c)
  (mCertStorage c) v (mWorkingDir c) (mServicesPartLimit c) (mLayersPartLimit c)
  (mNodeConfigFile c) (mMonitoring c) (mLogging c) (mJournalAlerts c) (mMigration c).
Definition setWorkingDir v c := mkConfig (mIAMClientConfig c)
  (mLayerManagerConfig c) (mServiceManagerConfig c) (mLauncherConfig c) (mSMClientConfig c)
  (mCertStorage c) (mIAMProtectedServerURL c) v (mServicesPartLimit c) (mLayersPartLimit c)
  (mNodeConfigFile c) (mMonitoring c) (mLogging c) (mJournalAlerts c) (mMigration c).
Definition setServicesPartLimit v c := mkConfig (mIAMClientConfig c)
  (mLayerManagerConfig c) (mServiceManagerConfig c) (mLauncherConfig c) (mSMClientConfig c)
  (mCertStorage c) (mIAMProtectedServerURL c) (mWorkingDir c) v (mLayersPartLimit c)
  (mNodeConfigFile c) (mMonitoring c) (mLogging c) (mJournalAlerts c) (mMigration c).
Definition setLayersPartLimit v c := mkConfig (mIAMClientConfig c)
  (mLayerManagerConfig c) (mServiceManagerConfig c) (mLauncherConfig c) (mSMClientConfig c)
  (mCertStorage c) (mIAMProtectedServerURL c) (mWorkingDir c) (mServicesPartLimit c) v
  (mNodeConfigFile c) (mMonitoring c) (mLogging c) (mJournalAlerts c) (mMigration c).
Definition setNodeConfigFile v c := mkConfig (mIAMClientConfig c)
  (mLayerManagerConfig c) (mServiceManagerConfig c) (mLauncherConfig c) (mSMClientConfig c)
  (mCertStorage c) (mIAMProtectedServerURL c) (mWorkingDir c) (mServicesPartLimit c)
  (mLayersPartLimit c) v (mMonitoring c) (mLogging c) (mJournalAlerts c) (mMigration c).
Definition setMonitoring v c := mkConfig (mIAMClientConfig c)
  (mLayerManagerConfig c) (mServiceManagerConfig c) (mLauncherConfig c) (mSMClientConfig c)
  (mCertStorage c) (mIAMProtectedServerURL c) (mWorkingDir c) (mServicesPartLimit c)
  (mLayersPartLimit c) (mNodeConfigFile c) v (mLogging c) (mJournalAlerts c) (mMigration c).
Definition setLogging v c := mkConfig (mIAMClientConfig c)
  (mLayerManagerConfig c) (mServiceManagerConfig c) (mLauncherConfig c) (mSMClientConfig c)
  (mCertStorage c) (mIAMProtectedServerURL c) (mWorkingDir c) (mServicesPartLimit c)
  (mLayersPartLimit c) (mNodeConfigFile c) (mMonitoring c) v (mJournalAlerts c) (mMigration c).
Definition setJournalAlerts v c := mkConfig (mIAMClientConfig c)
  (mLayerManagerConfig c) (mServiceManagerConfig c) (mLauncherConfig c) (mSMClientConfig c)
  (mCertStorage c) (mIAMProtectedServerURL c) (mWorkingDir c) (mServicesPartLimit c)
  (mLayersPartLimit c) (mNodeConfigFile c) (mMonitoring c) (mLogging c) v (mMigration c).
Definition setMigration v c := mkConfig (mIAMClientConfig c)
  (mLayerManagerConfig c) (mServiceManagerConfig c) (mLauncherConfig c) (mSMClientConfig c)
  (mCertStorage c) (mIAMProtectedServerURL c) (mWorkingDir c) (mServicesPartLimit c)
  (mLayersPartLimit c) (mNodeConfigFile c) (mMonitoring c) (mLogging c) (mJournalAlerts c) v.

(** [JoinPath]: [std::filesystem::path::operator/=]. An absolute entry
    replaces the base; otherwise a separator is put between the two unless
    the base is empty or ends with one. *)
Definition endsWithSlash (s : string) : bool := Poco.endsWith s "/".

Definition JoinPath (base entry : string) : string :=
  if String.prefix "/" entry then entry
  else if String.eqb base "" || endsWithSlash base then base +:+ entry
  else base +:+ "/" +:+ entry.

(** [Tie(field, err) = ParseDuration(text); AOS_ERROR_CHECK_AND_THROW]: the
    field is assigned before the error is looked at. *)
Definition parseDurationInto {S} (L : Lib) (text : string)
  (assign : Duration -> S -> S) (msg : string) : M S unit :=
  let '(d, err) := ParseDuration L text in
  modify (assign d) ;;
  lift (AOS_ERROR_CHECK_AND_THROW err msg).

(** [StaticArray::EmplaceBack]. *)
Definition EmplaceBack {A} (capacity : nat) (x : A) (l : list A) : Error * list A :=
  if (length l <? capacity)%nat then (ErrNone, l ++ [x])
  else (ErrorOf eNoMemory "", l).

(** A computation whose exceptions all stand for a real error. *)
Definition honest {S A} (m : M S A) : Prop :=
  forall s e s', m s = (Throw e, s') -> IsNone (ToAosError e) = false.

(** A parser that returns, taking its out-parameter from [before] to
    [after]. *)
Definition returnsInto {S} (m : M S unit) (before after : S) : Prop :=
  m before = (Ok tt, after).

Section Parsers.

Context {Obj : Type} (J : JsonItf Obj) (L : Lib).

Definition ParseMonitoringConfig (object : Obj) : M MonitoringConfig unit :=
  pollPeriod ←
    (if Has J object "monitoring"
     then o ← poco (GetObject J object "monitoring");
          poco (GetStringOr J o "pollPeriod" cDefaultMonitoringPollPeriod)
     else mret cDefaultMonitoringPollPeriod);
  averageWindow ←
    (if Has J object "monitoring"
     then o ← poco (GetObject J object "monitoring");
          poco (GetStringOr J o "averageWindow" cDefaultMonitoringAverageWindow)
     else mret cDefaultMonitoringAverageWindow);
  parseDurationInto L pollPeriod
    (fun d c => mkMonitoringConfig d (mAverageWindow c))
    "error parsing pollPeriod tag" ;;
  parseDurationInto L averageWindow
    (fun d c => mkMonitoringConfig (mPollPeriod c) d)
    "error parsing averageWindow tag".

Definition ParseLoggingConfig (object : Obj) : M LoggingConfig unit :=
  v ← poco (GetUInt64Or J object "maxPartSize" (cLogContentLen L));
  modify (fun c => mkLoggingConfig v (mMaxPartCount c)) ;;
  n ← poco (GetUInt64Or J object "maxPartCount" 80);
  modify (fun c => mkLoggingConfig (mMaxPartSize c) n).

Definition warn (msg : string) (value : Z) : Event :=
  EvLog LogWrn (msg +:+ Poco.dec value).

(** The two warnings of [ParseJournalAlertsConfig]; both print the default
    of the service priority. *)
Definition serviceWarning : Event :=
  warn "Default value is set for service alert priority: value="
       cDefaultServiceAlertPriority.

Definition systemWarning : Event :=
  warn "Default value is set for system alert priority: value="
       cDefaultServiceAlertPriority.

Definition ParseJournalAlertsConfig (object : Obj)
  : M (JournalAlertsConfig * list Event) unit :=
  filter ← poco (GetArrayString J object "filter");
  modify (fun '(c, l) =>
    (mkJournalAlertsConfig filter (mServiceAlertPriority c) (mSystemAlertPriority c), l)) ;;
  service ← poco (GetOptionalInt J object "serviceAlertPriority");
  modify (fun '(c, l) =>
    (mkJournalAlertsConfig (mFilter c) (default cDefaultServiceAlertPriority service)
                           (mSystemAlertPriority c), l)) ;;
  '(c, _) ← get;
  (if (mServiceAlertPriority c >? cMaxAlertPriorityLevel)
      || (mServiceAlertPriority c <? cMinAlertPriorityLevel)
   then modify (fun '(c, l) =>
          (mkJournalAlertsConfig (mFilter c) cDefaultServiceAlertPriority
                                 (mSystemAlertPriority c),
           l ++ [warn "Default value is set for service alert priority: value="
                      cDefaultServiceAlertPriority]))
   else mret tt) ;;
  system ← poco (GetOptionalInt J object "systemAlertPriority");
  modify (fun '(c, l) =>
    (mkJournalAlertsConfig (mFilter c) (mServiceAlertPriority c)
                           (default cDefaultSystemAlertPriority system), l)) ;;
  '(c, _) ← get;
  (if (mSystemAlertPriority c >? cMaxAlertPriorityLevel)
      || (mSystemAlertPriority c <? cMinAlertPriorityLevel)
   then modify (fun '(c, l) =>
          (mkJournalAlertsConfig (mFilter c) (mServiceAlertPriority c)
                                 cDefaultSystemAlertPriority,
           l ++ [warn "Default value is set for system alert priority: value="
                      cDefaultServiceAlertPriority]))
   else mret tt).

(** [ParseHostConfig]: the host is built from [ip.c_str()] and
    [hostname.c_str()]. *)
Definition ParseHostConfig (object : Obj) : Result Host :=
  match GetString J object "ip" with
  | Raises msg => Throw (PocoException msg)
  | Value ip =>
      match GetString J object "hostname" with
      | Raises msg => Throw (PocoException msg)
      | Value hostname => Ok (mkHost (c_str ip) (c_str hostname))
      end
  end.

(** [ParseMigrationConfig]: the default of the merged path is the
    [c_str()] of the joined path; a path that the file gives is taken as it
    is. *)
Definition ParseMigrationConfig (object : Obj) (workingDir : string)
  : M MigrationConfig unit :=
  p ← poco (GetOptionalString J object "migrationPath");
  modify (fun c => mkMigrationConfig
                     (default "/usr/share/aos/servicemanager/migration" p)
                     (mMergedMigrationPath c)) ;;
  q ← poco (GetOptionalString J object "mergedMigrationPath");
  modify (fun c => mkMigrationConfig (mMigrationPath c)
                     (default (c_str (JoinPath workingDir "mergedMigration")) q)).

Definition ParseIAMClientConfig (object : Obj) : M IAMClientConfig unit :=
  u ← poco (GetString J object "iamPublicServerURL");
  modify (fun c => mkIAMClientConfig u (mCACert c)) ;;
  v ← poco (GetString J object "caCert");
  modify (fun c => mkIAMClientConfig (mIAMPublicServerURL c) v).

(** The optional [removeOutdatedPeriod] of three of the sections. *)
Definition parseRemoveOutdatedPeriod {S} (object : Obj)
  (assign : Duration -> S -> S) : M S unit :=
  removeOutdatedPeriod ← poco (GetOptionalString J object "removeOutdatedPeriod");
  match removeOutdatedPeriod with
  | Some text =>
      parseDurationInto L text assign "error parsing removeOutdatedPeriod tag"
  | None => mret tt
  end.

(** [ParseServiceManagerConfig] and [ParseLayerManagerConfig]: the two
    directories are assigned from the [c_str()] of what is read. *)
Definition ParseServiceManagerConfig (object : Obj) (workingDir : string)
  : M ServiceManagerConfig unit :=
  d ← poco (GetStringOr J object "servicesDir" (JoinPath workingDir "services"));
  modify (fun c => mkServiceManagerConfig (c_str d) (smDownloadDir c) (smPartLimit c)
                     (smTTL c) (smRemoveOutdatedPeriod c)) ;;
  d ← poco (GetStringOr J object "downloadDir" (JoinPath workingDir "downloads"));
  modify (fun c => mkServiceManagerConfig (mServicesDir c) (c_str d) (smPartLimit c)
                     (smTTL c) (smRemoveOutdatedPeriod c)) ;;
  n ← poco (GetSizeOr J object "servicesPartLimit" 0);
  modify (fun c => mkServiceManagerConfig (mServicesDir c) (smDownloadDir c) n
                     (smTTL c) (smRemoveOutdatedPeriod c)) ;;
  ttl ← poco (GetStringOr J object "serviceTTL" cDefaultServiceTTLDays);
  parseDurationInto L ttl
    (fun t c => mkServiceManagerConfig (mServicesDir c) (smDownloadDir c)
                  (smPartLimit c) t (smRemoveOutdatedPeriod c))
    "error parsing serviceTTL tag" ;;
  parseRemoveOutdatedPeriod object
    (fun t c => mkServiceManagerConfig (mServicesDir c) (smDownloadDir c)
                  (smPartLimit c) (smTTL c) t).

Definition ParseLayerManagerConfig (object : Obj) (workingDir : string)
  : M LayerManagerConfig unit :=
  d ← poco (GetStringOr J object "layersDir" (JoinPath workingDir "layers"));
  modify (fun c => mkLayerManagerConfig (c_str d) (lmDownloadDir c) (lmPartLimit c)
                     (lmTTL c) (lmRemoveOutdatedPeriod c)) ;;
  d ← poco (GetStringOr J object "downloadDir" (JoinPath workingDir "downloads"));
  modify (fun c => mkLayerManagerConfig (mLayersDir c) (c_str d) (lmPartLimit c)
                     (lmTTL c) (lmRemoveOutdatedPeriod c)) ;;
  n ← poco (GetSizeOr J object "layersPartLimit" 0);
  modify (fun c => mkLayerManagerConfig (mLayersDir c) (lmDownloadDir c) n
                     (lmTTL c) (lmRemoveOutdatedPeriod c)) ;;
  ttl ← poco (GetStringOr J object "layerTTL" cDefaultLayerTTLDays);
  parseDurationInto L ttl
    (fun t c => mkLayerManagerConfig (mLayersDir c) (lmDownloadDir c)
                  (lmPartLimit c) t (lmRemoveOutdatedPeriod c))
    "error parsing layerTTL tag" ;;
  parseRemoveOutdatedPeriod object
    (fun t c => mkLayerManagerConfig (mLayersDir c) (lmDownloadDir c)
                  (lmPartLimit c) (lmTTL c) t).

(** A range-for loop whose body may throw. *)
Fixpoint forEach {S A} (body : A -> M S unit) (l : list A) : M S unit :=
  match l with
  | [] => mret tt
  | x :: rest => body x ;; forEach body rest
  end.

(** [GetArrayValue<Host>(object, "hosts", parser)]: every element is
    converted before the array is returned. *)
Fixpoint parseHosts (objects : list Obj) : Result (list Host) :=
  match objects with
  | [] => Ok []
  | o :: rest =>
      match ParseHostConfig o with
      | Throw e => Throw e
      | Ok h =>
          match parseHosts rest with
          | Throw e => Throw e
          | Ok hs => Ok (h :: hs)
          end
      end
  end.

(** [ParseLauncherConfig]: the three directories and each host bind are
    stored as [c_str()]. *)
Definition ParseLauncherConfig (object : Obj) (workingDir : string)
  : M LauncherConfig unit :=
  d ← poco (GetStringOr J object "storageDir" (JoinPath workingDir "storages"));
  modify (fun c => mkLauncherConfig (c_str d) (mStateDir c) (mWorkDir c) (mHostBinds c)
                     (mHosts c) (lRemoveOutdatedPeriod c)) ;;
  d ← poco (GetStringOr J object "stateDir" (JoinPath workingDir "states"));
  modify (fun c => mkLauncherConfig (mStorageDir c) (c_str d) (mWorkDir c) (mHostBinds c)
                     (mHosts c) (lRemoveOutdatedPeriod c)) ;;
  modify (fun c => mkLauncherConfig (mStorageDir c) (mStateDir c) (c_str workingDir)
                     (mHostBinds c) (mHosts c) (lRemoveOutdatedPeriod c)) ;;
  hostBinds ← poco (GetArrayString J object "hostBinds");
  forEach (fun hostBind : string =>
    c ← get;
    let '(err, binds) :=
      EmplaceBack (cMaxNumHostBinds L) (c_str hostBind) (mHostBinds c) in
    modify (fun c => mkLauncherConfig (mStorageDir c) (mStateDir c) (mWorkDir c)
                       binds (mHosts c) (lRemoveOutdatedPeriod c)) ;;
    lift (AOS_ERROR_CHECK_AND_THROW err "error parsing hostBinds tag")) hostBinds ;;
  objects ← poco (GetArrayObject J object "hosts");
  hosts ← lift (parseHosts objects);
  forEach (fun host : Host =>
    c ← get;
    let '(err, hs) := EmplaceBack (cMaxNumHosts L) host (mHosts c) in
    modify (fun c => mkLauncherConfig (mStorageDir c) (mStateDir c) (mWorkDir c)
                       (mHostBinds c) hs (lRemoveOutdatedPeriod c)) ;;
    lift (AOS_ERROR_CHECK_AND_THROW err "error parsing hosts tag")) hosts ;;
  parseRemoveOutdatedPeriod object
    (fun t c => mkLauncherConfig (mStorageDir c) (mStateDir c) (mWorkDir c)
                  (mHostBinds c) (mHosts c) t).

(** [ParseSMClientConfig]: the certificate storage is stored as
    [c_str()], the server URL as it is. *)
Definition ParseSMClientConfig (object : Obj) : M SMClientConfig unit :=
  s ← poco (GetString J object "certStorage");
  modify (fun c => mkSMClientConfig (c_str s) (mCMServerURL c) (mCMReconnectTimeout c)) ;;
  u ← poco (GetString J object "cmServerURL");
  modify (fun c => mkSMClientConfig (scCertStorage c) u (mCMReconnectTimeout c)) ;;
  t ← poco (GetStringOr J object "cmReconnectTimeout" cDefaultCMReconnectTimeout);
  parseDurationInto L t
    (fun d c => mkSMClientConfig (scCertStorage c) (mCMServerURL c) d)
    "error parsing cmReconnectTimeout tag".

(** A section parser run on its part of the configuration. *)
Definition section {T A} (proj : Config -> T) (upd : T -> Config -> Config)
  (m : M T A) : M PState A :=
  zoom (fun s => proj (cfg s)) (fun t s => onCfg (upd t) s) m.

Definition assign (upd : Config -> Config) : M PState unit := modify (onCfg upd).

(** [object.Has(key) ? object.GetObject(key) : empty]. *)
Definition subObject (object : Obj) (key : string) : M PState Obj :=
  if Has J object key then poco (GetObject J object key)
  else mret (emptyObject J).

(** The three statements of the try block that read the file into the
    wrapper object. *)
Definition readObject (text : string) : M PState Obj := poco (parse J text).

(** The rest of the try block of [ParseConfig]. *)
Definition parseSections (object : Obj) : M PState unit :=
  wd ← poco (GetString J object "workingDir");
  assign (setWorkingDir wd) ;;
  section mIAMClientConfig setIAMClientConfig (ParseIAMClientConfig object) ;;
  s ← get;
  section mLayerManagerConfig setLayerManagerConfig
    (ParseLayerManagerConfig object (mWorkingDir (cfg s))) ;;
  s ← get;
  section mServiceManagerConfig setServiceManagerConfig
    (ParseServiceManagerConfig object (mWorkingDir (cfg s))) ;;
  s ← get;
  section mLauncherConfig setLauncherConfig
    (ParseLauncherConfig object (mWorkingDir (cfg s))) ;;
  section mSMClientConfig setSMClientConfig (ParseSMClientConfig object) ;;
  cs ← poco (GetOptionalString J object "certStorage");
  assign (setCertStorage (default "/var/aos/crypt/sm/" cs)) ;;
  u ← poco (GetString J object "iamProtectedServerURL");
  assign (setIAMProtectedServerURL u) ;;
  n ← poco (GetUInt32 J object "servicesPartLimit");
  assign (setServicesPartLimit n) ;;
  n ← poco (GetUInt32 J object "layersPartLimit");
  assign (setLayersPartLimit n) ;;
  f ← poco (GetOptionalString J object "nodeConfigFile");
  s ← get;
  assign (setNodeConfigFile (default (JoinPath (mWorkingDir (cfg s)) "aos_node.cfg") f)) ;;
  section mMonitoring setMonitoring (ParseMonitoringConfig object) ;;
  logging ← subObject object "logging";
  journalAlerts ← subObject object "journalAlerts";
  migration ← subObject object "migration";
  section mLogging setLogging (ParseLoggingConfig logging) ;;
  zoom (fun s => (mJournalAlerts (cfg s), logged s))
       (fun '(c, l) s => mkPState (setJournalAlerts c (cfg s)) l)
       (ParseJournalAlertsConfig journalAlerts) ;;
  s ← get;
  section mMigration setMigration
    (ParseMigrationConfig migration (mWorkingDir (cfg s))).

Definition tryBlock (text : string) : M PState unit :=
  object ← readObject text;
  parseSections object.

(** [ParseConfig(filename, config)]. [file] is the content of the file, or
    [None] when the stream could not be opened. *)
Definition ParseConfig (file : option string) (s : PState) : Error * PState :=
  match file with
  | None => (ErrorOf eNotFound "", s)
  | Some text =>
      match tryBlock text s with
      | (Throw e, s') => (ToAosError e, s')
      | (Ok _, s') => (ErrNone, s')
      end
  end.

(** Every section parser has returned: each part of the configuration that
    [ParseConfig] leaves is what the parser of that section has made of the
    part it was given, with the working directory the object names. *)
Definition allSectionsParsed (object : Obj) (s s' : PState) : Prop :=
  exists logging journalAlerts migration : Obj,
    GetString J object "workingDir" = Value (mWorkingDir (cfg s'))
    /\ subObject object "logging" s = (Ok logging, s)
    /\ subObject object "journalAlerts" s = (Ok journalAlerts, s)
    /\ subObject object "migration" s = (Ok migration, s)
    /\ returnsInto (ParseIAMClientConfig object)
         (mIAMClientConfig (cfg s)) (mIAMClientConfig (cfg s'))
    /\ returnsInto (ParseLayerManagerConfig object (mWorkingDir (cfg s')))
         (mLayerManagerConfig (cfg s)) (mLayerManagerConfig (cfg s'))
    /\ returnsInto (ParseServiceManagerConfig object (mWorkingDir (cfg s')))
         (mServiceManagerConfig (cfg s)) (mServiceManagerConfig (cfg s'))
    /\ returnsInto (ParseLauncherConfig object (mWorkingDir (cfg s')))
         (mLauncherConfig (cfg s)) (mLauncherConfig (cfg s'))
    /\ returnsInto (ParseSMClientConfig object)
         (mSMClientConfig (cfg s)) (mSMClientConfig (cfg s'))
    /\ returnsInto (ParseMonitoringConfig object)
         (mMonitoring (cfg s)) (mMonitoring (cfg s'))
    /\ returnsInto (ParseLoggingConfig logging)
         (mLogging (cfg s)) (mLogging (cfg s'))
    /\ returnsInto (ParseJournalAlertsConfig journalAlerts)
         (mJournalAlerts (cfg s), logged s) (mJournalAlerts (cfg s'), logged s')
    /\ returnsInto (ParseMigrationConfig migration (mWorkingDir (cfg s')))
         (mMigration (cfg s)) (mMigration (cfg s')).

End Parsers.

(** A configuration before parsing: empty strings and arrays, zeros. *)
Definition emptyConfig : Config :=
  mkConfig (mkIAMClientConfig "" "") (mkLayerManagerConfig "" "" 0 0 0)
    (mkServiceManagerConfig "" "" 0 0 0) (mkLauncherConfig "" "" "" [] [] 0)
    (mkSMClientConfig "" "" 0) "" "" "" 0 0 "" (mkMonitoringConfig 0 0)
    (mkLoggingConfig 0 0) (mkJournalAlertsConfig [] 0 0) (mkMigrationConfig "" "").

End Config.

(** ** A JSON double

    A small document model with which the parser can be run: objects are
    association lists looked up without regard to case, conversions are
    strict, a mandatory key that is missing raises. The text of a file is
    turned into a document by a table. *)

Module JsonDouble.

Import Config.

#[local] Set Warnings "-register-all".

Inductive Json : Type :=
| JNull
| JNum (z : Z)
| JStr (s : string)
| JArr (items : list Json)
| JObj (fields : list (string * Json)).

Definition lower (c : ascii) : ascii :=
  let n := nat_of_ascii c in
  if ((65 <=? n) && (n <=? 90))%nat then ascii_of_nat (n + 32) else c.

Fixpoint ToLowercase (s : string) : string :=
  match s with
  | EmptyString => EmptyString
  | String c rest => String (lower c) (ToLowercase rest)
  end.

Fixpoint find (fields : list (string * Json)) (key : string) : option Json :=
  match fields with
  | [] => None
  | (k, v) :: rest =>
      if String.eqb (ToLowercase k) (ToLowercase key) then Some v else find rest key
  end.

Definition member (o : Json) (key : string) : option Json :=
  match o with
  | JObj fields => find fields key
  | _ => None
  end.

Definition asString (v : Json) : Outcome string :=
  match v with JStr s => Value s | _ => Raises "Can not convert to string" end.

Definition asNumber (lo hi : Z) (v : Json) : Outcome Z :=
  match v with
  | JNum z => if (lo <=? z) && (z <=? hi) then Value z else Raises "Out of range"
  | _ => Raises "Can not convert to number"
  end.

Definition required {A} (conv : Json -> Outcome A) (o : Json) (key : string) : Outcome A :=
  match member o key with
  | Some v => conv v
  | None => Raises "Key not found"
  end.

Definition withDefault {A} (conv : Json -> Outcome A) (o : Json) (key : string) (d : A)
  : Outcome A :=
  match member o key with
  | Some v => conv v
  | None => Value d
  end.

Definition optional {A} (conv : Json -> Outcome A) (o : Json) (key : string)
  : Outcome (option A) :=
  match member o key with
  | Some v => match conv v with Value a => Value (Some a) | Raises m => Raises m end
  | None => Value None
  end.

Fixpoint convertAll {A} (conv : Json -> Outcome A) (items : list Json) : Outcome (list A) :=
  match items with
  | [] => Value []
  | v :: rest =>
      match conv v with
      | Raises m => Raises m
      | Value a =>
          match convertAll conv rest with
          | Raises m => Raises m
          | Value l => Value (a :: l)
          end
      end
  end.

Definition arrayOf {A} (conv : Json -> Outcome A) (o : Json) (key : string)
  : Outcome (list A) :=
  match member o key with
  | Some (JArr items) => convertAll conv items
  | Some _ => Raises "Not an array"
  | None => Value []
  end.

Definition asObject (v : Json) : Outcome Json :=
  match v with JObj _ => Value v | _ => Raises "Not an object" end.

Definition double (files : string -> Outcome Json) : JsonItf Json :=
  mkJsonItf Json
    (fun text => match files text with
                 | Value v => asObject v
                 | Raises m => Raises m
                 end)
    (JObj [])
    (fun o key => bool_decide (is_Some (member o key)))
    (required asObject)
    (required asString)
    (withDefault asString)
    (required (asNumber 0 (2 ^ 32 - 1)))
    (withDefault (asNumber 0 (2 ^ 64 - 1)))
    (withDefault (asNumber 0 (2 ^ 64 - 1)))
    (optional asString)
    (optional (asNumber (- 2 ^ 31) (2 ^ 31 - 1)))
    (arrayOf asString)
    (arrayOf asObject).

(** Durations of the form <digits><unit>, the unit one of s, m, h, d. *)
Definition digit (c : ascii) : option Z :=
  let n := nat_of_ascii c in
  if ((48 <=? n) && (n <=? 57))%nat then Some (Z.of_nat (n - 48)) else None.

Fixpoint secondsOf (acc : Z) (s : string) : option Z :=
  match s with
  | String "s" EmptyString => Some acc
  | String "m" EmptyString => Some (60 * acc)
  | String "h" EmptyString => Some (3600 * acc)
  | String "d" EmptyString => Some (86400 * acc)
  | String c rest =>
      match digit c with
      | Some d => secondsOf (10 * acc + d) rest
      | None => None
      end
  | EmptyString => None
  end.

Definition parseSeconds (s : string) : Duration * Error :=
  match secondsOf 0 s with
  | Some n => (n * cSeconds, ErrNone)
  | None => (0, ErrorOf eInvalidArgument "invalid duration")
  end.

Definition lib : Lib := mkLib parseSeconds 65536 4 4.

(** A configuration file and a text that is not JSON. *)
Definition document : Json :=
  JObj [("workingDir", JStr "/var/aos/sm");
        ("iamPublicServerURL", JStr "localhost:8090");
        ("caCert", JStr "/etc/ssl/rootCA.pem");
        ("certStorage", JStr "sm");
        ("cmServerURL", JStr "localhost:8093");
        ("iamProtectedServerURL", JStr "localhost:8089");
        ("servicesPartLimit", JNum 10);
        ("layersPartLimit", JNum 20);
        ("hostBinds", JArr [JStr "bin"; JStr "lib"]);
        ("hosts", JArr [JObj [("ip", JStr "10.0.0.1"); ("hostname", JStr "wwwivi")]]);
        ("Monitoring", JObj [("pollPeriod", JStr "10s")]);
        ("journalAlerts", JObj [("serviceAlertPriority", JNum 9);
                                ("filter", JArr [JStr "getty"])])].

Definition files (text : string) : Outcome Json :=
  if String.eqb text "aos_servicemanager.cfg" then Value document
  else Raises "JSON syntax error".

End JsonDouble.

(** ** Wire conversions (convert.cpp) *)

Module Convert.

(** [static_cast<int64_t>], [static_cast<uint64_t>] and
    [static_cast<int32_t>]. *)
Definition to_int64 (z : Z) : Z := (z + 2 ^ 63) mod 2 ^ 64 - 2 ^ 63.
Definition to_uint64 (z : Z) : Z := z mod 2 ^ 64.
Definition to_int32 (z : Z) : Z := (z + 2 ^ 31) mod 2 ^ 32 - 2 ^ 31.

(** [cloudprotocol::InstanceFilter]; [mInstance] is an
    [Optional<uint64_t>]. *)
Record InstanceFilter : Set := mkInstanceFilter {
  mServiceID : option string;
  mSubjectID : option string;
  mInstance : option Z
}.

(** A filter whose instance, when there is one, is a [uint64_t]. *)
Definition wf_filter (f : InstanceFilter) : Prop :=
  match mInstance f with
  | Some i => 0 <= i < 2 ^ 64
  | None => True
  end.

(** [servicemanager::v4::InstanceFilter]; [instance] is an [int64]. *)
Record PbInstanceFilter : Set := mkPbInstanceFilter {
  service_id : string;
  subject_id : string;
  instance : Z
}.

Definition PbInstanceFilter_new : PbInstanceFilter := mkPbInstanceFilter "" "" 0.

(** [ConvertToProto(const cloudprotocol::InstanceFilter&, InstanceFilter&)]:
    [dst] is written in place; an identifier is handed over as [CStr()]. *)
Definition ConvertToProto_InstanceFilter (src : InstanceFilter) (dst : PbInstanceFilter)
  : PbInstanceFilter :=
  let dst := match mServiceID src with
             | Some v => mkPbInstanceFilter (c_str v) (subject_id dst) (instance dst)
             | None => dst
             end in
  let dst := match mSubjectID src with
             | Some v => mkPbInstanceFilter (service_id dst) (c_str v) (instance dst)
             | None => dst
             end in
  let dst := mkPbInstanceFilter (service_id dst) (subject_id dst) (-1) in
  match mInstance src with
  | Some v => mkPbInstanceFilter (service_id dst) (subject_id dst) (to_int64 v)
  | None => dst
  end.

(** [ConvertToAos(const servicemanager::v4::InstanceFilter&)]: the test
    for an empty identifier is on the [std::string], what is stored is its
    [c_str()]. *)
Definition ConvertToAos_InstanceFilter (val : PbInstanceFilter) : InstanceFilter :=
  let instanceFilter := mkInstanceFilter None None None in
  let instanceFilter :=
    if negb (String.eqb (service_id val) "")
    then mkInstanceFilter (Some (c_str (service_id val))) (mSubjectID instanceFilter)
                          (mInstance instanceFilter)
    else instanceFilter in
  let instanceFilter :=
    if negb (String.eqb (subject_id val) "")
    then mkInstanceFilter (mServiceID instanceFilter) (Some (c_str (subject_id val)))
                          (mInstance instanceFilter)
    else instanceFilter in
  if negb (instance val =? -1)
  then mkInstanceFilter (mServiceID instanceFilter) (mSubjectID instanceFilter)
                        (Some (to_uint64 (instance val)))
  else instanceFilter.

(** [aos::Time]: the [timespec] it wraps. *)
Record Time : Set := mkTime {
  tv_sec : Z;
  tv_nsec : Z
}.

(** [Time::Unix(sec, nsec)] and [Time::UnixTime()]. *)
Definition Unix (sec nsec : Z) : Time := mkTime sec nsec.
Definition UnixTime (t : Time) : Time := t.

(** [google::protobuf::Timestamp]: [int64 seconds], [int32 nanos]. *)
Record Timestamp : Set := mkTimestamp {
  seconds : Z;
  nanos : Z
}.

Definition TimestampToPB (time : Time) : Timestamp :=
  let unixTime := UnixTime time in
  mkTimestamp (tv_sec unixTime) (to_int32 (tv_nsec unixTime)).

(** [ConvertToAos(const google::protobuf::Timestamp&)]. *)
Definition ConvertToAos_Timestamp (val : Timestamp) : option Time :=
  let result := None in
  if seconds val >? 0 then Some (Unix (seconds val) (nanos val)) else result.

(** [aos::InstanceIdent] and [common::v1::InstanceIdent]; [mInstance] and
    [instance] are both unsigned 64-bit. *)
Module InstanceIdent.
Record t : Set := mk {
  mServiceID : string;
  mSubjectID : string;
  mInstance : Z
}.
End InstanceIdent.

Module PbInstanceIdent.
Record t : Set := mk {
  service_id : string;
  subject_id : string;
  instance : Z
}.
End PbInstanceIdent.

(** [ConvertToProto(const InstanceIdent&, common::v1::InstanceIdent&)]. *)
Definition ConvertToProto_InstanceIdent (src : InstanceIdent.t) (dst : PbInstanceIdent.t)
  : PbInstanceIdent.t :=
  let dst := PbInstanceIdent.mk (c_str (InstanceIdent.mServiceID src))
               (PbInstanceIdent.subject_id dst) (PbInstanceIdent.instance dst) in
  let dst := PbInstanceIdent.mk (PbInstanceIdent.service_id dst)
               (c_str (InstanceIdent.mSubjectID src)) (PbInstanceIdent.instance dst) in
  PbInstanceIdent.mk (PbInstanceIdent.service_id dst) (PbInstanceIdent.subject_id dst)
    (InstanceIdent.mInstance src).

(** [ConvertToAos(const common::v1::InstanceIdent&)]. *)
Definition ConvertToAos_InstanceIdent (val : PbInstanceIdent.t) : InstanceIdent.t :=
  InstanceIdent.mk (c_str (PbInstanceIdent.service_id val))
    (c_str (PbInstanceIdent.subject_id val)) (PbInstanceIdent.instance val).

(** [Array::PushBack] of a static array: refused when the array is full. *)
Definition PushBack {A} (capacity : nat) (x : A) (l : list A) : Error * list A :=
  if (length l <? capacity)%nat then (ErrNone, l ++ [x])
  else (ErrorOf eNoMemory "", l).

(** The capacities of the static arrays of the common library that the
    conversions fill. *)
Record Capacities : Set := mkCapacities {
  cMaxNumDNSServers : nat;
  cMaxNumFirewallRules : nat;
  cMaxNumEnvVariables : nat;
  cMaxNumInstances : nat
}.

Record FirewallRule : Set := mkFirewallRule {
  mDstIP : string;
  mDstPort : string;
  mProto : string;
  mSrcIP : string
}.

Record NetworkParameters : Set := mkNetworkParameters {
  mNetworkID : string;
  mSubnet : string;
  mIP : string;
  mVlanID : Z;
  mDNSServers : list string;
  mFirewallRules : list FirewallRule
}.

Record PbFirewallRule : Set := mkPbFirewallRule {
  dst_ip : string;
  dst_port : string;
  proto : string;
  src_ip : string
}.

Record PbNetworkParameters : Set := mkPbNetworkParameters {
  network_id : string;
  subnet : string;
  ip : string;
  vlan_id : Z;
  dns_servers : list string;
  rules : list PbFirewallRule
}.

(** [ConvertToAos(const servicemanager::v4::NetworkParameters&)]: what
    [PushBack] returns is not looked at. *)
Definition ConvertToAos_NetworkParameters (C : Capacities) (val : PbNetworkParameters)
  : NetworkParameters :=
  let result :=
    mkNetworkParameters (c_str (network_id val)) (c_str (subnet val)) (c_str (ip val))
      (vlan_id val) [] [] in
  let result :=
    foldl (fun result dns =>
             mkNetworkParameters (mNetworkID result) (mSubnet result) (mIP result)
               (mVlanID result)
               (snd (PushBack (cMaxNumDNSServers C) (c_str dns) (mDNSServers result)))
               (mFirewallRules result))
          result (dns_servers val) in
  foldl (fun result rule =>
           let firewallRule :=
             mkFirewallRule (c_str (dst_ip rule)) (c_str (dst_port rule))
               (c_str (proto rule)) (c_str (src_ip rule)) in
           mkNetworkParameters (mNetworkID result) (mSubnet result) (mIP result)
             (mVlanID result) (mDNSServers result)
             (snd (PushBack (cMaxNumFirewallRules C) firewallRule (mFirewallRules result))))
        result (rules val).

(** [cloudprotocol::EnvVarInfo] and [servicemanager::v4::EnvVarInfo]. *)
Record EnvVarInfo : Set := mkEnvVarInfo {
  mName : string;
  mValue : string;
  mTTL : option Time
}.

Record PbEnvVarInfo : Set := mkPbEnvVarInfo {
  name : string;
  value : string;
  ttl : Timestamp
}.

(** [ConvertToAos(const servicemanager::v4::EnvVarInfo&)]. *)
Definition ConvertToAos_EnvVarInfo (val : PbEnvVarInfo) : EnvVarInfo :=
  mkEnvVarInfo (c_str (name val)) (c_str (value val)) (ConvertToAos_Timestamp (ttl val)).

(** [cloudprotocol::EnvVarsInstanceInfo], an element of the
    [EnvVarsInstanceInfoArray], and the messages of
    [servicemanager::v4::OverrideEnvVars]. *)
Record EnvVarsInstanceInfo : Set := mkEnvVarsInstanceInfo {
  mFilter : InstanceFilter;
  mVariables : list EnvVarInfo
}.

Record PbOverrideInstanceEnvVar : Set := mkPbOverrideInstanceEnvVar {
  instance_filter : PbInstanceFilter;
  variables : list PbEnvVarInfo
}.

Record PbOverrideEnvVars : Set := mkPbOverrideEnvVars {
  env_vars : list PbOverrideInstanceEnvVar
}.

(** The inner loop of [ConvertToAos(const OverrideEnvVars&, ...)] over the
    variables of one entry; it returns at the first variable that does not
    fit. *)
Fixpoint convertVariables (C : Capacities) (vars : list PbEnvVarInfo)
  (variables : list EnvVarInfo) : Error * list EnvVarInfo :=
  match vars with
  | [] => (ErrNone, variables)
  | var :: rest =>
      let '(err, variables) :=
        PushBack (cMaxNumEnvVariables C) (ConvertToAos_EnvVarInfo var) variables in
      if negb (IsNone err) then
        (AOS_ERROR_WRAP
           (ErrorWithMessage err
              "received instance's env vars count exceeds application limit"),
         variables)
      else convertVariables C rest variables
  end.

(** The outer loop, over the entries. *)
Fixpoint convertEnvVars (C : Capacities) (envVars : list PbOverrideInstanceEnvVar)
  (dst : list EnvVarsInstanceInfo) : Error * list EnvVarsInstanceInfo :=
  match envVars with
  | [] => (ErrNone, dst)
  | envVar :: rest =>
      let instanceFilter := ConvertToAos_InstanceFilter (instance_filter envVar) in
      let '(err, variables) := convertVariables C (variables envVar) [] in
      if negb (IsNone err) then (err, dst)
      else
        let '(err, dst) :=
          PushBack (cMaxNumInstances C) (mkEnvVarsInstanceInfo instanceFilter variables)
            dst in
        if negb (IsNone err) then
          (AOS_ERROR_WRAP
             (ErrorWithMessage err
                "received env vars instances count exceeds application limit"),
           dst)
        else convertEnvVars C rest dst
  end.

(** [ConvertToAos(const servicemanager::v4::OverrideEnvVars&,
    cloudprotocol::EnvVarsInstanceInfoArray&)]. *)
Definition ConvertToAos_OverrideEnvVars (C : Capacities) (src : PbOverrideEnvVars)
  (dst : list EnvVarsInstanceInfo) : Error * list EnvVarsInstanceInfo :=
  convertEnvVars C (env_vars src) dst.

(** One entry converted, when its variables fit. *)
Definition convertedEntry (envVar : PbOverrideInstanceEnvVar) : EnvVarsInstanceInfo :=
  mkEnvVarsInstanceInfo (ConvertToAos_InstanceFilter (instance_filter envVar))
    (map ConvertToAos_EnvVarInfo (variables envVar)).

(** The request fits the application: no entry has more variables than an
    entry can hold, and the entries fit behind those already in [dst]. *)
Definition fits (C : Capacities) (src : PbOverrideEnvVars)
  (dst : list EnvVarsInstanceInfo) : bool :=
  forallb (fun envVar => (length (variables envVar) <=? cMaxNumEnvVariables C)%nat)
          (env_vars src)
  && (length dst + length (env_vars src) <=? cMaxNumInstances C)%nat.

(** An identifier as it is read back from the wire: cut at its first zero
    character, and absent when nothing is left. *)
Definition readableID (o : option string) : option string :=
  match o with
  | Some v => if String.eqb (c_str v) "" then None else Some (c_str v)
  | None => None
  end.

(** A filter as it is read back from the wire: its identifiers as above,
    and the instance 2^64-1 absent. *)
Definition readable (f : InstanceFilter) : InstanceFilter :=
  mkInstanceFilter
    (readableID (mServiceID f))
    (readableID (mSubjectID f))
    (match mInstance f with
     | Some v => if v =? 2 ^ 64 - 1 then None else Some v
     | None => None
     end).

(** An identifier that the wire keeps: present ones are not empty and hold
    no zero character. *)
Definition keptID (o : option string) : Prop :=
  forall v, o = Some v -> v <> "" /\ c_str v = v.

(** [monitoring::PartitionInfo] and [servicemanager::v4::PartitionUsage], as
    far as the conversion reads and writes them. *)
Module PartitionInfo.
Record t : Set := mk {
  mName : string;
  mUsedSize : Z
}.
End PartitionInfo.

Module PbPartitionUsage.
Record t : Set := mk {
  name : string;
  used_size : Z
}.
End PbPartitionUsage.

(** [monitoring::MonitoringData]. The CPU load is a floating-point number
    of type [Double]; its cast to [uint64_t] is left to the caller of the
    model. *)
Module MonitoringData.
Record t (Double : Type) : Type := mk {
  mRAM : Z;
  mCPU : Double;
  mDownload : Z;
  mUpload : Z;
  mPartitions : list PartitionInfo.t
}.
Arguments mk {Double} _ _ _ _ _.
Arguments mRAM {Double} _.
Arguments mCPU {Double} _.
Arguments mDownload {Double} _.
Arguments mUpload {Double} _.
Arguments mPartitions {Double} _.
End MonitoringData.

(** [servicemanager::v4::MonitoringData]; [timestamp] is a submessage,
    absent in a new message. *)
Module PbMonitoringData.
Record t : Set := mk {
  ram : Z;
  cpu : Z;
  download : Z;
  upload : Z;
  timestamp : option Timestamp;
  partitions : list PbPartitionUsage.t
}.
Definition new : t := mk 0 0 0 0 None [].
End PbMonitoringData.

(** [monitoring::InstanceMonitoringData] and [monitoring::NodeMonitoringData]. *)
Module InstanceMonitoringData.
Record t (Double : Type) : Type := mk {
  mInstanceIdent : InstanceIdent.t;
  mMonitoringData : MonitoringData.t Double
}.
Arguments mk {Double} _ _.
Arguments mInstanceIdent {Double} _.
Arguments mMonitoringData {Double} _.
End InstanceMonitoringData.

Module NodeMonitoringData.
Record t (Double : Type) : Type := mk {
  mMonitoringData : MonitoringData.t Double;
  mTimestamp : Time;
  mServiceInstances : list (InstanceMonitoringData.t Double)
}.
Arguments mk {Double} _ _ _.
Arguments mMonitoringData {Double} _.
Arguments mTimestamp {Double} _.
Arguments mServiceInstances {Double} _.
End NodeMonitoringData.

(** [servicemanager::v4::InstanceMonitoring]: two submessages, absent in a
    new message; [mutable_...()] makes an absent one a new one. *)
Module PbInstanceMonitoring.
Record t : Set := mk {
  instance : option PbInstanceIdent.t;
  monitoring_data : option PbMonitoringData.t
}.
Definition new : t := mk None None.
Definition mutable_instance (m : t) : PbInstanceIdent.t :=
  default (PbInstanceIdent.mk "" "" 0) (instance m).
Definition mutable_monitoring_data (m : t) : PbMonitoringData.t :=
  default PbMonitoringData.new (monitoring_data m).
End PbInstanceMonitoring.

(** [ConvertToProto(const monitoring::MonitoringData&, const Time&,
    servicemanager::v4::MonitoringData&)]: the scalar fields are set, the
    partitions are added to those [dst] holds. *)
Definition ConvertToProto_MonitoringData {Double} (static_cast_uint64 : Double -> Z)
  (src : MonitoringData.t Double) (timestamp : Time) (dst : PbMonitoringData.t)
  : PbMonitoringData.t :=
  let dst :=
    PbMonitoringData.mk (MonitoringData.mRAM src)
      (static_cast_uint64 (MonitoringData.mCPU src))
      (MonitoringData.mDownload src) (MonitoringData.mUpload src)
      (Some (TimestampToPB timestamp)) (PbMonitoringData.partitions dst) in
  foldl (fun dst partition =>
           let pbPartition :=
             PbPartitionUsage.mk (c_str (PartitionInfo.mName partition))
               (PartitionInfo.mUsedSize partition) in
           PbMonitoringData.mk (PbMonitoringData.ram dst) (PbMonitoringData.cpu dst)
             (PbMonitoringData.download dst) (PbMonitoringData.upload dst)
             (PbMonitoringData.timestamp dst)
             (PbMonitoringData.partitions dst ++ [pbPartition]))
        dst (MonitoringData.mPartitions src).

(** [ConvertToProto(const monitoring::NodeMonitoringData&,
    servicemanager::v4::MonitoringData&, RepeatedPtrField<InstanceMonitoring>&)]. *)
Definition ConvertToProto_NodeMonitoringData {Double} (static_cast_uint64 : Double -> Z)
  (src : NodeMonitoringData.t Double) (dstMonitoringData : PbMonitoringData.t)
  (dstInstanceMonitoring : list PbInstanceMonitoring.t)
  : PbMonitoringData.t * list PbInstanceMonitoring.t :=
  let dstMonitoringData :=
    ConvertToProto_MonitoringData static_cast_uint64
      (NodeMonitoringData.mMonitoringData src) (NodeMonitoringData.mTimestamp src)
      dstMonitoringData in
  (dstMonitoringData,
   foldl (fun dstInstanceMonitoring instance =>
            let instanceMonitoring := PbInstanceMonitoring.new in
            let instanceMonitoring :=
              PbInstanceMonitoring.mk
                (Some (ConvertToProto_InstanceIdent
                         (InstanceMonitoringData.mInstanceIdent instance)
                         (PbInstanceMonitoring.mutable_instance instanceMonitoring)))
                (PbInstanceMonitoring.monitoring_data instanceMonitoring) in
            let instanceMonitoring :=
              PbInstanceMonitoring.mk
                (PbInstanceMonitoring.instance instanceMonitoring)
                (Some (ConvertToProto_MonitoringData static_cast_uint64
                         (InstanceMonitoringData.mMonitoringData instance)
                         (NodeMonitoringData.mTimestamp src)
                         (PbInstanceMonitoring.mutable_monitoring_data
                            instanceMonitoring))) in
            dstInstanceMonitoring ++ [instanceMonitoring])
         dstInstanceMonitoring (NodeMonitoringData.mServiceInstances src)).

(** A partition on the wire, and the monitoring data of a new message. *)
Definition partitionUsage (partition : PartitionInfo.t) : PbPartitionUsage.t :=
  PbPartitionUsage.mk (c_str (PartitionInfo.mName partition))
    (PartitionInfo.mUsedSize partition).

Definition monitoringOf {Double} (static_cast_uint64 : Double -> Z)
  (src : MonitoringData.t Double) (timestamp : Time) : PbMonitoringData.t :=
  PbMonitoringData.mk (MonitoringData.mRAM src)
    (static_cast_uint64 (MonitoringData.mCPU src))
    (MonitoringData.mDownload src) (MonitoringData.mUpload src)
    (Some (TimestampToPB timestamp))
    (map partitionUsage (MonitoringData.mPartitions src)).

End Convert.

(** ** Reference definitions for the monitor loop *)

(** The events the monitor thread adds to the history: the answers of
    [ListUnits], the log of a failing one, the wake-ups of waiters and the
    status arrays handed to the receiver. *)
Definition isMonitorEvent (ev : Event) : bool :=
  match ev with
  | EvListUnits _ | EvLog LogErr _ | EvNotifyAll _ | EvUpdateRunStatus _ => true
  | _ => false
  end.

(** A call of [UpdateRunStatus]. *)
Definition isUpdate (ev : Event) : bool :=
  match ev with
  | EvUpdateRunStatus _ => true
  | _ => false
  end.

(** A listed unit whose state or exit code is not the one recorded for it
    among the running units. *)
Definition differs (w : World) (unit : UnitStatus) : bool :=
  match mRunningUnits w !! mName unit with
  | Some runningState =>
      negb (bool_decide (ToInstanceState (mActiveState unit) = ruRunState runningState))
      || negb (bool_decide (mExitCode unit = ruExitCode runningState))
  | None => false
  end.

(** The status arrays among some events name only instances whose units
    are in [units]. *)
Definition reportsOnly (units : gset string) (ev : Event) : Prop :=
  match ev with
  | EvUpdateRunStatus (Ok instances) =>
      forall status, In status instances ->
                     CreateSystemdUnitName (mInstanceID status) ∈ units
  | _ => True
  end.

(** ** Reference definitions for the drop-in directories *)

(** An instance ID without a path separator. *)
Fixpoint noSlash (s : string) : bool :=
  match s with
  | EmptyString => true
  | String c rest => negb (Ascii.eqb c "/") && noSlash rest
  end.

(** ** The application (aoscore.cpp, AosCore::Start and AosCore::Stop) *)

Module App.

(** The members of [AosCore] that [Start] starts, in the order of the
    source. *)
Inductive Component : Set :=
| Runner | Launcher | LayerManager | NetworkManager | ResourceMonitor
| ServiceManager | LogProvider | JournalAlerts | SMClient.

#[global] Instance Component_eq_dec : EqDecision Component.
Proof. solve_decision. Defined.

(** The members other than the runner as test doubles: what their [Start]
    and [Stop] return; and what [CreateSystemdConn] of the runner yields. *)
Record Collaborators : Type := mkCollaborators {
  createSystemdConn : Result unit;
  startOf : Component -> Error;
  stopOf : Component -> Error
}.

(** The message of the exception of a failing start, and the line logged
    for a failing stop. *)
Definition startMessage (c : Component) : string :=
  match c with
  | Runner => "can't start runner"
  | Launcher => "can't start launcher"
  | LayerManager => "can't start layer manager"
  | NetworkManager => "can't start network manager"
  | ResourceMonitor => "can't start resource monitor"
  | ServiceManager => "can't start service manager"
  | LogProvider => "can't start logprovider"
  | JournalAlerts => "can't start journalalerts"
  | SMClient => "can't start SM client"
  end.

Definition stopMessage (c : Component) : string :=
  match c with
  | Runner => "Can't stop runner"
  | Launcher => "Can't stop launcher"
  | LayerManager => "Can't stop layer manager"
  | NetworkManager => "Can't stop network manager"
  | ResourceMonitor => "Can't stop resource monitor"
  | ServiceManager => "Can't stop service manager"
  | LogProvider => "Can't stop logprovider"
  | JournalAlerts => "Can't stop journalalerts"
  | SMClient => "Can't stop SM client"
  end.

(** What [AosCore] did to its members and its log, in order. *)
Inductive Call : Set :=
| CallStart (c : Component)
| CallStop (c : Component)
| CallLogErr (msg : string).

(** [AosCore]: the runner, the cleanup manager and the calls made so far.
    Modelled from the spec: the cleanup manager of the common library, which
    the spec gives as a stack of deferred stops; each cleanup of this file
    stops one member, and the one added last is at the head. *)
Record AosCore : Type := mkAosCore {
  mRunner : World;
  mCleanupManager : list Component;
  mCalls : list Call
}.

Definition setRunner (w : World) (a : AosCore) : AosCore :=
  mkAosCore w (mCleanupManager a) (mCalls a).

Definition call (c : Call) (a : AosCore) : AosCore :=
  mkAosCore (mRunner a) (mCleanupManager a) (mCalls a ++ [c]).

(** [mCleanupManager.AddCleanup(...)] with the lambda that stops [c]. *)
Definition AddCleanup (c : Component) (a : AosCore) : AosCore :=
  mkAosCore (mRunner a) (c :: mCleanupManager a) (mCalls a).

(** [AOS_ERROR_CHECK_AND_THROW(err, ...)] followed by the registration of
    the cleanup. *)
Definition checkAndRegister (err : Error) (c : Component) : Config.M AosCore unit :=
  Config.lift (AOS_ERROR_CHECK_AND_THROW err (startMessage c)) ;;
  Config.modify (AddCleanup c).

(** One of the blocks of [Start] for a member other than the runner. *)
Definition startComponent (E : Collaborators) (c : Component) : Config.M AosCore unit :=
  Config.modify (call (CallStart c)) ;;
  checkAndRegister (startOf E c) c.

(** [AosCore::Start]. [None] when [Runner::Start] ends the process. *)
Definition Start (E : Collaborators) (a : AosCore) : option (Result unit * AosCore) :=
  match Start (createSystemdConn E) (mRunner a) with
  | None => None
  | Some (err, w) =>
      Some ((checkAndRegister err Runner ;;
             startComponent E Launcher ;;
             startComponent E LayerManager ;;
             startComponent E NetworkManager ;;
             startComponent E ResourceMonitor ;;
             startComponent E ServiceManager ;;
             startComponent E LogProvider ;;
             startComponent E JournalAlerts ;;
             startComponent E SMClient)
              (call (CallStart Runner) (setRunner w a)))
  end.

(** One cleanup: the member is stopped and a failure is logged. *)
Definition cleanup (E : Collaborators) (a : AosCore) (c : Component) : AosCore :=
  let a := call (CallStop c) a in
  let '(err, a) :=
    match c with
    | Runner => let '(err, w) := Stop (mRunner a) in (err, setRunner w a)
    | _ => (stopOf E c, a)
    end in
  if negb (IsNone err) then call (CallLogErr (stopMessage c)) a else a.

(** [mCleanupManager.ExecuteCleanups()]: the stack is run from its head and
    left empty. *)
Definition ExecuteCleanups (E : Collaborators) (a : AosCore) : AosCore :=
  let a := foldl (cleanup E) a (mCleanupManager a) in
  mkAosCore (mRunner a) [] (mCalls a).

(** [AosCore::Stop]. *)
Definition Stop (E : Collaborators) (a : AosCore) : AosCore := ExecuteCleanups E a.

(** The order in which [Start] goes through the members. *)
Definition order : list Component :=
  [Runner; Launcher; LayerManager; NetworkManager; ResourceMonitor;
   ServiceManager; LogProvider; JournalAlerts; SMClient].

(** The members of a list before the first one whose start fails, and that
    one. *)
Fixpoint startedBefore (errOf : Component -> Error) (l : list Component)
  : list Component :=
  match l with
  | [] => []
  | c :: rest => if IsNone (errOf c) then c :: startedBefore errOf rest else []
  end.

Fixpoint firstFailing (errOf : Component -> Error) (l : list Component)
  : option Component :=
  match l with
  | [] => None
  | c :: rest => if IsNone (errOf c) then firstFailing errOf rest else Some c
  end.

(** The error of the start of a member, the runner's being given. *)
Definition startError (E : Collaborators) (runnerErr : Error) (c : Component) : Error :=
  match c with
  | Runner => runnerErr
  | _ => startOf E c
  end.

Definition isStop (c : Call) : bool :=
  match c with CallStop _ => true | _ => false end.

End App.

(** * Properties *)

(** ** Strings *)

Section StringFacts.

Lemma append_cons (x : ascii) (a b : string) :
  String x a +:+ b = String x (a +:+ b).
Proof. reflexivity. Qed.

Lemma append_nil_l (b : string) : "" +:+ b = b.
Proof. reflexivity. Qed.

Lemma length_append (a b : string) :
  String.length (a +:+ b) = (String.length a + String.length b)%nat.
Proof.
  induction a as [|c a IH]; [reflexivity |].
  rewrite append_cons. simpl. now rewrite IH.
Qed.

Lemma append_assoc (a b c : string) : (a +:+ b) +:+ c = a +:+ (b +:+ c).
Proof.
  induction a as [|x a IH]; [reflexivity |].
  rewrite !append_cons. f_equal. exact IH.
Qed.

Lemma append_nil_r (a : string) : a +:+ "" = a.
Proof.
  induction a as [|x a IH]; [reflexivity |].
  rewrite append_cons. f_equal. exact IH.
Qed.

Lemma substring_skip (a b : string) (n m : nat) :
  substring (String.length a + n) m (a +:+ b) = substring n m b.
Proof.
  induction a as [|x a IH]; [reflexivity |].
  rewrite append_cons. simpl. exact IH.
Qed.

Lemma substring_take (a b : string) :
  substring 0 (String.length a) (a +:+ b) = a.
Proof.
  induction a as [|x a IH].
  - rewrite append_nil_l. now destruct b.
  - rewrite append_cons. simpl. now rewrite IH.
Qed.

Lemma substring_all (a : string) : substring 0 (String.length a) a = a.
Proof. rewrite <- (append_nil_r a) at 2. apply substring_take. Qed.

(** A string is split by any position inside it. *)
Lemma substring_split (u : string) (n : nat) :
  (n <= String.length u)%nat ->
  u = substring 0 n u +:+ substring n (String.length u - n) u.
Proof.
  revert n. induction u as [|c u IH]; intros n Hn; simpl in *.
  - destruct n; [reflexivity | lia].
  - destruct n as [|n]; simpl.
    + rewrite append_nil_l. now rewrite substring_all.
    + rewrite append_cons. f_equal. apply IH. lia.
Qed.

Lemma prefix_append (a b : string) : String.prefix a (a +:+ b) = true.
Proof.
  apply prefix_correct. apply substring_take.
Qed.

Lemma startsWith_spec (u p : string) :
  Poco.startsWith u p = true <-> exists x, u = p +:+ x.
Proof.
  unfold Poco.startsWith. split.
  - intros H. apply andb_true_iff in H as [Hlen Hp].
    apply Nat.leb_le in Hlen. apply prefix_correct in Hp.
    exists (substring (String.length p) (String.length u - String.length p) u).
    rewrite <- Hp at 1. now apply substring_split.
  - intros [x ->]. apply andb_true_iff. split.
    + apply Nat.leb_le. rewrite length_append. lia.
    + apply prefix_append.
Qed.

Lemma endsWith_spec (u s : string) :
  Poco.endsWith u s = true <-> exists y, u = y +:+ s.
Proof.
  unfold Poco.endsWith. split.
  - intros H. apply andb_true_iff in H as [Hlen Hs].
    apply Nat.leb_le in Hlen. apply String.eqb_eq in Hs.
    exists (substring 0 (String.length u - String.length s) u).
    pose proof (substring_split u (String.length u - String.length s)) as Hsplit.
    replace (String.length u - (String.length u - String.length s))%nat
      with (String.length s) in Hsplit by lia.
    rewrite Hs in Hsplit. apply Hsplit. lia.
  - intros [y ->]. apply andb_true_iff. split.
    + apply Nat.leb_le. rewrite length_append. lia.
    + apply String.eqb_eq. rewrite length_append.
      replace (String.length y + String.length s - String.length s)%nat
        with (String.length y + 0)%nat by lia.
      rewrite substring_skip. apply substring_all.
Qed.

End StringFacts.

(** ** Unit names *)

Example CreateSystemdUnitName_service0 :
  CreateSystemdUnitName "service0" = "aos-service@service0.service".
Proof. reflexivity. Qed.

Example CreateInstanceID_service0 :
  CreateInstanceID "aos-service@service0.service" = Ok "service0".
Proof. reflexivity. Qed.

Example CreateInstanceID_empty_instance :
  CreateInstanceID "aos-service@.service" = Ok "".
Proof. reflexivity. Qed.

Example CreateInstanceID_socket :
  CreateInstanceID "aos-service@service0.socket"
  = Throw (AosException "not a valid Aos service name"
             (ErrorOf eInvalidArgument "")).
Proof. reflexivity. Qed.

Lemma CreateSystemdUnitName_eq (instanceID : string) :
  CreateSystemdUnitName instanceID = "aos-service@" +:+ instanceID +:+ ".service".
Proof. reflexivity. Qed.

Lemma CreateInstanceID_of_name (instanceID : string) :
  CreateInstanceID ("aos-service@" +:+ instanceID +:+ ".service") = Ok instanceID.
Proof.
  unfold CreateInstanceID.
  assert (Hs : Poco.startsWith ("aos-service@" +:+ instanceID +:+ ".service")
                 "aos-service@" = true)
    by (apply startsWith_spec; eauto).
  assert (He : Poco.endsWith ("aos-service@" +:+ instanceID +:+ ".service")
                 ".service" = true).
  { apply endsWith_spec. exists ("aos-service@" +:+ instanceID).
    symmetry. apply append_assoc. }
  rewrite Hs, He. cbn [andb]. unfold substr.
  rewrite !length_append.
  replace (String.length "aos-service@" <=?
           String.length "aos-service@" +
           (String.length instanceID + String.length ".service"))%nat
    with true by (symmetry; apply Nat.leb_le; lia).
  replace (String.length "aos-service@" +
           (String.length instanceID + String.length ".service")
           - String.length "aos-service@" - String.length ".service")%nat
    with (String.length instanceID) by lia.
  f_equal.
  rewrite <- (Nat.add_0_r (String.length "aos-service@")).
  rewrite substring_skip. apply substring_take.
Qed.

(** A name that passes both tests of [CreateInstanceID] is long enough for
    the two subtractions: the prefix and the suffix cannot overlap. *)
Lemma valid_name_shape (unitname : string) :
  Poco.startsWith unitname "aos-service@" = true ->
  Poco.endsWith unitname ".service" = true ->
  exists mid, unitname = "aos-service@" +:+ mid +:+ ".service".
Proof.
  intros Hs He. apply startsWith_spec in Hs as [x ->].
  unfold Poco.endsWith in He. apply andb_true_iff in He as [Hlen He].
  apply String.eqb_eq in He. apply Nat.leb_le in Hlen.
  rewrite length_append in *. cbn [String.length] in *.
  destruct (le_lt_dec 8 (String.length x)) as [Hx | Hx].
  - exists (substring 0 (String.length x - 8) x). f_equal.
    replace (12 + String.length x - 8)%nat
      with (String.length "aos-service@" + (String.length x - 8))%nat in He
      by (cbn [String.length]; lia).
    rewrite substring_skip in He.
    pose proof (substring_split x (String.length x - 8)) as Hsplit.
    replace (String.length x - (String.length x - 8))%nat with 8%nat in Hsplit by lia.
    rewrite He in Hsplit. apply Hsplit. lia.
  - exfalso.
    do 8 (destruct x as [|? x];
          [vm_compute in He; discriminate | cbn [String.length] in Hx]).
    lia.
Qed.

(** C1. Parsing the unit name made from an instance ID gives the ID back,
    the unit name being aos-service@<ID>.service; a string that lacks the
    prefix aos-service@ or the suffix .service is refused with
    InvalidArgument. *)
Theorem CreateInstanceID_round_trip :
  (forall instanceID : string,
     CreateSystemdUnitName instanceID = "aos-service@" +:+ instanceID +:+ ".service"
     /\ CreateInstanceID (CreateSystemdUnitName instanceID) = Ok instanceID)
  /\ (forall unitname : string,
        ~ (exists x, unitname = "aos-service@" +:+ x)
        \/ ~ (exists y, unitname = y +:+ ".service") ->
        exists msg err,
          CreateInstanceID unitname = Throw (AosException msg err)
          /\ mErr err = eInvalidArgument).
Proof.
  split.
  - intros instanceID. split; [reflexivity |].
    rewrite CreateSystemdUnitName_eq. apply CreateInstanceID_of_name.
  - intros unitname H. unfold CreateInstanceID.
    destruct (Poco.startsWith unitname "aos-service@") eqn:Hs.
    + destruct (Poco.endsWith unitname ".service") eqn:He.
      * exfalso. destruct H as [H | H]; apply H.
        -- now apply startsWith_spec.
        -- now apply endsWith_spec.
      * cbn [andb]. unfold AOS_ERROR_THROW. eauto.
    + cbn [andb]. unfold AOS_ERROR_THROW. eauto.
Qed.

Lemma CreateInstanceID_round_trip_witness :
  exists msg err,
    CreateInstanceID "aos-service@service0.socket" = Throw (AosException msg err)
    /\ mErr err = eInvalidArgument.
Proof.
  apply (proj2 CreateInstanceID_round_trip "aos-service@service0.socket").
  right. intros Hy. apply endsWith_spec in Hy. vm_compute in Hy. discriminate.
Defined.

(** ** Wire conversions *)

Section ConvertFacts.

Import Convert.

Lemma to_int64_small (v : Z) : 0 <= v < 2 ^ 63 -> to_int64 v = v.
Proof. intros H. unfold to_int64. rewrite Z.mod_small; lia. Qed.

Lemma to_int64_large (v : Z) : 2 ^ 63 <= v < 2 ^ 64 -> to_int64 v = v - 2 ^ 64.
Proof.
  intros H. unfold to_int64.
  replace (v + 2 ^ 63) with ((v - 2 ^ 63) + 1 * 2 ^ 64) by lia.
  rewrite Z.mod_add by lia. rewrite Z.mod_small; lia.
Qed.

Lemma to_int64_minus_one (v : Z) :
  0 <= v < 2 ^ 64 -> (to_int64 v = -1 <-> v = 2 ^ 64 - 1).
Proof.
  intros H. destruct (Z_lt_le_dec v (2 ^ 63)).
  - rewrite to_int64_small by lia. lia.
  - rewrite to_int64_large by lia. lia.
Qed.

Lemma to_uint64_to_int64 (v : Z) : 0 <= v < 2 ^ 64 -> to_uint64 (to_int64 v) = v.
Proof.
  intros H. unfold to_uint64. destruct (Z_lt_le_dec v (2 ^ 63)).
  - rewrite to_int64_small by lia. apply Z.mod_small. lia.
  - rewrite to_int64_large by lia.
    replace (v - 2 ^ 64) with (v + (-1) * 2 ^ 64) by lia.
    rewrite Z.mod_add by lia. apply Z.mod_small. lia.
Qed.

Lemma ConvertToProto_instance (f : InstanceFilter) (dst : PbInstanceFilter) :
  instance (ConvertToProto_InstanceFilter f dst)
  = match mInstance f with Some v => to_int64 v | None => -1 end.
Proof.
  unfold ConvertToProto_InstanceFilter.
  destruct (mServiceID f), (mSubjectID f), (mInstance f); reflexivity.
Qed.

Lemma ConvertToAos_instance (val : PbInstanceFilter) :
  mInstance (ConvertToAos_InstanceFilter val)
  = if instance val =? -1 then None else Some (to_uint64 (instance val)).
Proof.
  unfold ConvertToAos_InstanceFilter.
  destruct (String.eqb (service_id val) ""), (String.eqb (subject_id val) ""),
    (instance val =? -1); reflexivity.
Qed.

(** C7, as stated, fails: the largest [uint64_t] instance is written as -1
    and comes back absent. *)
Lemma instance_filter_round_trip_counterexample :
  ~ (forall (f : InstanceFilter) (dst : PbInstanceFilter),
       wf_filter f ->
       (instance (ConvertToProto_InstanceFilter f dst) = -1 <-> mInstance f = None)
       /\ mInstance (ConvertToAos_InstanceFilter (ConvertToProto_InstanceFilter f dst))
          = mInstance f).
Proof.
  intros H.
  destruct (H (mkInstanceFilter None None (Some (2 ^ 64 - 1))) PbInstanceFilter_new)
    as [_ Hrt].
  - unfold wf_filter. simpl. lia.
  - vm_compute in Hrt. discriminate.
Qed.

(** C7, amended. The wire instance is -1 exactly when the domain instance is
    absent or is 2^64-1; reading yields an absent instance exactly when the
    wire instance is -1; the instance field survives the round trip for every
    filter whose instance is not 2^64-1. *)
Theorem instance_filter_wire_encoding
  (f : InstanceFilter) (dst val : PbInstanceFilter) :
  wf_filter f ->
  (instance (ConvertToProto_InstanceFilter f dst) = -1
   <-> mInstance f = None \/ mInstance f = Some (2 ^ 64 - 1))
  /\ (mInstance (ConvertToAos_InstanceFilter val) = None <-> instance val = -1)
  /\ (mInstance f <> Some (2 ^ 64 - 1) ->
      mInstance (ConvertToAos_InstanceFilter (ConvertToProto_InstanceFilter f dst))
      = mInstance f).
Proof.
  intros Hwf. unfold wf_filter in Hwf.
  rewrite ConvertToAos_instance, ConvertToAos_instance, ConvertToProto_instance.
  destruct (mInstance f) as [v|].
  - pose proof (to_int64_minus_one v Hwf) as Hm. repeat split.
    + intros H. right. f_equal. now apply Hm.
    + intros [H | H]; [discriminate | injection H as ->; now apply Hm].
    + destruct (instance val =? -1) eqn:E; [lia | discriminate].
    + intros ->. reflexivity.
    + intros Hne. destruct (to_int64 v =? -1) eqn:E.
      * exfalso. apply Hne. f_equal. apply Hm. lia.
      * f_equal. now apply to_uint64_to_int64.
  - repeat split; auto.
    + destruct (instance val =? -1) eqn:E; [lia | discriminate].
    + intros ->. reflexivity.
Qed.

Lemma instance_filter_wire_encoding_witness :
  let f := mkInstanceFilter (Some "service0") None (Some 3) in
  mInstance (ConvertToAos_InstanceFilter
               (ConvertToProto_InstanceFilter f PbInstanceFilter_new))
  = Some 3.
Proof.
  intros f.
  refine (proj2 (proj2 (instance_filter_wire_encoding f PbInstanceFilter_new
                          PbInstanceFilter_new _)) _).
  - unfold wf_filter. simpl. lia.
  - simpl. intros H. injection H as H. vm_compute in H. discriminate.
Defined.

(** C8, as stated, fails: a wire timestamp with negative seconds converts
    to an absent value although its seconds are not 0. *)
Lemma timestamp_absent_counterexample :
  ~ (forall val : Timestamp,
       (ConvertToAos_Timestamp val = None <-> seconds val = 0)
       /\ (seconds val <> 0 ->
           ConvertToAos_Timestamp val = Some (Unix (seconds val) (nanos val)))).
Proof.
  intros H. destruct (H (mkTimestamp (-1) 0)) as [[H1 _] _].
  specialize (H1 eq_refl). simpl in H1. discriminate.
Qed.

(** C8, amended. A wire timestamp converts to an absent value exactly when
    its seconds are 0 or negative, and otherwise to Unix(seconds, nanos);
    towards the wire a time is always present and is written with its Unix
    seconds, so that the time with Unix seconds 0 is written as seconds=0
    and reads back as absent. *)
Theorem timestamp_wire_encoding (val : Timestamp) (time : Time) :
  (ConvertToAos_Timestamp val = None <-> seconds val <= 0)
  /\ (0 < seconds val ->
      ConvertToAos_Timestamp val = Some (Unix (seconds val) (nanos val)))
  /\ seconds (TimestampToPB time) = tv_sec (UnixTime time)
  /\ nanos (TimestampToPB time) = to_int32 (tv_nsec (UnixTime time))
  /\ (tv_sec (UnixTime time) = 0 ->
      seconds (TimestampToPB time) = 0
      /\ ConvertToAos_Timestamp (TimestampToPB time) = None).
Proof.
  unfold ConvertToAos_Timestamp, TimestampToPB, UnixTime. simpl.
  assert (Hzero : tv_sec time = 0 ->
                  (if tv_sec time >? 0
                   then Some (Unix (tv_sec time) (to_int32 (tv_nsec time)))
                   else None) = None)
    by (intros ->; reflexivity).
  destruct (Z.gtb_spec (seconds val) 0) as [Hpos | Hneg].
  - repeat split; try discriminate; try lia; auto.
  - repeat split; try lia; auto.
Qed.

Lemma timestamp_wire_encoding_witness :
  ConvertToAos_Timestamp (mkTimestamp 1700000000 5) = Some (Unix 1700000000 5)
  /\ ConvertToAos_Timestamp (TimestampToPB (mkTime 0 7)) = None.
Proof.
  split.
  - apply (proj1 (proj2 (timestamp_wire_encoding (mkTimestamp 1700000000 5)
                           (mkTime 0 7)))).
    simpl. lia.
  - apply (proj2 (proj2 (proj2 (proj2 (timestamp_wire_encoding
                                          (mkTimestamp 1700000000 5) (mkTime 0 7)))))).
    reflexivity.
Defined.

End ConvertFacts.

(** ** Configuration *)

Section ConfigFacts.

Import Config.

Context {Obj : Type} (J : JsonItf Obj) (L : Lib).

Ltac run_parser :=
  unfold mbind, M_bind, mret, M_ret, poco, lift, modify, get; simpl.

(** What [ParseJournalAlertsConfig] leaves when the three reads of the
    object return: a priority and the warnings, for each of the two keys. *)
Lemma ParseJournalAlertsConfig_returns (object : Obj) (c0 : JournalAlertsConfig)
  (l0 : list Event) (filter : list string) (service system : option Z) :
  GetArrayString J object "filter" = Value filter ->
  GetOptionalInt J object "serviceAlertPriority" = Value service ->
  GetOptionalInt J object "systemAlertPriority" = Value system ->
  let inRange v := (cMinAlertPriorityLevel <=? v) && (v <=? cMaxAlertPriorityLevel) in
  let fix_ d o := if inRange (default d o) then default d o else d in
  let warns d o ev := if inRange (default d o) then [] else [ev] in
  ParseJournalAlertsConfig J object (c0, l0)
  = (Ok tt,
     (mkJournalAlertsConfig filter
        (fix_ cDefaultServiceAlertPriority service)
        (fix_ cDefaultSystemAlertPriority system),
      l0 ++ warns cDefaultServiceAlertPriority service serviceWarning
         ++ warns cDefaultSystemAlertPriority system systemWarning)).
Proof.
  intros Hf Hs Hy inRange fix_ warns.
  unfold ParseJournalAlertsConfig. run_parser. rewrite Hf, Hs, Hy. simpl.
  subst inRange fix_ warns. cbv beta.
  unfold cMaxAlertPriorityLevel, cMinAlertPriorityLevel.
  set (s := default cDefaultServiceAlertPriority service).
  set (y := default cDefaultSystemAlertPriority system).
  destruct (Z.gtb_spec s 7), (Z.ltb_spec s 0), (Z.leb_spec 0 s), (Z.leb_spec s 7);
    try lia; simpl;
    destruct (Z.gtb_spec y 7), (Z.ltb_spec y 0), (Z.leb_spec 0 y), (Z.leb_spec y 7);
    try lia; simpl; rewrite ?app_nil_r, <- ?app_assoc; reflexivity.
Qed.

Lemma warnings_differ : serviceWarning <> systemWarning.
Proof. vm_compute. discriminate. Qed.

(** C6. A service or system alert priority outside 0..7 is reset to its
    default (4 and 3) and a warning is logged; a value inside 0..7 is kept
    and an absent value takes the default, both without a warning. *)
Theorem alert_priority_reset (object : Obj) (c0 : JournalAlertsConfig)
  (l0 : list Event) (filter : list string) (service system : option Z) :
  GetArrayString J object "filter" = Value filter ->
  GetOptionalInt J object "serviceAlertPriority" = Value service ->
  GetOptionalInt J object "systemAlertPriority" = Value system ->
  exists (c' : JournalAlertsConfig) (l' : list Event),
    ParseJournalAlertsConfig J object (c0, l0) = (Ok tt, (c', l0 ++ l'))
    /\ (forall v, service = Some v -> 0 <= v <= 7 ->
          mServiceAlertPriority c' = v /\ ~ In serviceWarning l')
    /\ (forall v, service = Some v -> v < 0 \/ 7 < v ->
          mServiceAlertPriority c' = 4 /\ In serviceWarning l')
    /\ (service = None -> mServiceAlertPriority c' = 4 /\ ~ In serviceWarning l')
    /\ (forall v, system = Some v -> 0 <= v <= 7 ->
          mSystemAlertPriority c' = v /\ ~ In systemWarning l')
    /\ (forall v, system = Some v -> v < 0 \/ 7 < v ->
          mSystemAlertPriority c' = 3 /\ In systemWarning l')
    /\ (system = None -> mSystemAlertPriority c' = 3 /\ ~ In systemWarning l').
Proof.
  intros Hf Hs Hy.
  pose proof (ParseJournalAlertsConfig_returns object c0 l0 filter service system
                Hf Hs Hy) as Hrun.
  cbv zeta in Hrun. eexists. eexists. split; [exact Hrun |].
  pose proof warnings_differ as Hd.
  unfold cMinAlertPriorityLevel, cMaxAlertPriorityLevel,
    cDefaultServiceAlertPriority, cDefaultSystemAlertPriority.
  cbn [mServiceAlertPriority mSystemAlertPriority]. clear Hrun Hs Hy.
  assert (Hin : forall a b : Event, In a [b] <-> b = a)
    by (intros a b; simpl; tauto).
  refine (conj _ (conj _ (conj _ (conj _ (conj _ _)))));
    intros; subst; cbn [from_option id];
    repeat match goal with
      | |- context [(0 <=? ?x) && (?x <=? 7)] =>
          destruct (Z.leb_spec 0 x), (Z.leb_spec x 7); cbn [andb]
      end;
    try lia;
    (split; [reflexivity |]);
    rewrite ?app_nil_r, ?app_nil_l, ?in_app_iff, ?Hin;
    simpl; try tauto; try (intros [H' | H']; congruence); try congruence; auto.
Qed.

End ConfigFacts.

Lemma alert_priority_reset_witness :
  let object := JsonDouble.JObj [("serviceAlertPriority", JsonDouble.JNum 9);
                                 ("SystemAlertPriority", JsonDouble.JNum 2)] in
  exists (c' : Config.JournalAlertsConfig) (l' : list Event),
    Config.ParseJournalAlertsConfig
      (JsonDouble.double (fun _ => Config.Raises "no file")) object
      (Config.mkJournalAlertsConfig [] 0 0, []) = (Ok tt, (c', [] ++ l'))
    /\ Config.mServiceAlertPriority c' = 4 /\ In Config.serviceWarning l'
    /\ Config.mSystemAlertPriority c' = 2 /\ ~ In Config.systemWarning l'.
Proof.
  intros object.
  destruct (alert_priority_reset (JsonDouble.double (fun _ => Config.Raises "no file"))
              object (Config.mkJournalAlertsConfig [] 0 0) [] [] (Some 9) (Some 2)
              eq_refl eq_refl eq_refl)
    as (c' & l' & Hrun & _ & Hout & _ & Hin & _).
  exists c', l'. split; [exact Hrun |].
  destruct (Hout 9 eq_refl) as [H1 H2]; [lia |].
  destruct (Hin 2 eq_refl) as [H3 H4]; [lia |].
  auto.
Defined.

(** ** Runner: stopping an instance *)

Section StopFacts.

Lemma Is_NotFound_not_none (e : Error) : Is e eNotFound = true -> IsNone e = false.
Proof.
  unfold Is, IsNone. intros H. apply bool_decide_eq_true in H.
  apply bool_decide_eq_false. congruence.
Qed.

Lemma IsNone_ErrNone : IsNone ErrNone = true.
Proof. reflexivity. Qed.

Lemma RemoveRunParameters_eq (K : RunnerConsts) (ff : FsFaults) (unitName : string)
  (w : World) :
  RemoveRunParameters K ff unitName w
  = (fst (RemoveAll ff (parametersDirOf K unitName) (mFS w)),
     emit (EvRemoveAll (parametersDirOf K unitName))
          (setFS (snd (RemoveAll ff (parametersDirOf K unitName) (mFS w))) w)).
Proof.
  unfold RemoveRunParameters.
  now destruct (RemoveAll ff (parametersDirOf K unitName) (mFS w)).
Qed.

(** C9, as stated, fails: a NotFound error of the drop-in removal is not
    among the errors that are passed over, it is returned. *)
Lemma StopInstance_removal_NotFound_counterexample :
  ~ (forall (K : RunnerConsts) (sd : SystemdConnItf) (ff : FsFaults)
            (instanceID : string) (w : World),
       let unitName := CreateSystemdUnitName instanceID in
       let stopErr := StopUnit sd unitName "replace" (cDefaultStopTimeout K) in
       let resetErr := ResetFailedUnit sd unitName in
       let rmErr := fst (RemoveAll ff (parametersDirOf K unitName) (mFS w)) in
       IsNone (fst (StopInstance K sd ff instanceID w))
       = IsNone (firstError [unlessNotFound stopErr; unlessNotFound resetErr;
                             unlessNotFound rmErr])).
Proof.
  intros H.
  specialize (H Doubles.K (Doubles.systemd UnitStateEnum.eInactive None)
                Doubles.removalNotFound "service0" Doubles.started).
  vm_compute in H. discriminate.
Qed.

(** What [StopInstance] does to the unit maps, the file system and the
    history. *)
Lemma StopInstance_effect (K : RunnerConsts) (sd : SystemdConnItf) (ff : FsFaults)
  (instanceID : string) (w : World) :
  let unitName := CreateSystemdUnitName instanceID in
  let dir := parametersDirOf K unitName in
  let w' := snd (StopInstance K sd ff instanceID w) in
  mRunningUnits w' = delete unitName (mRunningUnits w)
  /\ mStartingUnits w' = mStartingUnits w
  /\ (exists notLoaded,
        mHistory w'
        = mHistory w
          ++ [EvLog LogDbg "Stop service instance";
              EvStopUnit unitName "replace" (cDefaultStopTimeout K)]
          ++ notLoaded
          ++ [EvResetFailedUnit unitName; EvRemoveAll dir])
  /\ mFS w' = snd (RemoveAll ff dir (mFS w)).
Proof.
  intros unitName dir w'. subst w'. unfold StopInstance.
  change (CreateSystemdUnitName instanceID) with unitName.
  destruct (negb (IsNone (StopUnit sd unitName "replace" (cDefaultStopTimeout K))));
    [destruct (Is (StopUnit sd unitName "replace" (cDefaultStopTimeout K)) eNotFound) |];
    cbn beta iota zeta; rewrite RemoveRunParameters_eq;
    cbn [snd mRunningUnits mStartingUnits mHistory mFS emit setFS setRunningUnits];
    fold dir; rewrite <- ?app_assoc;
    (split; [reflexivity |]); (split; [reflexivity |]);
    (split; [first [ now exists [] | now eexists [_] ] | reflexivity]).
Qed.

(** C9, amended. [StopInstance] erases the unit from the running units,
    then calls [StopUnit], [ResetFailedUnit] and the removal of the drop-in
    directory in every case, and returns the first error among: the one of
    [StopUnit] unless it is NotFound, the one of [ResetFailedUnit] unless it
    is NotFound, and the one of the removal whatever its kind. So it succeeds
    for a unit that is not loaded when the removal succeeds. *)
Theorem StopInstance_errors (K : RunnerConsts) (sd : SystemdConnItf) (ff : FsFaults)
  (instanceID : string) (w : World) :
  let unitName := CreateSystemdUnitName instanceID in
  let dir := parametersDirOf K unitName in
  let stopErr := StopUnit sd unitName "replace" (cDefaultStopTimeout K) in
  let resetErr := ResetFailedUnit sd unitName in
  let rmErr := fst (RemoveAll ff dir (mFS w)) in
  let expected := firstError [unlessNotFound stopErr; unlessNotFound resetErr; rmErr] in
  let err := fst (StopInstance K sd ff instanceID w) in
  let w' := snd (StopInstance K sd ff instanceID w) in
  mRunningUnits w' = delete unitName (mRunningUnits w)
  /\ mStartingUnits w' = mStartingUnits w
  /\ (exists notLoaded,
        mHistory w'
        = mHistory w
          ++ [EvLog LogDbg "Stop service instance";
              EvStopUnit unitName "replace" (cDefaultStopTimeout K)]
          ++ notLoaded
          ++ [EvResetFailedUnit unitName; EvRemoveAll dir])
  /\ mFS w' = snd (RemoveAll ff dir (mFS w))
  /\ IsNone err = IsNone expected
  /\ (IsNone expected = false -> err = expected)
  /\ (Is stopErr eNotFound = true ->
      IsNone resetErr || Is resetErr eNotFound = true ->
      IsNone rmErr = true ->
      IsNone err = true).
Proof.
  intros unitName dir stopErr resetErr rmErr expected err w'.
  subst err w' expected. unfold StopInstance.
  change (CreateSystemdUnitName instanceID) with unitName.
  change (StopUnit sd unitName "replace" (cDefaultStopTimeout K)) with stopErr.
  change (ResetFailedUnit sd unitName) with resetErr.
  unfold unlessNotFound. cbn [firstError].
  pose proof (Is_NotFound_not_none stopErr) as Hs.
  pose proof (Is_NotFound_not_none resetErr) as Hr.
  destruct (IsNone stopErr) eqn:E1; destruct (Is stopErr eNotFound) eqn:E2;
    try (specialize (Hs eq_refl); discriminate);
    destruct (IsNone resetErr) eqn:E3; destruct (Is resetErr eNotFound) eqn:E4;
    try (specialize (Hr eq_refl); discriminate);
    cbn beta iota zeta delta [negb andb orb];
    rewrite RemoveRunParameters_eq;
    cbn [mFS emit setFS setRunningUnits]; fold dir; fold rmErr;
    destruct (IsNone rmErr) eqn:E5;
    cbn [negb andb orb fst snd mRunningUnits mStartingUnits mHistory mFS
         emit setFS setRunningUnits];
    rewrite ?IsNone_ErrNone, ?E1, ?E3, ?E5; cbn [negb andb orb];
    rewrite ?IsNone_ErrNone, ?E1, ?E3, ?E5;
    (split; [reflexivity |]); (split; [reflexivity |]);
    (split; [rewrite <- ?app_assoc; first [ now exists [] | now eexists [_] ] |]);
    (split; [reflexivity |]);
    repeat split; try reflexivity; try congruence; auto.
Qed.

Lemma StopInstance_errors_witness :
  IsNone (fst (StopInstance Doubles.K Doubles.systemdNotLoaded Doubles.noFaults
                 "service0" Doubles.started)) = true.
Proof.
  apply (StopInstance_errors Doubles.K Doubles.systemdNotLoaded Doubles.noFaults
           "service0" Doubles.started); reflexivity.
Defined.

End StopFacts.

(** ** Runner: the monitor thread and a failing ListUnits *)

Section MonitorErrorFacts.

Lemma MonitorIteration_ListUnits_error (w : World) (p : Poll) :
  mClosed w = false ->
  pStopRequested p = false ->
  IsNone (snd (pListUnits p)) = false ->
  MonitorIteration p w
  = (Return, emit (EvLog LogErr "Systemd list units failed")
                  (emit (EvListUnits (pListUnits p)) w)).
Proof.
  intros Hc Hs He. unfold MonitorIteration. rewrite Hc, Hs, Hc.
  destruct (pListUnits p) as [units err]. simpl in He. now rewrite He.
Qed.

(** C4, as stated, fails: after a failing [ListUnits] the monitor thread is
    not running any more. *)
Lemma monitor_backs_off_counterexample :
  ~ (forall (w : World) (p : Poll) (rest : list Poll),
       mMonitoringThread w = ThreadRunning ->
       mClosed w = false ->
       pStopRequested p = false ->
       IsNone (snd (pListUnits p)) = false ->
       mMonitoringThread (RunMonitor (p :: rest) w) = ThreadRunning).
Proof.
  intros H.
  specialize (H Doubles.started Doubles.listFails
                [Doubles.listed "aos-service@service0.service"
                   UnitStateEnum.eActive None]
                eq_refl eq_refl eq_refl eq_refl).
  vm_compute in H. discriminate.
Qed.

(** C4, amended. When [ListUnits] fails in the monitor thread, whatever the
    error, the error is logged and the thread function returns: there is no
    back-off, no later poll is looked at and the unit maps stay as they
    were. No monitor runs from then on; one runs again after [Stop()], which
    joins the finished thread, and a following [Start()]. *)
Theorem MonitorUnits_returns_on_ListUnits_error
  (w : World) (p : Poll) (rest : list Poll) :
  mMonitoringThread w = ThreadRunning ->
  mClosed w = false ->
  pStopRequested p = false ->
  IsNone (snd (pListUnits p)) = false ->
  let w' := RunMonitor (p :: rest) w in
  w' = setThread ThreadFinished
         (emit (EvLog LogErr "Systemd list units failed")
               (emit (EvListUnits (pListUnits p)) w))
  /\ mStartingUnits w' = mStartingUnits w
  /\ mRunningUnits w' = mRunningUnits w
  /\ (forall polls, RunMonitor polls w' = w')
  /\ (exists w'',
        Start (Ok tt) (snd (Stop w')) = Some (ErrNone, w'')
        /\ mMonitoringThread w'' = ThreadRunning
        /\ mClosed w'' = false).
Proof.
  intros Ht Hc Hs He w'.
  assert (Hw : w' = setThread ThreadFinished
                      (emit (EvLog LogErr "Systemd list units failed")
                            (emit (EvListUnits (pListUnits p)) w))).
  { subst w'. unfold RunMonitor. rewrite Ht. cbn [MonitorUnits].
    now rewrite (MonitorIteration_ListUnits_error w p Hc Hs He). }
  clearbody w'. subst w'.
  split; [reflexivity |]. split; [reflexivity |]. split; [reflexivity |].
  split.
  - intros polls. reflexivity.
  - unfold Stop. cbn [mClosed setThread emit]. rewrite Hc.
    cbn. eexists. split; [reflexivity |]. split; reflexivity.
Qed.

Lemma MonitorUnits_returns_on_ListUnits_error_witness :
  mMonitoringThread
    (RunMonitor [Doubles.listFails;
                 Doubles.listed "aos-service@service0.service"
                   UnitStateEnum.eActive None]
       Doubles.started) = ThreadFinished.
Proof.
  rewrite (proj1 (MonitorUnits_returns_on_ListUnits_error Doubles.started
                    Doubles.listFails
                    [Doubles.listed "aos-service@service0.service"
                       UnitStateEnum.eActive None]
                    eq_refl eq_refl eq_refl eq_refl)).
  reflexivity.
Defined.

End MonitorErrorFacts.

(** ** Runner: what the monitor thread leaves alone *)

Section MonitorFrame.

Lemma monitored_refl (w : World) : monitored w w.
Proof.
  repeat split. exists []. now rewrite app_nil_r.
Qed.

Lemma monitored_trans (w1 w2 w3 : World) :
  monitored w1 w2 -> monitored w2 w3 -> monitored w1 w3.
Proof.
  intros (Hf & Hr & Hs & evs & Hh) (Hf' & Hr' & Hs' & evs' & Hh').
  repeat split; try congruence.
  exists (evs ++ evs'). rewrite Hh', Hh. now rewrite app_assoc.
Qed.

Lemma monitored_emit (ev : Event) (w : World) : monitored w (emit ev w).
Proof. repeat split. now exists [ev]. Qed.

Lemma updateUnit_monitored (st : World * bool) (unit : UnitStatus) :
  monitored (fst st) (fst (updateUnit st unit)).
Proof.
  destruct st as [w changed]. unfold updateUnit.
  set (w1 := match mStartingUnits w !! mName unit with
             | Some _ => _
             | None => w
             end).
  assert (H1 : monitored w w1).
  { subst w1. destruct (mStartingUnits w !! mName unit) eqn:E.
    - assert (Hd : dom (<[mName unit := mkStartingUnitData (mActiveState unit)
                                                            (mExitCode unit)]>
                          (mStartingUnits w)) = dom (mStartingUnits w))
        by (apply dom_insert_lookup_L; eauto).
      destruct (decide (mActiveState unit = UnitStateEnum.eFailed)).
      + repeat split; cbn; try exact Hd. now eexists [_].
      + repeat split; cbn; try exact Hd. exists []. now rewrite app_nil_r.
    - apply monitored_refl. }
  clearbody w1.
  destruct (mRunningUnits w1 !! mName unit) as [runningState|] eqn:E; [| exact H1].
  destruct (negb _ || negb _); [| exact H1].
  eapply monitored_trans; [exact H1 |]. cbn.
  repeat split; cbn.
  - apply dom_insert_lookup_L. eauto.
  - exists []. now rewrite app_nil_r.
Qed.

Lemma foldl_updateUnit_monitored (units : list UnitStatus) (st : World * bool) :
  monitored (fst st) (fst (foldl updateUnit st units)).
Proof.
  revert st. induction units as [|u units IH]; intros st; cbn [foldl].
  - apply monitored_refl.
  - eapply monitored_trans; [apply updateUnit_monitored | apply IH].
Qed.

Lemma GetRunningInstances_monitored (w : World) :
  monitored w (snd (GetRunningInstances w)).
Proof.
  unfold GetRunningInstances.
  destruct (transformUnits (map_to_list (mRunningUnits w))) as [l [e|]]; cbn;
    repeat split; exists []; now rewrite app_nil_r.
Qed.

Lemma MonitorIteration_monitored (p : Poll) (w : World) :
  monitored w (snd (MonitorIteration p w)).
Proof.
  unfold MonitorIteration.
  destruct (mClosed w) eqn:Hc; [apply monitored_refl |].
  set (w0 := if pStopRequested p then setClosed true w else w).
  assert (H0 : monitored w w0).
  { subst w0. destruct (pStopRequested p); [| apply monitored_refl].
    repeat split. exists []. now rewrite app_nil_r. }
  clearbody w0. destruct (mClosed w0); [exact H0 |].
  destruct (pListUnits p) as [units err].
  destruct (negb (IsNone err)).
  - cbn [snd]. eapply monitored_trans; [exact H0 |].
    eapply monitored_trans; apply monitored_emit.
  - pose proof (foldl_updateUnit_monitored units
                  (emit (EvListUnits (units, err)) w0, false)) as Hf.
    destruct (foldl updateUnit (emit (EvListUnits (units, err)) w0, false) units)
      as [w2 changed].
    cbn [fst] in Hf.
    assert (H2 : monitored w w2).
    { eapply monitored_trans; [exact H0 |].
      eapply monitored_trans; [apply monitored_emit | exact Hf]. }
    destruct (changed || negb (size (mRunningUnits w2) =? length (mRunningInstances w2))%nat);
      [| exact H2].
    pose proof (GetRunningInstances_monitored w2) as Hg.
    destruct (GetRunningInstances w2) as [[l|e] w3]; cbn [snd] in *;
      (eapply monitored_trans; [exact H2 |]);
      (eapply monitored_trans; [exact Hg | apply monitored_emit]).
Qed.

Lemma MonitorUnits_monitored (polls : list Poll) (w : World) :
  monitored w (MonitorUnits polls w).
Proof.
  revert w. induction polls as [|p polls IH]; intros w; cbn [MonitorUnits].
  - apply monitored_refl.
  - pose proof (MonitorIteration_monitored p w) as Hi.
    destruct (MonitorIteration p w) as [[|] w1]; cbn [snd] in Hi.
    + eapply monitored_trans; [exact Hi | apply IH].
    + eapply monitored_trans; [exact Hi |].
      repeat split. exists []. now rewrite app_nil_r.
Qed.

Lemma RunMonitor_monitored (polls : list Poll) (w : World) :
  monitored w (RunMonitor polls w).
Proof.
  unfold RunMonitor. destruct (mMonitoringThread w);
    try apply monitored_refl. apply MonitorUnits_monitored.
Qed.

End MonitorFrame.

(** ** Runner: the drop-in file *)

Section DropInFacts.

Lemma parametersFormat_content (startInterval : Duration) (startBurst : Z)
  (restartInterval : Duration) :
  Poco.format parametersFormat
    [Poco.AUnsigned (to_uint32 (Seconds startInterval));
     Poco.ALong startBurst;
     Poco.AUnsigned (to_uint32 (Seconds restartInterval))]
  = dropInContent startInterval startBurst restartInterval.
Proof. reflexivity. Qed.

Lemma is_file_false_dir (fs : gmap string Node) (path : string) :
  is_file fs path = false ->
  fs !! path = None \/ exists perms, fs !! path = Some (Dir perms).
Proof.
  unfold is_file. destruct (fs !! path) as [[perms | perms c]|]; eauto; discriminate.
Qed.

Lemma mkdir_if_absent_keeps (perms : Z) (fs : gmap string Node) (path k : string)
  (node : Node) :
  fs !! k = Some node -> mkdir_if_absent perms fs path !! k = Some node.
Proof.
  intros H. unfold mkdir_if_absent.
  destruct (fs !! path) eqn:E; [exact H |].
  rewrite lookup_insert_ne; [exact H | congruence].
Qed.

Lemma foldl_mkdir_keeps (perms : Z) (l : list string) (fs : gmap string Node)
  (k : string) (node : Node) :
  fs !! k = Some node -> foldl (mkdir_if_absent perms) fs l !! k = Some node.
Proof.
  revert fs. induction l as [|p l IH]; intros fs H; cbn [foldl]; [exact H |].
  apply IH. now apply mkdir_if_absent_keeps.
Qed.

Lemma foldl_mkdir_dir_or_none (perms : Z) (l : list string) (fs : gmap string Node)
  (path : string) :
  (fs !! path = None \/ exists q, fs !! path = Some (Dir q)) ->
  foldl (mkdir_if_absent perms) fs l !! path = None
  \/ exists q, foldl (mkdir_if_absent perms) fs l !! path = Some (Dir q).
Proof.
  revert fs. induction l as [|a l IH]; intros fs H; cbn [foldl]; [exact H |].
  apply IH. unfold mkdir_if_absent.
  destruct (fs !! a) eqn:Ea; [exact H |].
  destruct (decide (a = path)) as [-> | Hne].
  - right. exists perms. apply lookup_insert_eq.
  - rewrite lookup_insert_ne by exact Hne. exact H.
Qed.

(** After [create_directories] the last path of the chain is a directory. *)
Lemma foldl_mkdir_last (perms : Z) (l : list string) (fs : gmap string Node)
  (path : string) :
  is_file fs path = false ->
  exists p, foldl (mkdir_if_absent perms) fs (l ++ [path]) !! path = Some (Dir p).
Proof.
  intros Hf. rewrite foldl_app. cbn [foldl].
  pose proof (foldl_mkdir_dir_or_none perms l fs path (is_file_false_dir fs path Hf))
    as Hd.
  unfold mkdir_if_absent at 1.
  destruct (foldl (mkdir_if_absent perms) fs l !! path) as [node|] eqn:E.
  - destruct Hd as [Hd | [q Hq]]; [discriminate |]. exists q. congruence.
  - exists perms. apply lookup_insert_eq.
Qed.

Lemma existsb_app_last {A} (f : A -> bool) (l : list A) (x : A) :
  existsb f (l ++ [x]) = false -> f x = false.
Proof.
  rewrite existsb_app. cbn. intros H. apply orb_false_iff in H as [_ H].
  now apply orb_false_iff in H as [H _].
Qed.

Lemma ErrorOfErrno_pos (code : positive) (msg : string) :
  IsNone (ErrorOfErrno (Z.pos code) msg) = false.
Proof. reflexivity. Qed.

(** [CreateDir]: on success the path is a directory with the asked mode. *)
Lemma CreateDir_ok (ff : FsFaults) (path : string) (perms : Z) (w : World)
  (err : Error) (w' : World) :
  CreateDir ff path perms w = (err, w') ->
  IsNone err = true ->
  mFS w' !! path = Some (Dir perms)
  /\ mHistory w' = mHistory w ++ [EvCreateDirectories path; EvPermissions path perms]
  /\ mStartingUnits w' = mStartingUnits w
  /\ mRunningUnits w' = mRunningUnits w.
Proof.
  unfold CreateDir, create_directories.
  destruct (create_directories_fault ff path) as [[code msg]|] eqn:Ec.
  { cbn. intros [= <- <-] Hn. discriminate. }
  destruct (existsb (is_file (mFS w)) (ancestors path ++ [path])) eqn:Ex.
  { cbn. intros [= <- <-] Hn. discriminate. }
  cbn [fst snd Z.eqb negb mFS emit setFS].
  destruct (foldl_mkdir_last (umaskDirPerms ff) (ancestors path) (mFS w) path
              (existsb_app_last _ _ _ Ex)) as [p Hp].
  unfold permissions.
  destruct (permissions_fault ff path) as [[code msg]|] eqn:Ep.
  { cbn. intros [= <- <-] Hn. discriminate. }
  rewrite Hp. cbn. intros [= <- <-] _. cbn.
  split; [apply lookup_insert_eq |].
  split; [now rewrite <- app_assoc |]. split; reflexivity.
Qed.

Lemma append_longer (a b : string) : b <> "" -> a +:+ b <> a.
Proof.
  intros Hb H. apply (f_equal String.length) in H.
  rewrite length_append in H. destruct b; [congruence | simpl in H; lia].
Qed.

(** [SetRunParameters]: on success the drop-in directory and file are on
    disk with their modes and content, and nothing else of the runner has
    changed. *)
Lemma SetRunParameters_ok (K : RunnerConsts) (ff : FsFaults) (unitName : string)
  (si burst ri : Z) (w : World) (err : Error) (w' : World) :
  SetRunParameters K ff unitName (mkRunParameters (Some si) (Some burst) (Some ri)) w
  = (err, w') ->
  IsNone err = true ->
  let dir := parametersDirOf K unitName in
  let file := dir +:+ "/" +:+ cParametersFileName K in
  mFS w' !! dir = Some (Dir perms_0755)
  /\ mFS w' !! file = Some (File perms_0644 (dropInContent si burst ri))
  /\ mHistory w'
     = mHistory w ++ [EvCreateDirectories dir; EvPermissions dir perms_0755;
                      EvWriteStringToFile file (dropInContent si burst ri) perms_0644]
  /\ mStartingUnits w' = mStartingUnits w
  /\ mRunningUnits w' = mRunningUnits w.
Proof.
  unfold SetRunParameters. cbn [mStartInterval mStartBurst mRestartInterval deref
                                 from_option id].
  rewrite parametersFormat_content.
  destruct (CreateDir ff (parametersDirOf K unitName) perms_0755 w) as [e1 w1] eqn:Ed.
  destruct (IsNone e1) eqn:En; cbn [negb].
  2:{ intros [= <- <-] Hn. congruence. }
  destruct (CreateDir_ok _ _ _ _ _ _ Ed En) as (Hdir & Hh & Hs & Hr).
  unfold WriteStringToFile.
  destruct (write_fault ff _) as [e|] eqn:Ew.
  { intros [= <- <-] Hn. unfold asFault in Hn.
    destruct (IsNone e) eqn:Ee; [discriminate | congruence]. }
  intros [= <- <-] _. cbn [mFS mHistory emit setFS mStartingUnits mRunningUnits].
  split.
  - rewrite lookup_insert_ne; [exact Hdir |].
    apply append_longer. discriminate.
  - split; [apply lookup_insert_eq |].
    split; [rewrite Hh; now rewrite <- app_assoc |]. split; assumption.
Qed.

Lemma CreateDir_history (ff : FsFaults) (path : string) (perms : Z) (w : World) :
  exists evs,
    mHistory (snd (CreateDir ff path perms w)) = mHistory w ++ evs
    /\ Forall isFileOp evs
    /\ mStartingUnits (snd (CreateDir ff path perms w)) = mStartingUnits w
    /\ mRunningUnits (snd (CreateDir ff path perms w)) = mRunningUnits w.
Proof.
  unfold CreateDir.
  destruct (create_directories ff path (mFS w)) as [code fs1].
  destruct (negb (fst code =? 0)); cbn.
  - eexists [_]. repeat split. repeat constructor.
  - destruct (permissions ff path perms fs1) as [code2 fs2].
    destruct (negb (fst code2 =? 0)); cbn; rewrite <- app_assoc;
      eexists [_; _]; repeat split; repeat constructor.
Qed.

(** Whatever [SetRunParameters] does, only file operations are added to the
    history and the unit maps stay as they are. *)
Lemma SetRunParameters_history (K : RunnerConsts) (ff : FsFaults) (unitName : string)
  (params : RunParameters) (w : World) :
  exists evs,
    mHistory (snd (SetRunParameters K ff unitName params w)) = mHistory w ++ evs
    /\ Forall isFileOp evs
    /\ mStartingUnits (snd (SetRunParameters K ff unitName params w)) = mStartingUnits w
    /\ mRunningUnits (snd (SetRunParameters K ff unitName params w)) = mRunningUnits w.
Proof.
  unfold SetRunParameters.
  destruct (CreateDir_history ff (parametersDirOf K unitName) perms_0755 w)
    as (evs & Hh & Hno & Hs & Hr).
  destruct (CreateDir ff (parametersDirOf K unitName) perms_0755 w) as [e1 w1].
  cbn [snd] in Hh, Hs, Hr.
  destruct (negb (IsNone e1)); cbn [snd].
  - exists evs. repeat split; assumption.
  - destruct (WriteStringToFile ff _ _ perms_0644 (mFS w1)) as [e fs3]. cbn.
    rewrite Hh, <- app_assoc. eexists. split; [reflexivity |].
    split; [| split; assumption].
    apply Forall_app. split; [exact Hno | repeat constructor].
Qed.

Lemma fileOps_start_no_unit (evs : list Event) :
  Forall isFileOp evs ->
  forall name mode timeout, ~ In (EvStartUnit name mode timeout) evs.
Proof.
  intros Hf name mode timeout Hin.
  rewrite Forall_forall in Hf. apply list_elem_of_In in Hin. exact (Hf _ Hin).
Qed.

Lemma fileOps_quiet (evs : list Event) : Forall isFileOp evs -> quiet evs.
Proof.
  intros Hf instances Hin. rewrite Forall_forall in Hf.
  apply list_elem_of_In in Hin. exact (Hf _ Hin).
Qed.

End DropInFacts.

(** ** Runner: starting an instance *)

Section StartFacts.

Lemma FixRunParameters_eq (K : RunnerConsts) (params : RunParameters) :
  FixRunParameters K params
  = mkRunParameters
      (Some (default (cDefaultStartInterval K) (mStartInterval params)))
      (Some (default (cDefaultStartBurst K) (mStartBurst params)))
      (Some (default (cDefaultRestartInterval K) (mRestartInterval params))).
Proof.
  destruct params as [[si|] [burst|] [ri|]]; reflexivity.
Qed.

Lemma GetStartingUnitState_wake_frame (K : RunnerConsts) (unitName : string) (w : World) :
  mFS (snd (GetStartingUnitState_wake K unitName w)) = mFS w
  /\ mHistory (snd (GetStartingUnitState_wake K unitName w)) = mHistory w
  /\ mStartingUnits (snd (GetStartingUnitState_wake K unitName w))
     = delete unitName (mStartingUnits w).
Proof.
  unfold GetStartingUnitState_wake.
  destruct (negb (bool_decide (suRunState (startingAt K unitName w)
                               = UnitStateEnum.eActive)));
    repeat split.
Qed.

Lemma GetStartingUnitState_frame (K : RunnerConsts) (sd : SystemdConnItf)
  (unitName : string) (t : Duration) (ticks : list Poll) (w : World) :
  mFS (snd (GetStartingUnitState K sd unitName t ticks w)) = mFS w
  /\ exists evs,
       mHistory (snd (GetStartingUnitState K sd unitName t ticks w))
       = mHistory w ++ evs.
Proof.
  unfold GetStartingUnitState, GetStartingUnitState_register.
  destruct (GetUnitStatus sd unitName) as [initialStatus err].
  destruct (negb (IsNone err)); cbn [snd].
  - split; [reflexivity |]. now eexists [_].
  - destruct (GetStartingUnitState_wake_frame K unitName
                (RunMonitor ticks
                   (setStartingUnits
                      (<[unitName := mkStartingUnitData (mActiveState initialStatus)
                                                        (mExitCode initialStatus)]>
                         (mStartingUnits (emit (EvGetUnitStatus unitName
                                                  (initialStatus, err)) w)))
                      (emit (EvGetUnitStatus unitName (initialStatus, err)) w))))
      as (Hf & Hh & _).
    rewrite Hf, Hh.
    destruct (RunMonitor_monitored ticks
                (setStartingUnits
                   (<[unitName := mkStartingUnitData (mActiveState initialStatus)
                                                     (mExitCode initialStatus)]>
                      (mStartingUnits (emit (EvGetUnitStatus unitName
                                               (initialStatus, err)) w)))
                   (emit (EvGetUnitStatus unitName (initialStatus, err)) w)))
      as (Hf' & _ & _ & evs & Hh').
    rewrite Hf', Hh'. cbn. split; [reflexivity |].
    rewrite <- app_assoc. now eexists.
Qed.

Lemma RemoveAll_removes (ff : FsFaults) (dir : string) (fs : gmap string Node)
  (path : string) :
  remove_fault ff dir = None ->
  under dir path = true ->
  snd (RemoveAll ff dir fs) !! path = None.
Proof.
  intros Hn Hu. unfold RemoveAll. rewrite Hn. cbn [snd].
  apply map_lookup_filter_None. right. intros x _. cbn. congruence.
Qed.

(** [SetRunParameters] succeeds when the file system lets it: no fault is
    injected into its three calls and no regular file is in the way of the
    directory. *)
Lemma SetRunParameters_succeeds (K : RunnerConsts) (ff : FsFaults) (unitName : string)
  (params : RunParameters) (w : World) :
  let dir := parametersDirOf K unitName in
  let file := dir +:+ "/" +:+ cParametersFileName K in
  create_directories_fault ff dir = None ->
  permissions_fault ff dir = None ->
  write_fault ff file = None ->
  existsb (is_file (mFS w)) (ancestors dir ++ [dir]) = false ->
  IsNone (fst (SetRunParameters K ff unitName params w)) = true.
Proof.
  intros dir file Hc Hp Hw Hex.
  unfold SetRunParameters, CreateDir, create_directories. fold dir.
  rewrite Hc, Hex. cbn [fst snd Z.eqb negb mFS emit setFS].
  destruct (foldl_mkdir_last (umaskDirPerms ff) (ancestors dir) (mFS w) dir
              (existsb_app_last _ _ _ Hex)) as [p Hlast].
  unfold permissions. rewrite Hp, Hlast. cbn [fst snd Z.eqb negb IsNone].
  rewrite IsNone_ErrNone. cbn [negb mFS emit setFS].
  unfold WriteStringToFile. fold file. rewrite Hw. cbn [fst]. apply IsNone_ErrNone.
Qed.

(** C5. [StartInstance] fills the absent start interval, start burst and
    restart interval with the defaults. Unless the file system refuses
    (which it does not when no fault is injected and no regular file is in
    the way), it makes the directory <dropInsDir>/<unitName>.d with mode
    0755 and writes into it, with mode 0644, the file whose [Unit] section
    gives StartLimitIntervalSec and StartLimitBurst and whose [Service]
    section gives RestartSec, all from the fixed parameters, and only then
    starts the unit; the directory and the file are on disk when it returns.
    When the file system refuses, it returns Failed with that error and the
    unit is not started. [StopInstance] removes that directory. *)
Theorem StartInstance_writes_drop_in (K : RunnerConsts) (sd : SystemdConnItf)
  (ff : FsFaults) (instanceID runtimeDir : string) (params : RunParameters)
  (ticks : list Poll) (w : World) :
  let si := default (cDefaultStartInterval K) (mStartInterval params) in
  let burst := default (cDefaultStartBurst K) (mStartBurst params) in
  let ri := default (cDefaultRestartInterval K) (mRestartInterval params) in
  let unitName := CreateSystemdUnitName instanceID in
  let dir := cSystemdDropInsDir K +:+ "/" +:+ unitName +:+ ".d" in
  let file := dir +:+ "/" +:+ cParametersFileName K in
  let status := fst (StartInstance K sd ff instanceID runtimeDir params ticks w) in
  let w' := snd (StartInstance K sd ff instanceID runtimeDir params ticks w) in
  let setErr :=
    fst (SetRunParameters K ff unitName
           (mkRunParameters (Some si) (Some burst) (Some ri))
           (emit (EvLog LogDbg "Start service instance") w)) in
  FixRunParameters K params = mkRunParameters (Some si) (Some burst) (Some ri)
  /\ (create_directories_fault ff dir = None ->
      permissions_fault ff dir = None ->
      write_fault ff file = None ->
      existsb (is_file (mFS w)) (ancestors dir ++ [dir]) = false ->
      IsNone setErr = true)
  /\ (IsNone setErr = true ->
      (exists rest,
         mHistory w'
         = mHistory w
           ++ [EvLog LogDbg "Start service instance";
               EvCreateDirectories dir;
               EvPermissions dir perms_0755;
               EvWriteStringToFile file (dropInContent si burst ri) perms_0644;
               EvStartUnit unitName "replace" (startTime K si)] ++ rest)
      /\ mFS w' !! dir = Some (Dir perms_0755)
      /\ mFS w' !! file = Some (File perms_0644 (dropInContent si burst ri)))
  /\ (IsNone setErr = false ->
      status = mkRunStatus instanceID InstanceRunStateEnum.eFailed setErr
      /\ exists evs,
           mHistory w' = mHistory w ++ evs
           /\ forall name mode timeout, ~ In (EvStartUnit name mode timeout) evs)
  /\ (forall (sd' : SystemdConnItf) (ff' : FsFaults) (w0 : World),
        let w'' := snd (StopInstance K sd' ff' instanceID w0) in
        In (EvRemoveAll dir) (mHistory w'')
        /\ (remove_fault ff' dir = None ->
            forall path, under dir path = true -> mFS w'' !! path = None)).
Proof.
  intros si burst ri unitName dir file status w' setErr.
  split; [apply FixRunParameters_eq |]. split; [| split; [| split]].
  - intros Hc Hp Hw Hex. subst setErr.
    apply SetRunParameters_succeeds; assumption.
  - intros Hok. subst w' setErr. unfold StartInstance. rewrite FixRunParameters_eq.
    fold si burst ri unitName.
    destruct (SetRunParameters K ff unitName
                (mkRunParameters (Some si) (Some burst) (Some ri))
                (emit (EvLog LogDbg "Start service instance") w))
      as [err w1] eqn:Es.
    cbn [fst] in Hok. rewrite Hok. cbn [negb].
    destruct (SetRunParameters_ok _ _ _ _ _ _ _ _ _ Es Hok)
      as (Hdir & Hfile & Hh1 & _ & _).
    fold dir in Hdir, Hfile, Hh1. fold file in Hfile, Hh1.
    cbn [mStartInterval deref from_option id].
    destruct (IsNone (StartUnit sd unitName "replace" (startTime K si))); cbn [negb snd].
    + destruct (GetStartingUnitState_frame K sd unitName (startTime K si) ticks
                  (emit (EvStartUnit unitName "replace" (startTime K si)) w1))
        as (Hf & evs2 & Hh2).
      destruct (GetStartingUnitState K sd unitName (startTime K si) ticks
                  (emit (EvStartUnit unitName "replace" (startTime K si)) w1))
        as [[state err3] w3].
      cbn [snd mHistory mFS emit] in *.
      rewrite Hh2, Hh1. cbn [mHistory emit]. rewrite <- !app_assoc.
      split; [cbn; now eexists |]. rewrite Hf. split; assumption.
    + cbn [mHistory mFS emit]. rewrite Hh1. cbn [mHistory emit].
      rewrite <- !app_assoc. split; [cbn; now eexists |]. split; assumption.
  - intros Hbad. subst status w' setErr. unfold StartInstance.
    rewrite FixRunParameters_eq. fold si burst ri unitName.
    destruct (SetRunParameters_history K ff unitName
                (mkRunParameters (Some si) (Some burst) (Some ri))
                (emit (EvLog LogDbg "Start service instance") w))
      as (evs & Hh & Hfo & _).
    pose proof (fileOps_start_no_unit evs Hfo) as Hno.
    destruct (SetRunParameters K ff unitName
                (mkRunParameters (Some si) (Some burst) (Some ri))
                (emit (EvLog LogDbg "Start service instance") w))
      as [err w1] eqn:Es.
    cbn [fst snd] in Hbad, Hh |- *. rewrite Hbad. cbn [negb fst snd].
    split; [reflexivity |]. rewrite Hh. cbn [mHistory emit]. rewrite <- app_assoc.
    eexists. split; [reflexivity |].
    intros name mode timeout [H | H]; [discriminate | exact (Hno _ _ _ H)].
  - intros sd' ff' w0 w''.
    destruct (StopInstance_effect K sd' ff' instanceID w0)
      as (_ & _ & [notLoaded Hh] & Hfs).
    fold unitName in Hh, Hfs. fold w'' in Hh, Hfs.
    change (parametersDirOf K unitName) with dir in Hh, Hfs.
    split.
    + rewrite Hh. rewrite !in_app_iff. right. right. right. cbn. auto.
    + intros Hn path Hu. rewrite Hfs. now apply RemoveAll_removes.
Qed.

Lemma StartInstance_writes_drop_in_witness :
  let sd := Doubles.systemd UnitStateEnum.eActive None in
  let file := "/run/systemd/system/aos-service@service0.service.d/parameters.conf" in
  let w' := snd (StartInstance Doubles.K sd Doubles.noFaults "service0" ""
                   (mkRunParameters None None None) [] Doubles.started) in
  mFS w' !! file = Some (File perms_0644 (dropInContent (5 * cSeconds) 3 (1 * cSeconds)))
  /\ mFS (snd (StopInstance Doubles.K sd Doubles.noFaults "service0" w')) !! file = None.
Proof.
  intros sd file w'.
  pose proof (StartInstance_writes_drop_in Doubles.K sd Doubles.noFaults "service0" ""
                (mkRunParameters None None None) [] Doubles.started)
    as (_ & Hok & Hwritten & _ & Hstop).
  split.
  - exact (proj2 (proj2 (Hwritten (Hok eq_refl eq_refl eq_refl eq_refl)))).
  - refine (proj2 (Hstop sd Doubles.noFaults w') _ file _); reflexivity.
Defined.

Lemma StartInstance_split (K : RunnerConsts) (sd : SystemdConnItf) (ff : FsFaults)
  (instanceID runtimeDir : string) (params : RunParameters) (ticks : list Poll)
  (w : World) :
  StartInstance K sd ff instanceID runtimeDir params ticks w
  = match StartInstance_begin K sd ff instanceID runtimeDir params w with
    | inl early => early
    | inr w1 => StartInstance_finish K instanceID (RunMonitor ticks w1)
    end.
Proof.
  unfold StartInstance, StartInstance_begin, StartInstance_finish.
  destruct (SetRunParameters K ff _ _ _) as [err w1].
  destruct (negb (IsNone err)); [reflexivity |].
  destruct (negb (IsNone (StartUnit sd _ _ _))); [reflexivity |].
  unfold GetStartingUnitState.
  destruct (GetStartingUnitState_register sd _ _) as [[[state err3] w3] | w3];
    reflexivity.
Qed.

(** What is known when [StartInstance] has reached its wait. *)
Lemma StartInstance_begin_waiting (K : RunnerConsts) (sd : SystemdConnItf)
  (ff : FsFaults) (instanceID runtimeDir : string) (params : RunParameters)
  (w w1 : World) :
  StartInstance_begin K sd ff instanceID runtimeDir params w = inr w1 ->
  let si := default (cDefaultStartInterval K) (mStartInterval params) in
  let burst := default (cDefaultStartBurst K) (mStartBurst params) in
  let ri := default (cDefaultRestartInterval K) (mRestartInterval params) in
  let unitName := CreateSystemdUnitName instanceID in
  let dir := cSystemdDropInsDir K +:+ "/" +:+ unitName +:+ ".d" in
  let file := dir +:+ "/" +:+ cParametersFileName K in
  let answer := GetUnitStatus sd unitName in
  mFS w1 !! dir = Some (Dir perms_0755)
  /\ mFS w1 !! file = Some (File perms_0644 (dropInContent si burst ri))
  /\ mRunningUnits w1 = mRunningUnits w
  /\ mStartingUnits w1
     = <[unitName := mkStartingUnitData (mActiveState (fst answer))
                                        (mExitCode (fst answer))]> (mStartingUnits w)
  /\ IsNone (snd answer) = true
  /\ mHistory w1
     = mHistory w ++ [EvLog LogDbg "Start service instance";
                      EvCreateDirectories dir;
                      EvPermissions dir perms_0755;
                      EvWriteStringToFile file (dropInContent si burst ri) perms_0644;
                      EvStartUnit unitName "replace" (startTime K si);
                      EvGetUnitStatus unitName answer].
Proof.
  intros Hb si burst ri unitName dir file answer.
  unfold StartInstance_begin in Hb. rewrite FixRunParameters_eq in Hb.
  fold si burst ri unitName in Hb.
  destruct (SetRunParameters K ff unitName
              (mkRunParameters (Some si) (Some burst) (Some ri))
              (emit (EvLog LogDbg "Start service instance") w))
    as [err w0] eqn:Es.
  destruct (IsNone err) eqn:En; cbn [negb] in Hb; [| discriminate].
  destruct (SetRunParameters_ok _ _ _ _ _ _ _ _ _ Es En)
    as (Hdir & Hfile & Hh & Hsu & Hru).
  cbn [mStartInterval deref from_option id] in Hb.
  destruct (IsNone (StartUnit sd unitName "replace" (startTime K si)));
    cbn [negb] in Hb; [| discriminate].
  unfold GetStartingUnitState_register in Hb. fold answer in Hb.
  destruct answer as [initialStatus e] eqn:Ea.
  destruct (IsNone e) eqn:Ee; cbn [negb] in Hb; [| discriminate].
  injection Hb as <-. cbn.
  rewrite Hsu, Hru, Hh. cbn. rewrite <- !app_assoc. cbn.
  repeat split; assumption.
Qed.

(** A unit that no answer reports active during the wait is not recorded
    as active at its end. *)
Lemma updateUnit_keeps_not_active (unitName : string) (st : World * bool)
  (unit : UnitStatus) :
  (mName unit = unitName -> mActiveState unit <> UnitStateEnum.eActive) ->
  (exists entry, mStartingUnits (fst st) !! unitName = Some entry
                 /\ suRunState entry <> UnitStateEnum.eActive) ->
  exists entry, mStartingUnits (fst (updateUnit st unit)) !! unitName = Some entry
                /\ suRunState entry <> UnitStateEnum.eActive.
Proof.
  intros Hu (entry & He & Hn). destruct st as [w changed]. cbn [fst] in *.
  unfold updateUnit.
  set (w1 := match mStartingUnits w !! mName unit with
             | Some _ => _
             | None => w
             end).
  assert (H1 : exists entry', mStartingUnits w1 !! unitName = Some entry'
                              /\ suRunState entry' <> UnitStateEnum.eActive).
  { subst w1. destruct (mStartingUnits w !! mName unit) eqn:E; [| eauto].
    destruct (decide (mName unit = unitName)) as [Heq | Hne].
    - exists (mkStartingUnitData (mActiveState unit) (mExitCode unit)).
      destruct (decide (mActiveState unit = UnitStateEnum.eFailed)); cbn;
        rewrite Heq, lookup_insert_eq; auto.
    - exists entry.
      destruct (decide (mActiveState unit = UnitStateEnum.eFailed)); cbn;
        rewrite lookup_insert_ne by exact Hne; auto. }
  clearbody w1.
  destruct (mRunningUnits w1 !! mName unit); [| exact H1].
  destruct (negb _ || negb _); exact H1.
Qed.

Lemma RunMonitor_keeps_not_active (unitName : string) (ticks : list Poll) (w : World) :
  (forall p unit, In p ticks -> In unit (fst (pListUnits p)) ->
                  mName unit = unitName ->
                  mActiveState unit <> UnitStateEnum.eActive) ->
  (exists entry, mStartingUnits w !! unitName = Some entry
                 /\ suRunState entry <> UnitStateEnum.eActive) ->
  exists entry, mStartingUnits (RunMonitor ticks w) !! unitName = Some entry
                /\ suRunState entry <> UnitStateEnum.eActive.
Proof.
  intros Hticks Hw. unfold RunMonitor.
  destruct (mMonitoringThread w); try exact Hw. clear - Hticks Hw.
  revert w Hw. induction ticks as [|p ticks IH]; intros w Hw; cbn [MonitorUnits];
    [exact Hw |].
  assert (Hi : exists entry,
             mStartingUnits (snd (MonitorIteration p w)) !! unitName = Some entry
             /\ suRunState entry <> UnitStateEnum.eActive).
  { unfold MonitorIteration. destruct (mClosed w); [exact Hw |].
    set (w0 := if pStopRequested p then setClosed true w else w).
    assert (H0 : exists entry, mStartingUnits w0 !! unitName = Some entry
                               /\ suRunState entry <> UnitStateEnum.eActive)
      by (subst w0; destruct (pStopRequested p); exact Hw).
    clearbody w0. destruct (mClosed w0); [exact H0 |].
    assert (Hp : forall unit, In unit (fst (pListUnits p)) ->
                              mName unit = unitName ->
                              mActiveState unit <> UnitStateEnum.eActive)
      by (intros unit; apply Hticks; now left).
    destruct (pListUnits p) as [units err]. cbn [fst] in Hp.
    destruct (negb (IsNone err)); [exact H0 |].
    assert (Hf : forall us st,
               (forall unit, In unit us -> In unit units) ->
               (exists entry, mStartingUnits (fst st) !! unitName = Some entry
                              /\ suRunState entry <> UnitStateEnum.eActive) ->
               exists entry,
                 mStartingUnits (fst (foldl updateUnit st us)) !! unitName = Some entry
                 /\ suRunState entry <> UnitStateEnum.eActive).
    { induction us as [|u us IHus]; intros st Hsub Hst; cbn [foldl]; [exact Hst |].
      apply IHus; [intros unit Hin; apply Hsub; now right |].
      apply updateUnit_keeps_not_active; [| exact Hst].
      apply Hp. apply Hsub. now left. }
    specialize (Hf units (emit (EvListUnits (units, err)) w0, false) (fun _ H => H) H0).
    destruct (foldl updateUnit (emit (EvListUnits (units, err)) w0, false) units)
      as [w2 changed].
    cbn [fst] in Hf.
    destruct (changed || negb (size (mRunningUnits w2) =? length (mRunningInstances w2))%nat);
      [| exact Hf].
    unfold GetRunningInstances.
    destruct (transformUnits (map_to_list (mRunningUnits w2))) as [l [e|]];
      exact Hf. }
  destruct (MonitorIteration p w) as [[|] w1]; cbn [snd] in Hi.
  - apply IH; [| exact Hi]. intros q unit Hq. apply Hticks. now right.
  - exact Hi.
Qed.

(** The condition of the next theorem in terms of what the supervisor
    answers: neither [GetUnitStatus] nor a [ListUnits] during the wait
    reports the unit active. *)
Lemma wait_ends_not_active (K : RunnerConsts) (sd : SystemdConnItf) (ff : FsFaults)
  (instanceID runtimeDir : string) (params : RunParameters) (ticks : list Poll)
  (w w1 : World) :
  let unitName := CreateSystemdUnitName instanceID in
  StartInstance_begin K sd ff instanceID runtimeDir params w = inr w1 ->
  mActiveState (fst (GetUnitStatus sd unitName)) <> UnitStateEnum.eActive ->
  (forall p unit, In p ticks -> In unit (fst (pListUnits p)) ->
                  mName unit = unitName ->
                  mActiveState unit <> UnitStateEnum.eActive) ->
  suRunState (startingAt K unitName (RunMonitor ticks w1)) <> UnitStateEnum.eActive.
Proof.
  intros unitName Hb Hinit Hticks.
  destruct (StartInstance_begin_waiting K sd ff instanceID runtimeDir params w w1 Hb)
    as (_ & _ & _ & Hs & _).
  fold unitName in Hs.
  destruct (RunMonitor_keeps_not_active unitName ticks w1 Hticks) as (entry & He & Hn).
  - rewrite Hs, lookup_insert_eq. eauto.
  - unfold startingAt. rewrite He. exact Hn.
Qed.



End StartFacts.

(** ** Runner: an active status has been observed *)

Section ObservationFacts.



Lemma quiet_nil : quiet [].
Proof. intros instances []. Qed.


Lemma emissionsObserved_nil : emissionsObserved [].
Proof.
  intros pre instances post H. destruct pre; discriminate.
Qed.



Lemma justified_refl (w : World) : justified w w.
Proof.
  split; [exists []; split; [now rewrite app_nil_r | apply quiet_nil] |].
  split; intros unitName data H; eauto.
Qed.



Lemma justified_named (w w' : World) :
  unitsAreNames w -> justified w w' -> unitsAreNames w'.
Proof.
  intros Hn (_ & Hr & _) unitName data H.
  destruct (proj1 (Hr unitName data H)) as [[d Hd] | Hk]; [exact (Hn unitName d Hd) | exact Hk].
Qed.

(** A step that only adds quiet events and removes map entries. *)
Lemma justified_shrink (w w' : World) (evs : list Event) :
  mHistory w' = mHistory w ++ evs ->
  quiet evs ->
  (forall unitName data,
     mRunningUnits w' !! unitName = Some data ->
     mRunningUnits w !! unitName = Some data) ->
  (forall unitName data,
     mStartingUnits w' !! unitName = Some data ->
     mStartingUnits w !! unitName = Some data) ->
  justified w w'.
Proof.
  intros Hh Hq Hr Hs. split; [eauto |]. split.
  - intros unitName data H. specialize (Hr _ _ H). split; [left | left]; eauto.
  - intros unitName data H. left. eauto.
Qed.

End ObservationFacts.

Section RunnerSteps.

Ltac quiet_list :=
  let i := fresh in let H := fresh in
  intros i H; cbn in H;
  repeat (destruct H as [H | H]; [discriminate |]); exact H.

Lemma Start_justified (conn : Result unit) (w : World) (err : Error) (w' : World) :
  Start conn w = Some (err, w') -> justified w w'.
Proof.
  unfold Start. destruct conn as [[]|e].
  - destruct (joinable _); [discriminate |]. intros [= <- <-].
    apply (justified_shrink _ _ [EvLog LogDbg "Start runner"]); auto. quiet_list.
  - intros [= <- <-].
    apply (justified_shrink _ _ [EvLog LogDbg "Start runner"]); auto. quiet_list.
Qed.

Lemma Stop_justified (w : World) : justified w (snd (Stop w)).
Proof.
  unfold Stop. destruct (mClosed w); [apply justified_refl |].
  cbn [snd]. destruct (joinable _);
    (apply (justified_shrink _ _ [EvLog LogDbg "Stop runner"]); auto; quiet_list).
Qed.

Lemma StopInstance_justified (K : RunnerConsts) (sd : SystemdConnItf) (ff : FsFaults)
  (instanceID : string) (w : World) :
  justified w (snd (StopInstance K sd ff instanceID w)).
Proof.
  destruct (StopInstance_effect K sd ff instanceID w)
    as (Hr & Hs & _).
  assert (Hq : exists evs,
             mHistory (snd (StopInstance K sd ff instanceID w)) = mHistory w ++ evs
             /\ quiet evs).
  { unfold StopInstance.
    destruct (negb (IsNone (StopUnit sd _ _ _)));
      [destruct (Is (StopUnit sd _ _ _) eNotFound) |];
      cbn beta iota zeta; rewrite RemoveRunParameters_eq;
      cbn [snd mHistory emit setFS setRunningUnits];
      rewrite <- !app_assoc; eexists; (split; [reflexivity | quiet_list]). }
  destruct Hq as (evs & Hh & Hq).
  apply (justified_shrink _ _ evs Hh Hq).
  - intros unitName data. rewrite Hr. intros H.
    apply lookup_delete_Some in H. tauto.
  - intros unitName data. now rewrite Hs.
Qed.

Lemma reportsActive_GetUnitStatus (unitName : string) (status : UnitStatus) (err : Error) :
  IsNone err = true ->
  mActiveState status = UnitStateEnum.eActive ->
  reportsActive unitName (EvGetUnitStatus unitName (status, err)) = true.
Proof.
  intros He Ha. cbn. rewrite He, bool_decide_eq_true_2 by reflexivity.
  now rewrite bool_decide_eq_true_2 by exact Ha.
Qed.

Lemma observedActive_In (unitName : string) (h : list Event) (ev : Event) :
  In ev h -> reportsActive unitName ev = true -> observedActive unitName h = true.
Proof.
  intros Hin Hr. unfold observedActive. apply existsb_exists. eauto.
Qed.

Lemma StartInstance_begin_justified (K : RunnerConsts) (sd : SystemdConnItf)
  (ff : FsFaults) (instanceID runtimeDir : string) (params : RunParameters) (w : World) :
  justified w
    match StartInstance_begin K sd ff instanceID runtimeDir params w with
    | inl (_, w') => w'
    | inr w' => w'
    end.
Proof.
  destruct (StartInstance_begin K sd ff instanceID runtimeDir params w)
    as [[status w'] | w1] eqn:Hb.
  - (* a return before the wait: the maps are as they were *)
    unfold StartInstance_begin in Hb.
    destruct (SetRunParameters_history K ff (CreateSystemdUnitName instanceID)
                (FixRunParameters K params)
                (emit (EvLog LogDbg "Start service instance") w))
      as (evs & Hh & Hfo & Hs & Hr).
    destruct (SetRunParameters K ff _ _ _) as [err w0].
    cbn [snd mHistory mStartingUnits mRunningUnits emit] in Hh, Hs, Hr.
    pose proof (fileOps_quiet evs Hfo) as Hq.
    destruct (negb (IsNone err)).
    + injection Hb as _ <-.
      apply (justified_shrink _ _ (EvLog LogDbg "Start service instance" :: evs)).
      * rewrite Hh. now rewrite <- app_assoc.
      * intros i [H | H]; [discriminate | exact (Hq _ H)].
      * intros ? ?. now rewrite Hr.
      * intros ? ?. now rewrite Hs.
    + destruct (negb (IsNone (StartUnit sd _ _ _))).
      * injection Hb as _ <-.
        apply (justified_shrink _ _
                 (EvLog LogDbg "Start service instance" :: evs
                  ++ [EvStartUnit (CreateSystemdUnitName instanceID) "replace"
                        (startTime K (deref (mStartInterval (FixRunParameters K params))))])).
        -- cbn. rewrite Hh. rewrite <- !app_assoc. reflexivity.
        -- intros i [H | H]; [discriminate |].
           apply in_app_iff in H as [H | [H | []]]; [exact (Hq _ H) | discriminate].
        -- intros ? ?. cbn. now rewrite Hr.
        -- intros ? ?. cbn. now rewrite Hs.
      * unfold GetStartingUnitState_register in Hb.
        destruct (GetUnitStatus sd _) as [initialStatus e].
        destruct (negb (IsNone e)); [| discriminate].
        injection Hb as _ <-.
        apply (justified_shrink _ _
                 (EvLog LogDbg "Start service instance" :: evs
                  ++ [EvStartUnit (CreateSystemdUnitName instanceID) "replace"
                        (startTime K (deref (mStartInterval (FixRunParameters K params))));
                      EvGetUnitStatus (CreateSystemdUnitName instanceID) (initialStatus, e);
                      EvLog LogDbg "Start instance"])).
        -- cbn. rewrite Hh. rewrite <- !app_assoc. reflexivity.
        -- intros i [H | H]; [discriminate |].
           apply in_app_iff in H as [H | H]; [exact (Hq _ H) | revert i H; quiet_list].
        -- intros ? ?. cbn. now rewrite Hr.
        -- intros ? ?. cbn. now rewrite Hs.
  - destruct (StartInstance_begin_waiting K sd ff instanceID runtimeDir params w w1 Hb)
      as (_ & _ & Hr & Hs & He & Hh).
    split; [| split].
    + eexists. split; [exact Hh | quiet_list].
    + intros unitName data H. rewrite Hr in H. split; left; eauto.
    + intros unitName data H. rewrite Hs in H.
      apply lookup_insert_Some in H as [[<- <-] | [_ H]]; [right | now left].
      cbn [suRunState]. intros Hact. rewrite Hh.
      eapply observedActive_In; [| apply reportsActive_GetUnitStatus; eassumption].
      rewrite in_app_iff. right. cbn.
      destruct (GetUnitStatus sd _). cbn. tauto.
Qed.


(** What the second half of [StartInstance] does to the running units,
    whatever entry it reads. *)
Lemma StartInstance_finish_named (K : RunnerConsts) (instanceID : string) (w : World) :
  unitsAreNames w -> unitsAreNames (snd (StartInstance_finish K instanceID w)).
Proof.
  intros Hn. unfold StartInstance_finish, GetStartingUnitState_wake.
  destruct (negb (bool_decide _)); cbn [snd]; intros unitName data H; cbn in H.
  - exact (Hn _ _ H).
  - apply lookup_insert_Some in H as [[<- <-] | [_ H]]; [eauto | exact (Hn _ _ H)].
Qed.


End RunnerSteps.

Section MonitorInvariant.







(** In a runner whose running units are named after instances
    [GetRunningInstances] does not throw. *)
Lemma GetRunningInstances_returns (w : World) :
  unitsAreNames w -> exists l, fst (GetRunningInstances w) = Ok l.
Proof.
  intros Hn. unfold GetRunningInstances.
  assert (H : forall units,
             (forall name data, In (name, data) units ->
                                exists instanceID, name = CreateSystemdUnitName instanceID) ->
             snd (transformUnits units) = None).
  { induction units as [|[name data] units IH]; intros Hu; [reflexivity |].
    cbn [transformUnits].
    destruct (Hu name data (or_introl eq_refl)) as [instanceID ->].
    rewrite CreateSystemdUnitName_eq, CreateInstanceID_of_name.
    specialize (IH (fun n d Hin => Hu n d (or_intror Hin))).
    destruct (transformUnits units). cbn in *. exact IH. }
  specialize (H (map_to_list (mRunningUnits w))).
  destruct (transformUnits (map_to_list (mRunningUnits w))) as [l e].
  cbn in H. rewrite H.
  - now exists l.
  - intros name data Hin. apply list_elem_of_In, elem_of_map_to_list in Hin.
    exact (Hn name data Hin).
Qed.




End MonitorInvariant.

Section RunnerSystem.

Variable K : RunnerConsts.

Lemma initWorld_inv (closed : bool) (fs : gmap string Node) :
  RunnerInv (initWorld closed fs).
Proof.
  split; [| split; [split |]].
  - intros unitName data H. cbn in H. now rewrite lookup_empty in H.
  - intros unitName data H. cbn in H. now rewrite lookup_empty in H.
  - intros unitName data H. cbn in H. now rewrite lookup_empty in H.
  - apply emissionsObserved_nil.
Qed.





(** The names of the running units, whatever the interleaving. *)
Lemma perform_named (a : Action) (w : World) (waiting : list string)
  (w' : World) (waiting' : list string) :
  unitsAreNames w -> perform K a w waiting = Some (w', waiting') -> unitsAreNames w'.
Proof.
  intros Hn. destruct a as [conn | | sd ff instanceID runtimeDir params
                            | instanceID | sd ff instanceID | polls];
    cbn [perform].
  - destruct (Start conn w) as [[err w1]|] eqn:Es; [| discriminate].
    intros [= <- _]. eapply justified_named; [exact Hn |].
    eapply Start_justified; eassumption.
  - intros [= <- _]. eapply justified_named; [exact Hn | apply Stop_justified].
  - pose proof (StartInstance_begin_justified K sd ff instanceID runtimeDir params w)
      as Hj.
    destruct (StartInstance_begin K sd ff instanceID runtimeDir params w)
      as [[status w1] | w1]; intros [= <- _];
      (eapply justified_named; [exact Hn | exact Hj]).
  - destruct (bool_decide _); [| discriminate].
    intros [= <- _]. now apply StartInstance_finish_named.
  - intros [= <- _]. eapply justified_named; [exact Hn |].
    apply StopInstance_justified.
  - intros [= <- _]. destruct (RunMonitor_monitored polls w) as (_ & Hdom & _).
    intros unitName data H.
    assert (Hin : unitName ∈ dom (mRunningUnits w))
      by (rewrite <- Hdom; apply elem_of_dom; eauto).
    apply elem_of_dom in Hin as [d Hd]. exact (Hn _ _ Hd).
Qed.

Lemma runFrom_named (actions : list Action) (w : World) (waiting : list string)
  (w' : World) (waiting' : list string) :
  unitsAreNames w -> runFrom K actions w waiting = Some (w', waiting') ->
  unitsAreNames w'.
Proof.
  revert w waiting. induction actions as [|a actions IH]; intros w waiting Hn;
    cbn [runFrom].
  - now intros [= <- _].
  - destruct (perform K a w waiting) as [[w1 waiting1]|] eqn:Ep; [| discriminate].
    apply IH. eapply perform_named; eassumption.
Qed.

Lemma run_named (actions : list Action) (w w' : World) :
  unitsAreNames w -> run K actions w = Some w' -> unitsAreNames w'.
Proof.
  intros Hn. unfold run.
  destruct (runFrom K actions w []) as [[w1 waiting1]|] eqn:Er; [| discriminate].
  cbn. intros [= <-]. eapply runFrom_named; eassumption.
Qed.









End RunnerSystem.



(** ** Configuration: errors of ParseConfig *)

Section ConfigErrors.

Import Config.

Context {Obj : Type} (J : JsonItf Obj) (L : Lib).

Lemma honest_ret {S A} (a : A) : honest (mret a : M S A).
Proof. intros s e s' H. discriminate. Qed.

Lemma honest_bind {S A B} (m : M S A) (k : A -> M S B) :
  honest m -> (forall a, honest (k a)) -> honest (m ≫= k).
Proof.
  intros Hm Hk s e s' H. unfold mbind, M_bind in H.
  destruct (m s) as [[a|e1] s1] eqn:E.
  - exact (Hk a _ _ _ H).
  - injection H as <- <-. exact (Hm _ _ _ E).
Qed.

Lemma honest_poco {S A} (o : Outcome A) : honest (poco o : M S A).
Proof.
  intros s e s' H. unfold poco, lift in H. destruct o; [discriminate |].
  injection H as <- _. reflexivity.
Qed.

Lemma honest_modify {S} (f : S -> S) : honest (modify f).
Proof. intros s e s' H. discriminate. Qed.

Lemma honest_get {S} : honest (get : M S S).
Proof. intros s e s' H. discriminate. Qed.

Lemma honest_check {S} (err : Error) (msg : string) :
  honest (lift (AOS_ERROR_CHECK_AND_THROW err msg) : M S unit).
Proof.
  intros s e s' H. unfold lift, AOS_ERROR_CHECK_AND_THROW in H.
  destruct (IsNone err) eqn:E; [discriminate |].
  injection H as <- _. exact E.
Qed.

Lemma honest_zoom {S T A} (proj : S -> T) (upd : T -> S -> S) (m : M T A) :
  honest m -> honest (zoom proj upd m).
Proof.
  intros Hm s e s' H. unfold zoom in H.
  destruct (m (proj s)) as [r t] eqn:E. injection H as -> _.
  exact (Hm _ _ _ E).
Qed.

Lemma honest_forEach {S A} (body : A -> M S unit) (l : list A) :
  (forall x, honest (body x)) -> honest (forEach body l).
Proof.
  intros Hb. induction l as [|x l IH]; cbn [forEach].
  - apply honest_ret.
  - apply honest_bind; [apply Hb | intros _; exact IH].
Qed.

Lemma honest_parseDurationInto {S} (text : string) (assign : Duration -> S -> S)
  (msg : string) : honest (parseDurationInto L text assign msg).
Proof.
  unfold parseDurationInto. destruct (ParseDuration L text) as [d err].
  apply honest_bind; [apply honest_modify | intros _; apply honest_check].
Qed.

Lemma honest_parseHosts {S} (objects : list Obj) :
  honest (lift (parseHosts J objects) : M S (list Host)).
Proof.
  intros s e s' H. unfold lift in H. injection H as H _.
  revert e H. induction objects as [|o objects IH]; intros e H; cbn in H;
    [discriminate |].
  unfold ParseHostConfig in H.
  destruct (GetString J o "ip"); [| now injection H as <-].
  destruct (GetString J o "hostname"); [| now injection H as <-].
  destruct (parseHosts J objects); [discriminate |].
  injection H as <-. now apply IH.
Qed.

Ltac honest_step :=
  first
    [ apply honest_ret
    | apply honest_poco
    | apply honest_modify
    | apply honest_get
    | apply honest_check
    | apply honest_parseDurationInto
    | apply honest_parseHosts
    | apply honest_zoom
    | apply honest_forEach; intros
    | apply honest_bind; [| intros]
    | match goal with
      | |- honest (if ?c then _ else _) => destruct c
      | |- honest (match ?x with Some _ => _ | None => _ end) => destruct x
      | |- honest (match ?x with (_, _) => _ end) => destruct x
      | |- honest (let (_, _) := ?x in _) => destruct x
      end ].

Ltac honest_auto := repeat honest_step.

Lemma honest_ParseMonitoringConfig (object : Obj) :
  honest (ParseMonitoringConfig J L object).
Proof. unfold ParseMonitoringConfig. honest_auto. Qed.

Lemma honest_ParseLoggingConfig (object : Obj) :
  honest (ParseLoggingConfig J L object).
Proof. unfold ParseLoggingConfig. honest_auto. Qed.

Lemma honest_ParseJournalAlertsConfig (object : Obj) :
  honest (ParseJournalAlertsConfig J object).
Proof. unfold ParseJournalAlertsConfig. honest_auto. Qed.

Lemma honest_ParseMigrationConfig (object : Obj) (workingDir : string) :
  honest (ParseMigrationConfig J object workingDir).
Proof. unfold ParseMigrationConfig. honest_auto. Qed.

Lemma honest_ParseIAMClientConfig (object : Obj) :
  honest (ParseIAMClientConfig J object).
Proof. unfold ParseIAMClientConfig. honest_auto. Qed.

Lemma honest_ParseServiceManagerConfig (object : Obj) (workingDir : string) :
  honest (ParseServiceManagerConfig J L object workingDir).
Proof.
  unfold ParseServiceManagerConfig, parseRemoveOutdatedPeriod. honest_auto.
Qed.

Lemma honest_ParseLayerManagerConfig (object : Obj) (workingDir : string) :
  honest (ParseLayerManagerConfig J L object workingDir).
Proof.
  unfold ParseLayerManagerConfig, parseRemoveOutdatedPeriod. honest_auto.
Qed.

Lemma honest_ParseLauncherConfig (object : Obj) (workingDir : string) :
  honest (ParseLauncherConfig J L object workingDir).
Proof.
  unfold ParseLauncherConfig, parseRemoveOutdatedPeriod. honest_auto.
Qed.

Lemma honest_ParseSMClientConfig (object : Obj) :
  honest (ParseSMClientConfig J L object).
Proof. unfold ParseSMClientConfig. honest_auto. Qed.

Lemma honest_tryBlock (text : string) : honest (tryBlock J L text).
Proof.
  unfold tryBlock, readObject, parseSections, section, assign, subObject.
  repeat first
    [ apply honest_ParseMonitoringConfig
    | apply honest_ParseLoggingConfig
    | apply honest_ParseJournalAlertsConfig
    | apply honest_ParseMigrationConfig
    | apply honest_ParseIAMClientConfig
    | apply honest_ParseServiceManagerConfig
    | apply honest_ParseLayerManagerConfig
    | apply honest_ParseLauncherConfig
    | apply honest_ParseSMClientConfig
    | honest_step ].
Qed.

Lemma bind_returns {S A B} (m : M S A) (k : A -> M S B) (s : S) (b : B) (s' : S) :
  (m ≫= k) s = (Ok b, s') ->
  exists a s1, m s = (Ok a, s1) /\ k a s1 = (Ok b, s').
Proof.
  unfold mbind, M_bind. destruct (m s) as [[a|e] s1]; [eauto | discriminate].
Qed.

Lemma poco_returns {S A} (o : Outcome A) (s : S) (a : A) (s' : S) :
  poco o s = (Ok a, s') -> o = Value a /\ s' = s.
Proof.
  unfold poco, lift. destruct o; [| discriminate]. now intros [= <- <-].
Qed.

Lemma modify_returns {S} (f : S -> S) (s : S) (u : unit) (s' : S) :
  modify f s = (Ok u, s') -> s' = f s.
Proof. now intros [= <-]. Qed.

Lemma get_returns {S} (s a s' : S) : get s = (Ok a, s') -> a = s /\ s' = s.
Proof. now intros [= <- <-]. Qed.

Lemma zoom_returns {S T} (proj : S -> T) (upd : T -> S -> S) (m : M T unit)
  (s : S) (u : unit) (s' : S) :
  zoom proj upd m s = (Ok u, s') ->
  exists t, returnsInto m (proj s) t /\ s' = upd t s.
Proof.
  unfold zoom, returnsInto. destruct (m (proj s)) as [[[]|e] t]; [| discriminate].
  intros [= <-]. eauto.
Qed.

Lemma subObject_returns (object : Obj) (key : string) (s : PState) (o : Obj)
  (s' : PState) :
  subObject J object key s = (Ok o, s') ->
  s' = s /\ forall s0 : PState, subObject J object key s0 = (Ok o, s0).
Proof.
  unfold subObject. destruct (Has J object key).
  - intros H. apply poco_returns in H as [H ->]. split; [reflexivity |].
    intros s0. unfold poco, lift. now rewrite H.
  - intros [= <- <-]. split; [reflexivity |]. reflexivity.
Qed.

Ltac invert_returns :=
  repeat match goal with
    | H : (_ ≫= _) _ = (Ok _, _) |- _ =>
        apply bind_returns in H as (? & ? & ? & H)
    | H : poco _ _ = (Ok _, _) |- _ => apply poco_returns in H as [H ->]
    | H : assign _ _ = (Ok _, _) |- _ => apply modify_returns in H as ->
    | H : modify _ _ = (Ok _, _) |- _ => apply modify_returns in H as ->
    | H : get _ = (Ok _, _) |- _ => apply get_returns in H as [-> ->]
    | H : section _ _ _ _ = (Ok _, _) |- _ =>
        apply zoom_returns in H as (? & H & ->)
    | H : zoom _ _ _ _ = (Ok _, _) |- _ =>
        apply zoom_returns in H as (? & H & ->)
    | H : subObject _ _ _ _ = (Ok _, _) |- _ =>
        apply subObject_returns in H as [-> H]
    end.

(** When the rest of the try block returns, every section parser has. *)
Lemma parseSections_returns (object : Obj) (s s' : PState) :
  parseSections J L object s = (Ok tt, s') ->
  allSectionsParsed J L object s s'.
Proof.
  intros H. unfold parseSections in H. invert_returns.
  repeat match goal with
    | x : (JournalAlertsConfig * list Event)%type |- _ => destruct x
    | u : unit |- _ => destruct u
    end.
  unfold returnsInto in *. cbn in *.
  match goal with
  | Hl : forall s0, subObject J object "logging" s0 = (Ok ?l, s0),
    Hj : forall s0, subObject J object "journalAlerts" s0 = (Ok ?j, s0),
    Hm : forall s0, subObject J object "migration" s0 = (Ok ?m, s0) |- _ =>
      exists l, j, m
  end.
  unfold returnsInto. cbn. repeat split; auto.
Qed.

(** C10. [ParseConfig] returns NotFound when the file cannot be opened;
    an exception thrown while the text is parsed or a section is read is
    caught and returned as the error it stands for, which is never none; and
    success is returned only when the text has been parsed and every section
    parser has returned. *)
Theorem ParseConfig_errors :
  (forall s, ParseConfig J L None s = (ErrorOf eNotFound "", s))
  /\ (forall text s e s',
        tryBlock J L text s = (Throw e, s') ->
        ParseConfig J L (Some text) s = (ToAosError e, s')
        /\ IsNone (ToAosError e) = false)
  /\ (forall file s err s',
        ParseConfig J L file s = (err, s') ->
        IsNone err = true ->
        exists text object,
          file = Some text
          /\ parse J text = Value object
          /\ allSectionsParsed J L object s s').
Proof.
  split; [reflexivity |]. split.
  - intros text s e s' H. split.
    + unfold ParseConfig. now rewrite H.
    + exact (honest_tryBlock text s e s' H).
  - intros [text|] s err s' H Hn.
    + unfold ParseConfig in H.
      destruct (tryBlock J L text s) as [[[]|e] s1] eqn:Et.
      * injection H as <- <-. exists text.
        unfold tryBlock, readObject in Et.
        apply bind_returns in Et as (object & s0 & Hp & Hs).
        apply poco_returns in Hp as [Hp ->].
        exists object. split; [reflexivity |]. split; [exact Hp |].
        now apply parseSections_returns.
      * injection H as <- <-.
        rewrite (honest_tryBlock text s e s1 Et) in Hn. discriminate.
    + injection H as <- <-. discriminate.
Qed.

End ConfigErrors.

Lemma ParseConfig_errors_witness :
  let J := JsonDouble.double JsonDouble.files in
  let s := Config.mkPState Config.emptyConfig [] in
  IsNone (fst (Config.ParseConfig J JsonDouble.lib (Some "{") s)) = false
  /\ exists text object,
       Some "aos_servicemanager.cfg" = Some text
       /\ Config.parse J text = Config.Value object
       /\ Config.allSectionsParsed J JsonDouble.lib object s
            (snd (Config.ParseConfig J JsonDouble.lib (Some "aos_servicemanager.cfg") s)).
Proof.
  intros J s. split.
  - destruct (proj1 (proj2 (ParseConfig_errors J JsonDouble.lib)) "{" s
                (PocoException "JSON syntax error") s eq_refl) as [Hr Hn].
    rewrite Hr. exact Hn.
  - apply (proj2 (proj2 (ParseConfig_errors J JsonDouble.lib))
             (Some "aos_servicemanager.cfg") s
             (fst (Config.ParseConfig J JsonDouble.lib (Some "aos_servicemanager.cfg") s))
             (snd (Config.ParseConfig J JsonDouble.lib (Some "aos_servicemanager.cfg") s))).
    + now destruct (Config.ParseConfig J JsonDouble.lib (Some "aos_servicemanager.cfg") s).
    + vm_compute. reflexivity.
Defined.

(** ** Unit names: from the unit name back to the instance *)

(** X1. [CreateInstanceID] is the exact inverse of [CreateSystemdUnitName]:
    whenever it returns an instance ID, the unit name made from that ID is
    the name it was given; it fails in one way only, with the
    InvalidArgument exception (the call of substr never throws); and two
    instances never share a unit name. *)
Theorem CreateInstanceID_inverse :
  (forall unitname instanceID,
     CreateInstanceID unitname = Ok instanceID ->
     CreateSystemdUnitName instanceID = unitname)
  /\ (forall unitname e,
        CreateInstanceID unitname = Throw e ->
        e = AosException "not a valid Aos service name" (ErrorOf eInvalidArgument ""))
  /\ (forall a b, CreateSystemdUnitName a = CreateSystemdUnitName b -> a = b).
Proof.
  assert (Hshape : forall unitname,
             Poco.startsWith unitname "aos-service@"
             && Poco.endsWith unitname ".service" = true ->
             exists mid, unitname = "aos-service@" +:+ mid +:+ ".service").
  { intros unitname E. apply andb_true_iff in E as [Hs He].
    now apply valid_name_shape. }
  split; [| split].
  - intros unitname instanceID H.
    destruct (Poco.startsWith unitname "aos-service@"
              && Poco.endsWith unitname ".service") eqn:E.
    + destruct (Hshape unitname E) as [mid ->].
      rewrite CreateInstanceID_of_name in H. injection H as <-.
      apply CreateSystemdUnitName_eq.
    + unfold CreateInstanceID in H. rewrite E in H. discriminate.
  - intros unitname e H.
    destruct (Poco.startsWith unitname "aos-service@"
              && Poco.endsWith unitname ".service") eqn:E.
    + destruct (Hshape unitname E) as [mid ->].
      rewrite CreateInstanceID_of_name in H. discriminate.
    + unfold CreateInstanceID in H. rewrite E in H.
      unfold AOS_ERROR_THROW, AOS_ERROR_WRAP in H. now injection H as <-.
  - intros a b H. apply (f_equal CreateInstanceID) in H.
    rewrite !CreateSystemdUnitName_eq, !CreateInstanceID_of_name in H.
    now injection H.
Qed.

(** ** Runner: what one monitor iteration does *)

Section MonitorSteps.

Lemma differs_ext (w w' : World) (unit : UnitStatus) :
  mRunningUnits w' = mRunningUnits w -> differs w' unit = differs w unit.
Proof. intros H. unfold differs. now rewrite H. Qed.

(** The body of the loop over the listed units: it changes the running
    units only for a unit that differs, and sets the flag then. *)
Lemma updateUnit_effect (w : World) (c : bool) (unit : UnitStatus) :
  mRunningInstances (fst (updateUnit (w, c) unit)) = mRunningInstances w
  /\ (exists evs,
        mHistory (fst (updateUnit (w, c) unit)) = mHistory w ++ evs
        /\ Forall (fun ev => isMonitorEvent ev = true /\ isUpdate ev = false) evs)
  /\ snd (updateUnit (w, c) unit) = c || differs w unit
  /\ (differs w unit = false ->
      mRunningUnits (fst (updateUnit (w, c) unit)) = mRunningUnits w).
Proof.
  unfold updateUnit, differs.
  set (w1 := match mStartingUnits w !! mName unit with
             | Some _ => _
             | None => w
             end).
  assert (H1 : mRunningInstances w1 = mRunningInstances w
               /\ mRunningUnits w1 = mRunningUnits w
               /\ exists evs, mHistory w1 = mHistory w ++ evs
                              /\ Forall (fun ev => isMonitorEvent ev = true
                                                   /\ isUpdate ev = false) evs).
  { subst w1. destruct (mStartingUnits w !! mName unit).
    - destruct (decide (mActiveState unit = UnitStateEnum.eFailed)); cbn.
      + split; [reflexivity |]. split; [reflexivity |].
        eexists [_]. split; [reflexivity |]. repeat constructor.
      + split; [reflexivity |]. split; [reflexivity |].
        exists []. split; [now rewrite app_nil_r | constructor].
    - split; [reflexivity |]. split; [reflexivity |].
      exists []. split; [now rewrite app_nil_r | constructor]. }
  clearbody w1. destruct H1 as (Hi & Hr & Hh). rewrite Hr.
  destruct (mRunningUnits w !! mName unit) as [runningState|].
  - destruct (negb _ || negb _); cbn [fst snd].
    + split; [exact Hi |]. split; [exact Hh |].
      split; [now rewrite orb_true_r | discriminate].
    + split; [exact Hi |]. split; [exact Hh |].
      split; [now rewrite orb_false_r | auto].
  - cbn [fst snd]. split; [exact Hi |]. split; [exact Hh |].
    split; [now rewrite orb_false_r | auto].
Qed.

Lemma foldl_updateUnit_effect (units : list UnitStatus) (w : World) (c : bool) :
  mRunningInstances (fst (foldl updateUnit (w, c) units)) = mRunningInstances w
  /\ (exists evs,
        mHistory (fst (foldl updateUnit (w, c) units)) = mHistory w ++ evs
        /\ Forall (fun ev => isMonitorEvent ev = true /\ isUpdate ev = false) evs)
  /\ snd (foldl updateUnit (w, c) units) = c || existsb (differs w) units
  /\ (existsb (differs w) units = false ->
      mRunningUnits (fst (foldl updateUnit (w, c) units)) = mRunningUnits w).
Proof.
  revert w c. induction units as [|u units IH]; intros w c; cbn [foldl existsb].
  - split; [reflexivity |]. split.
    + exists []. split; [now rewrite app_nil_r | constructor].
    + split; [now rewrite orb_false_r | reflexivity].
  - destruct (updateUnit_effect w c u) as (Hi & (evs & Hh & Hev) & Hc & Hr).
    destruct (updateUnit (w, c) u) as [w1 c1]. cbn [fst snd] in *.
    destruct (IH w1 c1) as (Hi' & (evs' & Hh' & Hev') & Hc' & Hr').
    split; [congruence |]. split.
    + exists (evs ++ evs'). split; [rewrite Hh', Hh; now rewrite app_assoc |].
      apply Forall_app. now split.
    + destruct (differs w u) eqn:Ed.
      * split; [| discriminate]. rewrite Hc', Hc. now rewrite !orb_true_r.
      * specialize (Hr eq_refl).
        assert (He : existsb (differs w1) units = existsb (differs w) units).
        { clear - Hr. induction units as [|x units IH]; [reflexivity |].
          cbn [existsb]. now rewrite IH, (differs_ext w w1 x Hr). }
        rewrite He in Hc', Hr'. cbn [orb]. split.
        -- rewrite Hc', Hc. now rewrite orb_false_r.
        -- intros Hn. rewrite (Hr' Hn). exact Hr.
Qed.

(** An iteration that goes on to ask the supervisor, written out. *)
Lemma MonitorIteration_listed (p : Poll) (w : World) :
  mClosed w = false ->
  pStopRequested p = false ->
  IsNone (snd (pListUnits p)) = true ->
  MonitorIteration p w
  = let st := foldl updateUnit (emit (EvListUnits (pListUnits p)) w, false)
                (fst (pListUnits p)) in
    if snd st || negb (size (mRunningUnits (fst st))
                       =? length (mRunningInstances (fst st)))%nat
    then match GetRunningInstances (fst st) with
         | (Ok l, w3) => (Continue, emit (EvUpdateRunStatus (Ok l)) w3)
         | (Throw e, w3) => (Return, emit (EvUpdateRunStatus (Throw e)) w3)
         end
    else (Continue, fst st).
Proof.
  intros Hc Hs He. unfold MonitorIteration. rewrite Hc, Hs, Hc.
  destruct (pListUnits p) as [units err]. cbn [fst snd] in *. rewrite He.
  cbn [negb].
  destruct (foldl updateUnit (emit (EvListUnits (units, err)) w, false) units)
    as [w2 changed].
  cbn [fst snd].
  destruct (changed || negb (size (mRunningUnits w2) =? length (mRunningInstances w2))%nat);
    [| reflexivity].
  now destruct (GetRunningInstances w2) as [[l|e] w3].
Qed.

Lemma unitsAreNames_dom (w w' : World) :
  dom (mRunningUnits w') = dom (mRunningUnits w) ->
  unitsAreNames w -> unitsAreNames w'.
Proof.
  intros Hd Hn unitName data H.
  assert (Hs : is_Some (mRunningUnits w !! unitName)).
  { apply elem_of_dom. rewrite <- Hd. apply elem_of_dom. eauto. }
  destruct Hs as [d Hd']. exact (Hn unitName d Hd').
Qed.

Lemma transformUnits_named (units : list (string * RunningUnitData)) :
  (forall name data, In (name, data) units ->
                     exists instanceID, name = CreateSystemdUnitName instanceID) ->
  exists l,
    transformUnits units = (l, None)
    /\ length l = length units
    /\ forall status,
         In status l
         <-> exists data,
               In (CreateSystemdUnitName (mInstanceID status), data) units
               /\ status = toRunStatus (mInstanceID status) data.
Proof.
  induction units as [|[name data] units IH]; intros Hu.
  - exists []. split; [reflexivity |]. split; [reflexivity |].
    intros status. split; [intros [] | intros (d & [] & _)].
  - destruct (Hu name data (or_introl eq_refl)) as [instanceID ->].
    destruct (IH (fun n d Hin => Hu n d (or_intror Hin))) as (l & Ht & Hl & Hin).
    exists (toRunStatus instanceID data :: l). cbn [transformUnits].
    rewrite CreateSystemdUnitName_eq, CreateInstanceID_of_name, Ht.
    split; [reflexivity |]. split; [cbn; now rewrite Hl |].
    intros status. cbn [In]. rewrite Hin. split.
    + intros [<- | (d & Hd & Hs)].
      * exists data. cbn. split; [left; reflexivity | reflexivity].
      * exists d. split; [now right | exact Hs].
    + intros (d & [Hd | Hd] & Hs).
      * left. pose proof (f_equal fst Hd) as Hn. pose proof (f_equal snd Hd) as Hdd.
        cbn [fst snd] in Hn, Hdd. subst d. rewrite Hs. f_equal.
        apply (f_equal CreateInstanceID) in Hn.
        rewrite !CreateSystemdUnitName_eq, !CreateInstanceID_of_name in Hn.
        now injection Hn.
      * right. eauto.
Qed.

(** In a runner whose running units are named after instances,
    [GetRunningInstances] returns one status per running unit. *)
Lemma GetRunningInstances_named (w : World) :
  unitsAreNames w ->
  exists l,
    GetRunningInstances w = (Ok l, setRunningInstances l w)
    /\ length l = size (mRunningUnits w)
    /\ forall status,
         In status l
         <-> exists data,
               mRunningUnits w !! CreateSystemdUnitName (mInstanceID status) = Some data
               /\ status = toRunStatus (mInstanceID status) data.
Proof.
  intros Hn.
  destruct (transformUnits_named (map_to_list (mRunningUnits w))) as (l & Ht & Hl & Hin).
  { intros name data H. apply list_elem_of_In, elem_of_map_to_list in H.
    exact (Hn name data H). }
  exists l. unfold GetRunningInstances. rewrite Ht.
  split; [reflexivity |]. split; [now rewrite Hl, length_map_to_list |].
  intros status. rewrite Hin. split; intros (d & Hd & Hs); exists d; (split; [| exact Hs]).
  - now apply list_elem_of_In, elem_of_map_to_list in Hd.
  - now apply list_elem_of_In, elem_of_map_to_list.
Qed.

(** The events of one iteration: monitor events only, and status arrays
    that name running units only. *)
Lemma MonitorIteration_events (p : Poll) (w : World) :
  exists evs,
    mHistory (snd (MonitorIteration p w)) = mHistory w ++ evs
    /\ Forall (fun ev => isMonitorEvent ev = true) evs
    /\ (unitsAreNames w -> Forall (reportsOnly (dom (mRunningUnits w))) evs).
Proof.
  assert (Hnil : exists evs : list Event,
             mHistory w = mHistory w ++ evs
             /\ Forall (fun ev => isMonitorEvent ev = true) evs
             /\ (unitsAreNames w -> Forall (reportsOnly (dom (mRunningUnits w))) evs)).
  { exists []. split; [now rewrite app_nil_r |]. split; [constructor |].
    intros _. constructor. }
  unfold MonitorIteration. destruct (mClosed w) eqn:Hc; [exact Hnil |].
  destruct (pStopRequested p); cbn [mClosed setClosed]; [exact Hnil |].
  rewrite Hc. destruct (pListUnits p) as [units err] eqn:Ep.
  destruct (IsNone err) eqn:He; cbn [negb snd].
  2:{ eexists [_; _]. cbn. rewrite <- app_assoc. split; [reflexivity |].
      split; [repeat constructor |]. intros _. repeat constructor. }
  destruct (foldl_updateUnit_effect units (emit (EvListUnits (units, err)) w) false)
    as (Hi & (evs & Hh & Hev) & _ & _).
  pose proof (foldl_updateUnit_monitored units (emit (EvListUnits (units, err)) w, false))
    as (_ & Hdom & _ & _).
  destruct (foldl updateUnit (emit (EvListUnits (units, err)) w, false) units)
    as [w2 changed].
  cbn [fst snd mHistory mRunningUnits emit] in *.
  assert (Hmon : Forall (fun ev => isMonitorEvent ev = true) evs).
  { eapply Forall_impl; [exact Hev |]. now intros ev [H _]. }
  assert (Hquiet : Forall (reportsOnly (dom (mRunningUnits w))) evs).
  { eapply Forall_impl; [exact Hev |]. intros ev [_ H].
    destruct ev; try exact I. discriminate. }
  destruct (changed || negb (size (mRunningUnits w2) =? length (mRunningInstances w2))%nat).
  - unfold GetRunningInstances.
    destruct (transformUnits (map_to_list (mRunningUnits w2))) as [l [e|]] eqn:Et;
      cbn [snd mHistory emit setRunningInstances]; rewrite Hh, <- !app_assoc;
      (eexists; split; [reflexivity |]); cbn [app].
    + split.
      * constructor; [reflexivity |]. apply Forall_app. split; [exact Hmon |].
        repeat constructor.
      * intros _. constructor; [exact I |]. apply Forall_app.
        split; [exact Hquiet | repeat constructor].
    + split.
      * constructor; [reflexivity |]. apply Forall_app. split; [exact Hmon |].
        repeat constructor.
      * intros Hn. constructor; [exact I |]. apply Forall_app.
        split; [exact Hquiet |]. constructor; [| constructor].
        assert (Hn2 : unitsAreNames w2) by (eapply unitsAreNames_dom; eassumption).
        destruct (GetRunningInstances_named w2 Hn2) as (l' & Hg & _ & Hin).
        unfold GetRunningInstances in Hg. rewrite Et in Hg. injection Hg as <-.
        intros status Hs. apply Hin in Hs as (d & Hd & _).
        rewrite <- Hdom. apply elem_of_dom. eauto.
  - cbn [snd]. rewrite Hh, <- app_assoc. eexists. split; [reflexivity |]. cbn [app].
    split.
    + constructor; [reflexivity | exact Hmon].
    + intros _. constructor; [exact I | exact Hquiet].
Qed.

Lemma MonitorUnits_events (polls : list Poll) (w : World) :
  exists evs,
    mHistory (MonitorUnits polls w) = mHistory w ++ evs
    /\ Forall (fun ev => isMonitorEvent ev = true) evs
    /\ (unitsAreNames w -> Forall (reportsOnly (dom (mRunningUnits w))) evs).
Proof.
  revert w. induction polls as [|p polls IH]; intros w; cbn [MonitorUnits].
  - exists []. split; [now rewrite app_nil_r |]. split; [constructor |].
    intros _. constructor.
  - destruct (MonitorIteration_events p w) as (evs & Hh & Hm & Hr).
    pose proof (MonitorIteration_monitored p w) as (_ & Hdom & _ & _).
    destruct (MonitorIteration p w) as [[|] w1]; cbn [snd] in *.
    + destruct (IH w1) as (evs' & Hh' & Hm' & Hr').
      exists (evs ++ evs'). split; [rewrite Hh', Hh; now rewrite app_assoc |].
      split; [apply Forall_app; now split |].
      intros Hn. apply Forall_app. split; [now apply Hr |].
      rewrite <- Hdom. apply Hr'. eapply unitsAreNames_dom; eassumption.
    + exists evs. cbn. repeat split; assumption.
Qed.

Lemma RunMonitor_events (polls : list Poll) (w : World) :
  exists evs,
    mHistory (RunMonitor polls w) = mHistory w ++ evs
    /\ Forall (fun ev => isMonitorEvent ev = true) evs
    /\ (unitsAreNames w -> Forall (reportsOnly (dom (mRunningUnits w))) evs).
Proof.
  unfold RunMonitor. destruct (mMonitoringThread w);
    try (exists []; split; [now rewrite app_nil_r |]; split; [constructor |];
         intros _; constructor).
  apply MonitorUnits_events.
Qed.

End MonitorSteps.

(** ** Runner: properties of the monitor thread *)

Section MonitorFacts.

(** X2. Whatever the supervisor answers and however long it runs, the
    monitor thread never adds or removes a unit of the running or starting
    units, never touches the file system, and calls nothing but [ListUnits],
    the error log, the wake-up of waiters and [UpdateRunStatus]. *)
Theorem monitor_leaves_units_and_files (polls : list Poll) (w : World) :
  let w' := RunMonitor polls w in
  mFS w' = mFS w
  /\ dom (mRunningUnits w') = dom (mRunningUnits w)
  /\ dom (mStartingUnits w') = dom (mStartingUnits w)
  /\ exists evs,
       mHistory w' = mHistory w ++ evs
       /\ Forall (fun ev => isMonitorEvent ev = true) evs.
Proof.
  intros w'. subst w'.
  destruct (RunMonitor_monitored polls w) as (Hfs & Hr & Hs & _).
  destruct (RunMonitor_events polls w) as (evs & Hh & Hev & _).
  split; [exact Hfs |]. split; [exact Hr |]. split; [exact Hs |].
  exists evs. now split.
Qed.

(** X3. One monitor iteration that gets a list of units calls
    [UpdateRunStatus] exactly when a listed unit differs in state or exit
    code from what is recorded for it among the running units, or the number
    of running units is not the length of the cached status array. With no
    such change the running units and the cache stay as they are; after a
    call the cache is the array that was handed over, one status per running
    unit. *)
Theorem MonitorIteration_notifies_on_change (p : Poll) (w : World) :
  mClosed w = false ->
  pStopRequested p = false ->
  IsNone (snd (pListUnits p)) = true ->
  let changed :=
    existsb (differs w) (fst (pListUnits p))
    || negb (size (mRunningUnits w) =? length (mRunningInstances w))%nat in
  let w' := snd (MonitorIteration p w) in
  exists evs,
    mHistory w' = mHistory w ++ EvListUnits (pListUnits p) :: evs
    /\ existsb isUpdate evs = changed
    /\ (changed = false ->
        fst (MonitorIteration p w) = Continue
        /\ mRunningUnits w' = mRunningUnits w
        /\ mRunningInstances w' = mRunningInstances w)
    /\ (changed = true ->
        unitsAreNames w ->
        exists instances,
          In (EvUpdateRunStatus (Ok instances)) evs
          /\ fst (MonitorIteration p w) = Continue
          /\ mRunningInstances w' = instances
          /\ length instances = size (mRunningUnits w')).
Proof.
  intros Hc Hs He changed w'. subst w'.
  rewrite (MonitorIteration_listed p w Hc Hs He). cbv zeta.
  destruct (pListUnits p) as [units err]. cbn [fst snd] in *.
  destruct (foldl_updateUnit_effect units (emit (EvListUnits (units, err)) w) false)
    as (Hi & (evs & Hh & Hev) & Hc2 & Hr).
  pose proof (foldl_updateUnit_monitored units (emit (EvListUnits (units, err)) w, false))
    as (_ & Hdom & _ & _).
  change (existsb (differs (emit (EvListUnits (units, err)) w)) units)
    with (existsb (differs w) units) in Hc2, Hr.
  destruct (foldl updateUnit (emit (EvListUnits (units, err)) w, false) units)
    as [w2 c2].
  cbn [fst snd mHistory mRunningUnits mRunningInstances emit orb] in *.
  assert (Hsz : size (mRunningUnits w2) = size (mRunningUnits w)).
  { rewrite <- (size_dom (mRunningUnits w2)), <- (size_dom (mRunningUnits w)).
    now rewrite Hdom. }
  assert (Hnu : existsb isUpdate evs = false).
  { clear - Hev. induction Hev as [|ev evs [_ H] _ IH]; [reflexivity |].
    cbn [existsb]. now rewrite H, IH. }
  rewrite Hsz, Hi, Hc2. fold changed.
  destruct changed eqn:Ech.
  - pose proof (GetRunningInstances_monitored w2) as (_ & Hdom3 & _ & _).
    destruct (GetRunningInstances w2) as [[l|e] w3] eqn:Eg;
      cbn [fst snd mHistory emit] in *.
    + assert (Hh3 : mHistory w3 = mHistory w2
                    /\ (unitsAreNames w2 ->
                        mRunningInstances w3 = l
                        /\ length l = size (mRunningUnits w3))).
      { unfold GetRunningInstances in Eg.
        destruct (transformUnits (map_to_list (mRunningUnits w2))) as [l' [e'|]] eqn:Et;
          [discriminate |].
        injection Eg as <- <-. split; [reflexivity |]. intros Hn.
        destruct (GetRunningInstances_named w2 Hn) as (l'' & Hg & Hlen & _).
        unfold GetRunningInstances in Hg. rewrite Et in Hg. injection Hg as <-.
        split; [reflexivity | exact Hlen]. }
      destruct Hh3 as [Hh3 Hsync].
      exists (evs ++ [EvUpdateRunStatus (Ok l)]).
      split; [rewrite Hh3, Hh; now rewrite <- !app_assoc |].
      split; [rewrite existsb_app, Hnu; reflexivity |].
      split; [discriminate |].
      intros _ Hn. exists l.
      split; [apply in_app_iff; right; now left |].
      split; [reflexivity |]. apply Hsync.
      eapply unitsAreNames_dom; [| exact Hn]. exact Hdom.
    + assert (Hh3 : mHistory w3 = mHistory w2).
      { unfold GetRunningInstances in Eg.
        destruct (transformUnits (map_to_list (mRunningUnits w2))) as [l' [e'|]];
          [| discriminate].
        now injection Eg as _ <-. }
      exists (evs ++ [EvUpdateRunStatus (Throw e)]).
      split; [rewrite Hh3, Hh; now rewrite <- !app_assoc |].
      split; [rewrite existsb_app, Hnu; reflexivity |].
      split; [discriminate |].
      intros _ Hn. exfalso.
      assert (Hn2 : unitsAreNames w2) by (eapply unitsAreNames_dom; eassumption).
      destruct (GetRunningInstances_named w2 Hn2) as (l & Hg & _).
      rewrite Hg in Eg. discriminate.
  - exists evs. cbn [fst snd].
    split; [rewrite Hh; now rewrite <- app_assoc |].
    split; [exact Hnu |]. split; [| discriminate].
    intros _. split; [reflexivity |]. split; [| exact Hi].
    apply Hr. unfold changed in Ech. now apply orb_false_iff in Ech as [Ech _].
Qed.

End MonitorFacts.

Lemma MonitorIteration_notifies_on_change_witness :
  let w := mkWorld ∅ {["aos-service@service0.service" :=
                        mkRunningUnitData InstanceRunStateEnum.eActive None]}
             [mkRunStatus "service0" InstanceRunStateEnum.eActive ErrNone]
             false ThreadRunning ∅ [] in
  let p := Doubles.listed "aos-service@service0.service" UnitStateEnum.eFailed (Some 1) in
  exists evs,
    mHistory (snd (MonitorIteration p w)) = mHistory w ++ EvListUnits (pListUnits p) :: evs
    /\ existsb isUpdate evs = true.
Proof.
  intros w p.
  destruct (MonitorIteration_notifies_on_change p w eq_refl eq_refl eq_refl)
    as (evs & Hh & Hu & _).
  exists evs. split; [exact Hh |]. rewrite Hu. vm_compute. reflexivity.
Defined.

(** ** Runner: after a successful start, and the returns before the wait *)

Section StartResults.

(** X4. When [StartInstance] has reached its wait and the state recorded for
    the unit at the end of the wait is active, it returns Active with no
    error, the unit has become a running unit with state Active and the exit
    code last recorded, it has no entry in the starting units any more, the
    drop-in stays on disk, and [GetRunningInstances] then lists the
    instance. *)
Theorem StartInstance_active (K : RunnerConsts) (sd : SystemdConnItf)
  (ff : FsFaults) (instanceID runtimeDir : string) (params : RunParameters)
  (ticks : list Poll) (w w1 : World) :
  let unitName := CreateSystemdUnitName instanceID in
  let atWake := startingAt K unitName (RunMonitor ticks w1) in
  let entry := mkRunningUnitData InstanceRunStateEnum.eActive (suExitCode atWake) in
  let status := fst (StartInstance K sd ff instanceID runtimeDir params ticks w) in
  let w' := snd (StartInstance K sd ff instanceID runtimeDir params ticks w) in
  StartInstance_begin K sd ff instanceID runtimeDir params w = inr w1 ->
  suRunState atWake = UnitStateEnum.eActive ->
  status = mkRunStatus instanceID InstanceRunStateEnum.eActive ErrNone
  /\ mRunningUnits w' = <[unitName := entry]> (mRunningUnits (RunMonitor ticks w1))
  /\ dom (mRunningUnits w') = {[unitName]} ∪ dom (mRunningUnits w)
  /\ mStartingUnits w' !! unitName = None
  /\ mFS w' = mFS w1
  /\ (unitsAreNames w ->
      exists instances,
        fst (GetRunningInstances w') = Ok instances
        /\ In (toRunStatus instanceID entry) instances).
Proof.
  intros unitName atWake entry status w' Hb Ha.
  destruct (StartInstance_begin_waiting K sd ff instanceID runtimeDir params w w1 Hb)
    as (_ & _ & Hru & _).
  destruct (RunMonitor_monitored ticks w1) as (Hf & Hdr & _ & _).
  assert (Hst : StartInstance K sd ff instanceID runtimeDir params ticks w
                = (mkRunStatus instanceID InstanceRunStateEnum.eActive ErrNone,
                   emit (EvLog LogDbg "Start instance")
                     (setRunningUnits
                        (<[unitName := entry]> (mRunningUnits (RunMonitor ticks w1)))
                        (setStartingUnits
                           (delete unitName (mStartingUnits (RunMonitor ticks w1)))
                           (RunMonitor ticks w1))))).
  { rewrite StartInstance_split, Hb.
    unfold StartInstance_finish, GetStartingUnitState_wake.
    fold unitName. fold atWake.
    rewrite bool_decide_eq_true_2 by exact Ha. reflexivity. }
  subst status w'. rewrite Hst.
  cbn [fst snd mStartingUnits mRunningUnits mFS emit setStartingUnits setRunningUnits].
  assert (Hdom : dom (<[unitName := entry]> (mRunningUnits (RunMonitor ticks w1)))
                 = {[unitName]} ∪ dom (mRunningUnits w))
    by (rewrite dom_insert_L, Hdr, Hru; reflexivity).
  split; [reflexivity |]. split; [reflexivity |]. split; [exact Hdom |].
  split; [apply lookup_delete_eq |]. split; [exact Hf |].
  intros Hn.
  set (w' := emit (EvLog LogDbg "Start instance")
               (setRunningUnits
                  (<[unitName := entry]> (mRunningUnits (RunMonitor ticks w1)))
                  (setStartingUnits
                     (delete unitName (mStartingUnits (RunMonitor ticks w1)))
                     (RunMonitor ticks w1)))).
  assert (Hn' : unitsAreNames w').
  { intros name data H. subst w'. cbn in H.
    apply lookup_insert_Some in H as [[<- _] | [_ H]]; [now exists instanceID |].
    assert (Hs : is_Some (mRunningUnits w !! name)).
    { apply elem_of_dom. rewrite <- Hru, <- Hdr. apply elem_of_dom. eauto. }
    destruct Hs as [d Hd]. exact (Hn name d Hd). }
  destruct (GetRunningInstances_named w' Hn') as (l & Hg & _ & Hin).
  exists l. rewrite Hg. split; [reflexivity |].
  apply Hin. exists entry. cbn [mInstanceID toRunStatus]. split; [| reflexivity].
  subst w'. cbn. fold unitName. apply lookup_insert_eq.
Qed.

(** X5. The three returns of [StartInstance] before its wait. When the
    drop-in cannot be written it returns Failed with that error and the
    supervisor is not called. When [StartUnit] is refused it returns Failed
    with the error of [StartUnit]; when [GetUnitStatus] fails it returns
    Failed with that error under the message failed to get unit status. In
    the last two cases the drop-in stays on disk and in all three the unit is
    neither a starting nor a running unit afterwards, whatever the monitor
    does meanwhile. *)
Theorem StartInstance_early_returns (K : RunnerConsts) (sd : SystemdConnItf)
  (ff : FsFaults) (instanceID runtimeDir : string) (params : RunParameters)
  (ticks : list Poll) (w : World) :
  let si := default (cDefaultStartInterval K) (mStartInterval params) in
  let burst := default (cDefaultStartBurst K) (mStartBurst params) in
  let ri := default (cDefaultRestartInterval K) (mRestartInterval params) in
  let unitName := CreateSystemdUnitName instanceID in
  let dir := parametersDirOf K unitName in
  let file := dir +:+ "/" +:+ cParametersFileName K in
  let w0 := emit (EvLog LogDbg "Start service instance") w in
  let setErr :=
    fst (SetRunParameters K ff unitName
           (mkRunParameters (Some si) (Some burst) (Some ri)) w0) in
  let startErr := StartUnit sd unitName "replace" (startTime K si) in
  let answer := GetUnitStatus sd unitName in
  let status := fst (StartInstance K sd ff instanceID runtimeDir params ticks w) in
  let w' := snd (StartInstance K sd ff instanceID runtimeDir params ticks w) in
  (IsNone setErr = false ->
   status = mkRunStatus instanceID InstanceRunStateEnum.eFailed setErr
   /\ mRunningUnits w' = mRunningUnits w
   /\ mStartingUnits w' = mStartingUnits w
   /\ exists evs,
        mHistory w' = mHistory w ++ EvLog LogDbg "Start service instance" :: evs
        /\ Forall isFileOp evs)
  /\ (IsNone setErr = true ->
      IsNone startErr = false ->
      status = mkRunStatus instanceID InstanceRunStateEnum.eFailed startErr
      /\ mRunningUnits w' = mRunningUnits w
      /\ mStartingUnits w' = mStartingUnits w
      /\ mFS w' !! file = Some (File perms_0644 (dropInContent si burst ri))
      /\ mHistory w'
         = mHistory w ++ [EvLog LogDbg "Start service instance";
                          EvCreateDirectories dir;
                          EvPermissions dir perms_0755;
                          EvWriteStringToFile file (dropInContent si burst ri) perms_0644;
                          EvStartUnit unitName "replace" (startTime K si)])
  /\ (IsNone setErr = true ->
      IsNone startErr = true ->
      IsNone (snd answer) = false ->
      status = mkRunStatus instanceID InstanceRunStateEnum.eFailed
                 (ErrorWithMessage (snd answer) "failed to get unit status")
      /\ IsNone (mError status) = false
      /\ mRunningUnits w' = mRunningUnits w
      /\ mStartingUnits w' = mStartingUnits w
      /\ mFS w' !! file = Some (File perms_0644 (dropInContent si burst ri))
      /\ mHistory w'
         = mHistory w ++ [EvLog LogDbg "Start service instance";
                          EvCreateDirectories dir;
                          EvPermissions dir perms_0755;
                          EvWriteStringToFile file (dropInContent si burst ri) perms_0644;
                          EvStartUnit unitName "replace" (startTime K si);
                          EvGetUnitStatus unitName answer;
                          EvLog LogDbg "Start instance"]).
Proof.
  intros si burst ri unitName dir file w0 setErr startErr answer status w'.
  subst status w'. unfold StartInstance. rewrite FixRunParameters_eq.
  fold si burst ri unitName. fold w0.
  destruct (SetRunParameters_history K ff unitName
              (mkRunParameters (Some si) (Some burst) (Some ri)) w0)
    as (evs & Hh & Hfo & Hs & Hr).
  subst setErr.
  destruct (SetRunParameters K ff unitName
              (mkRunParameters (Some si) (Some burst) (Some ri)) w0)
    as [err wa] eqn:Es.
  cbn [fst snd mStartInterval deref from_option id] in *.
  destruct (IsNone err) eqn:En; cbn [negb].
  - destruct (SetRunParameters_ok _ _ _ _ _ _ _ _ _ Es En)
      as (_ & Hfile & Hh1 & _ & _).
    fold dir in Hfile, Hh1. fold file in Hfile, Hh1.
    fold startErr.
    assert (Hh0 : mHistory w0 = mHistory w ++ [EvLog LogDbg "Start service instance"])
      by reflexivity.
    assert (Hr0 : mRunningUnits wa = mRunningUnits w) by exact Hr.
    assert (Hs0 : mStartingUnits wa = mStartingUnits w) by exact Hs.
    split; [discriminate |]. split.
    + intros _ Hse. rewrite Hse. cbn [negb fst snd mRunningUnits mStartingUnits mFS
                                       mHistory emit].
      rewrite Hh1, Hh0. rewrite <- !app_assoc.
      repeat split; assumption.
    + intros _ Hse. rewrite Hse. cbn [negb].
      unfold GetStartingUnitState, GetStartingUnitState_register.
      fold answer. destruct answer as [initialStatus e].
      cbn [snd]. intros Hge. rewrite Hge.
      cbn [negb fst snd mRunningUnits mStartingUnits mFS mHistory emit mError].
      rewrite Hh1, Hh0. rewrite <- !app_assoc.
      split; [reflexivity |].
      split; [unfold IsNone, ErrorWithMessage in *; exact Hge |].
      repeat split; assumption.
  - split; [| split; discriminate].
    intros _. cbn [fst snd]. split; [reflexivity |].
    split; [exact Hr |]. split; [exact Hs |].
    exists evs. split; [| exact Hfo]. rewrite Hh. subst w0. cbn [mHistory emit].
    now rewrite <- app_assoc.
Qed.

End StartResults.

Lemma StartInstance_active_witness :
  let status :=
    fst (StartInstance Doubles.K (Doubles.systemd UnitStateEnum.eActivating None)
           Doubles.noFaults "service0" "" (mkRunParameters None None None)
           [Doubles.listed "aos-service@service0.service" UnitStateEnum.eActive None]
           Doubles.started) in
  status = mkRunStatus "service0" InstanceRunStateEnum.eActive ErrNone.
Proof.
  intros status.
  refine (proj1 (StartInstance_active Doubles.K
                   (Doubles.systemd UnitStateEnum.eActivating None)
                   Doubles.noFaults "service0" "" (mkRunParameters None None None)
                   [Doubles.listed "aos-service@service0.service"
                      UnitStateEnum.eActive None]
                   Doubles.started _ eq_refl _)).
  vm_compute. reflexivity.
Defined.

Lemma StartInstance_early_returns_witness :
  let sd := mkSystemdConn (fun _ _ _ => ErrNone) (fun _ _ _ => ErrNone)
              (fun _ => ErrNone)
              (fun name => (mkUnitStatus name UnitStateEnum.eInactive None,
                            ErrorOf eNotFound "unit not loaded")) in
  let status :=
    fst (StartInstance Doubles.K sd Doubles.noFaults "service0" ""
           (mkRunParameters None None None) [] Doubles.started) in
  status = mkRunStatus "service0" InstanceRunStateEnum.eFailed
             (ErrorOf eNotFound "failed to get unit status").
Proof.
  intros sd status.
  refine (proj1 (proj2 (proj2 (StartInstance_early_returns Doubles.K sd
                                 Doubles.noFaults "service0" ""
                                 (mkRunParameters None None None) []
                                 Doubles.started)) _ _ _));
    reflexivity.
Defined.

(** ** Runner: what the receiver is told, and Stop *)

Section RunnerReports.

Variable K : RunnerConsts.

(** X6. In every state the runner reaches, [GetRunningInstances] returns
    (it does not throw) one status per running unit: a status is in the array
    exactly when its instance's unit is a running unit, with the state
    recorded for the unit and the error made from its exit code; the array
    is also what the cache holds afterwards. *)
Theorem GetRunningInstances_lists_running_units
  (closed : bool) (fs : gmap string Node) (actions : list Action) (w : World) :
  run K actions (initWorld closed fs) = Some w ->
  exists instances,
    GetRunningInstances w = (Ok instances, setRunningInstances instances w)
    /\ length instances = size (mRunningUnits w)
    /\ forall status,
         In status instances
         <-> exists data,
               mRunningUnits w !! CreateSystemdUnitName (mInstanceID status) = Some data
               /\ mState status = ruRunState data
               /\ mError status = match ruExitCode data with
                                  | Some code => ErrorOfErrno code ""
                                  | None => ErrNone
                                  end.
Proof.
  intros Hrun.
  pose proof (run_named K actions _ w (proj1 (initWorld_inv closed fs)) Hrun) as Hn.
  destruct (GetRunningInstances_named w Hn) as (l & Hg & Hlen & Hin).
  exists l. split; [exact Hg |]. split; [exact Hlen |].
  intros status. rewrite Hin. split.
  - intros (data & Hd & Hs). exists data. split; [exact Hd |].
    rewrite Hs. cbn. split; reflexivity.
  - intros (data & Hd & Hs & He). exists data. split; [exact Hd |].
    destruct status as [i s e]. cbn in *. unfold toRunStatus. now subst.
Qed.

(** X7. After [StopInstance] the monitor thread does not report the
    instance any more: no status array it hands to the receiver from then on
    names the instance, whatever the supervisor lists. *)
Theorem stopped_instance_not_reported
  (closed : bool) (fs : gmap string Node) (actions : list Action) (w : World)
  (sd : SystemdConnItf) (ff : FsFaults) (instanceID : string) (polls : list Poll) :
  run K actions (initWorld closed fs) = Some w ->
  let w1 := snd (StopInstance K sd ff instanceID w) in
  mRunningUnits w1 !! CreateSystemdUnitName instanceID = None
  /\ exists evs,
       mHistory (RunMonitor polls w1) = mHistory w1 ++ evs
       /\ forall instances status,
            In (EvUpdateRunStatus (Ok instances)) evs ->
            In status instances ->
            mInstanceID status <> instanceID.
Proof.
  intros Hrun w1.
  pose proof (run_named K actions _ w (proj1 (initWorld_inv closed fs)) Hrun) as Hn.
  assert (Hn1 : unitsAreNames w1).
  { eapply justified_named; [exact Hn |]. apply StopInstance_justified. }
  destruct (StopInstance_effect K sd ff instanceID w) as (Hr & _).
  fold w1 in Hr.
  assert (Hgone : mRunningUnits w1 !! CreateSystemdUnitName instanceID = None)
    by (rewrite Hr; apply lookup_delete_eq).
  split; [exact Hgone |].
  destruct (RunMonitor_events polls w1) as (evs & Hh & _ & Hrep).
  exists evs. split; [exact Hh |].
  intros instances status Hev Hs Heq.
  specialize (Hrep Hn1). rewrite Forall_forall in Hrep.
  apply list_elem_of_In in Hev. specialize (Hrep _ Hev status Hs).
  rewrite Heq in Hrep. apply elem_of_dom in Hrep as [d Hd]. congruence.
Qed.

End RunnerReports.

Lemma GetRunningInstances_lists_running_units_witness :
  let w := default (initWorld false ∅)
             (run Doubles.K
                [AStart (Ok tt);
                 AStartInstance_begin (Doubles.systemd UnitStateEnum.eActive None)
                   Doubles.noFaults "service0" "" (mkRunParameters None None None);
                 AStartInstance_finish "service0"]
                (initWorld false ∅)) in
  exists instances,
    GetRunningInstances w = (Ok instances, setRunningInstances instances w)
    /\ length instances = 1%nat.
Proof.
  intros w.
  assert (Hrun : run Doubles.K
                   [AStart (Ok tt);
                    AStartInstance_begin (Doubles.systemd UnitStateEnum.eActive None)
                      Doubles.noFaults "service0" "" (mkRunParameters None None None);
                    AStartInstance_finish "service0"]
                   (initWorld false ∅) = Some w) by (vm_compute; reflexivity).
  destruct (GetRunningInstances_lists_running_units Doubles.K false ∅ _ w Hrun)
    as (instances & Hg & Hlen & _).
  exists instances. split; [exact Hg |]. rewrite Hlen. vm_compute. reflexivity.
Defined.

Lemma stopped_instance_not_reported_witness :
  let sd := Doubles.systemd UnitStateEnum.eActive None in
  let w := default (initWorld false ∅)
             (run Doubles.K
                [AStart (Ok tt);
                 AStartInstance_begin sd Doubles.noFaults "service0" ""
                   (mkRunParameters None None None);
                 AStartInstance_finish "service0"]
                (initWorld false ∅)) in
  mRunningUnits (snd (StopInstance Doubles.K sd Doubles.noFaults "service0" w))
  !! "aos-service@service0.service" = None.
Proof.
  intros sd w.
  assert (Hrun : run Doubles.K
                   [AStart (Ok tt);
                    AStartInstance_begin sd Doubles.noFaults "service0" ""
                      (mkRunParameters None None None);
                    AStartInstance_finish "service0"]
                   (initWorld false ∅) = Some w) by (vm_compute; reflexivity).
  exact (proj1 (stopped_instance_not_reported Doubles.K false ∅ _
                  w sd Doubles.noFaults "service0"
                  [Doubles.listed "aos-service@service0.service"
                     UnitStateEnum.eActive None]
                  Hrun)).
Defined.

Section StopJoinFacts.

(** X8. [Stop] always succeeds and closes the runner; it leaves the running
    and starting units and the file system as they are (no unit is stopped,
    no drop-in removed); a second [Stop] does nothing; and from then on the
    monitor thread neither asks the supervisor nor tells the receiver
    anything. When the runner was open, the monitor thread has been joined. *)
Theorem Stop_ends_monitoring (w : World) (polls : list Poll) :
  let w' := snd (Stop w) in
  fst (Stop w) = ErrNone
  /\ mClosed w' = true
  /\ Stop w' = (ErrNone, w')
  /\ mRunningUnits w' = mRunningUnits w
  /\ mStartingUnits w' = mStartingUnits w
  /\ mFS w' = mFS w
  /\ (mClosed w = false -> mMonitoringThread w' = NoThread /\ RunMonitor polls w' = w')
  /\ mHistory (RunMonitor polls w') = mHistory w'
  /\ mRunningUnits (RunMonitor polls w') = mRunningUnits w
  /\ mRunningInstances (RunMonitor polls w') = mRunningInstances w.
Proof.
  intros w'. subst w'. unfold Stop.
  destruct (mClosed w) eqn:Hc; cbn [fst snd].
  - rewrite Hc. repeat (split; [reflexivity || discriminate |]).
    unfold RunMonitor. destruct (mMonitoringThread w); try (repeat split; reflexivity).
    destruct polls as [|p polls]; cbn [MonitorUnits]; [repeat split; reflexivity |].
    unfold MonitorIteration. rewrite Hc. repeat split; reflexivity.
  - cbn [mMonitoringThread setClosed emit]. unfold RunMonitor.
    destruct (mMonitoringThread w) eqn:Ht; cbn; rewrite ?Ht; cbn;
      repeat split; reflexivity.
Qed.

End StopJoinFacts.

(** ** Runner: the drop-ins of different instances *)

Section DropInSeparation.

Lemma noSlash_app (a b : string) : noSlash (a +:+ b) = noSlash a && noSlash b.
Proof.
  induction a as [|c a IH]; [reflexivity |].
  rewrite append_cons. cbn [noSlash]. rewrite IH. now rewrite andb_assoc.
Qed.

Lemma prefix_split (p s : string) :
  String.prefix p s = true -> exists r, s = p +:+ r.
Proof.
  revert s. induction p as [|c p IH]; intros s H.
  - exists s. reflexivity.
  - destruct s as [|d s]; [discriminate |]. cbn [String.prefix] in H.
    destruct (ascii_dec c d) as [-> |]; [| discriminate].
    destruct (IH s H) as [r ->]. exists r. now rewrite append_cons.
Qed.

Lemma append_inj_l (a b c : string) : a +:+ b = a +:+ c -> b = c.
Proof.
  induction a as [|x a IH]; [auto |].
  rewrite !append_cons. intros H. apply IH. congruence.
Qed.

Lemma append_inj_r (a b c : string) : a +:+ c = b +:+ c -> a = b.
Proof.
  revert b. induction a as [|x a IH]; intros b H.
  - destruct b as [|y b]; [reflexivity |]. exfalso.
    apply (f_equal String.length) in H.
    rewrite append_cons, append_nil_l in H. cbn [String.length] in H.
    rewrite length_append in H. lia.
  - destruct b as [|y b].
    + exfalso. apply (f_equal String.length) in H.
      rewrite append_cons, append_nil_l in H. cbn [String.length] in H.
      rewrite length_append in H. lia.
    + rewrite !append_cons in H. injection H as -> H. f_equal. now apply IH.
Qed.

(** Where the first separator is. *)
Lemma first_slash (x y r r' : string) :
  noSlash x = true -> noSlash y = true ->
  x +:+ "/" +:+ r = y +:+ "/" +:+ r' -> x = y.
Proof.
  revert y. induction x as [|c x IH]; intros y Hx Hy H.
  - destruct y as [|d y]; [reflexivity |]. exfalso.
    rewrite append_nil_l, !append_cons in H. rewrite append_nil_l in H.
    injection H as <- _. cbn in Hy. discriminate.
  - destruct y as [|d y].
    + exfalso. rewrite append_nil_l, !append_cons in H. rewrite append_nil_l in H.
      injection H as -> _. cbn in Hx. discriminate.
    + rewrite !append_cons in H. injection H as -> H.
      cbn [noSlash] in Hx, Hy.
      apply andb_true_iff in Hx as [_ Hx]. apply andb_true_iff in Hy as [_ Hy].
      f_equal. now apply IH.
Qed.

Lemma slash_inside (x r y : string) : noSlash y = true -> x +:+ "/" +:+ r <> y.
Proof.
  intros Hy H. rewrite <- H in Hy. rewrite !noSlash_app in Hy.
  cbn in Hy. rewrite andb_false_r in Hy. discriminate.
Qed.

Lemma parametersDirOf_shape (K : RunnerConsts) (instanceID : string) :
  parametersDirOf K (CreateSystemdUnitName instanceID)
  = (cSystemdDropInsDir K +:+ "/aos-service@") +:+ (instanceID +:+ ".service.d").
Proof.
  unfold parametersDirOf. rewrite CreateSystemdUnitName_eq.
  rewrite !append_assoc. reflexivity.
Qed.

Lemma under_below (dir name : string) : under dir (dir +:+ "/" +:+ name) = true.
Proof.
  unfold under. apply orb_true_iff. right.
  rewrite <- append_assoc. apply prefix_append.
Qed.

(** The drop-in directory and file of one instance are not below the
    drop-in directory of another. *)
Lemma drop_ins_apart (K : RunnerConsts) (a b : string) :
  noSlash a = true -> noSlash b = true -> a <> b ->
  let dirA := parametersDirOf K (CreateSystemdUnitName a) in
  let dirB := parametersDirOf K (CreateSystemdUnitName b) in
  under dirA dirB = false
  /\ under dirA (dirB +:+ "/" +:+ cParametersFileName K) = false.
Proof.
  intros Ha Hb Hne dirA dirB. subst dirA dirB.
  rewrite !parametersDirOf_shape.
  set (P := cSystemdDropInsDir K +:+ "/aos-service@").
  assert (Hsa : noSlash (a +:+ ".service.d") = true)
    by (rewrite noSlash_app, Ha; reflexivity).
  assert (Hsb : noSlash (b +:+ ".service.d") = true)
    by (rewrite noSlash_app, Hb; reflexivity).
  unfold under. split; apply orb_false_iff; split.
  - apply String.eqb_neq. intros H. apply append_inj_l, append_inj_r in H.
    congruence.
  - apply not_true_is_false. intros H. apply prefix_split in H as [r H].
    rewrite !append_assoc in H. apply append_inj_l in H.
    rewrite <- (append_assoc a) in H. symmetry in H. revert H.
    now apply slash_inside.
  - apply String.eqb_neq. intros H. rewrite !append_assoc in H.
    apply append_inj_l in H. rewrite <- (append_assoc b) in H. revert H.
    now apply slash_inside.
  - apply not_true_is_false. intros H. apply prefix_split in H as [r H].
    rewrite !append_assoc in H. apply append_inj_l in H.
    rewrite <- (append_assoc a), <- (append_assoc b) in H.
    apply first_slash in H; [| assumption | assumption].
    apply append_inj_r in H. congruence.
Qed.

Lemma under_self (dir : string) : under dir dir = true.
Proof. unfold under. now rewrite String.eqb_refl. Qed.

(** What is not below the directory stays when it is removed. *)
Lemma RemoveAll_keeps (ff : FsFaults) (dir : string) (fs : gmap string Node)
  (path : string) :
  under dir path = false ->
  snd (RemoveAll ff dir fs) !! path = fs !! path.
Proof.
  intros Hu. unfold RemoveAll. destruct (remove_fault ff dir); [reflexivity |].
  cbn [snd]. destruct (fs !! path) as [node|] eqn:E.
  - apply map_lookup_filter_Some. split; [exact E | exact Hu].
  - apply map_lookup_filter_None. now left.
Qed.

(** An entry other than the directory stays when the directory is made. *)
Lemma CreateDir_keeps (ff : FsFaults) (dir : string) (perms : Z) (w : World)
  (path : string) (node : Node) :
  path <> dir ->
  mFS w !! path = Some node ->
  mFS (snd (CreateDir ff dir perms w)) !! path = Some node.
Proof.
  intros Hne H. unfold CreateDir, create_directories.
  destruct (create_directories_fault ff dir) as [[code msg]|]; [exact H |].
  destruct (existsb (is_file (mFS w)) (ancestors dir ++ [dir])); [exact H |].
  cbn [fst snd Z.eqb negb mFS emit setFS].
  pose proof (foldl_mkdir_keeps (umaskDirPerms ff) (ancestors dir ++ [dir]) (mFS w)
                path node H) as Hk.
  unfold permissions. destruct (permissions_fault ff dir) as [[code msg]|];
    [exact Hk |].
  destruct (foldl (mkdir_if_absent (umaskDirPerms ff)) (mFS w) (ancestors dir ++ [dir])
            !! dir) as [[q | q c]|]; cbn; try exact Hk;
    rewrite lookup_insert_ne by congruence; exact Hk.
Qed.

Lemma SetRunParameters_keeps (K : RunnerConsts) (ff : FsFaults) (unitName : string)
  (params : RunParameters) (w : World) (path : string) (node : Node) :
  under (parametersDirOf K unitName) path = false ->
  mFS w !! path = Some node ->
  mFS (snd (SetRunParameters K ff unitName params w)) !! path = Some node.
Proof.
  intros Hu H. unfold SetRunParameters.
  assert (Hne : path <> parametersDirOf K unitName).
  { intros ->. now rewrite under_self in Hu. }
  pose proof (CreateDir_keeps ff (parametersDirOf K unitName) perms_0755 w path node
                Hne H) as Hk.
  destruct (CreateDir ff (parametersDirOf K unitName) perms_0755 w) as [e1 w1].
  cbn [snd] in Hk. destruct (negb (IsNone e1)); [exact Hk |].
  unfold WriteStringToFile. destruct (write_fault ff _); cbn; [exact Hk |].
  rewrite lookup_insert_ne; [exact Hk |].
  intros <-. now rewrite under_below in Hu.
Qed.

(** X9. The drop-ins of two instances are kept apart: for instance IDs
    without a path separator, neither starting nor stopping one instance
    changes the drop-in directory or the parameters file of another instance
    that is on disk. *)
Theorem drop_ins_of_other_instances_stay (K : RunnerConsts) (sd : SystemdConnItf)
  (ff : FsFaults) (instanceID other runtimeDir : string) (params : RunParameters)
  (ticks : list Poll) (w : World) (path : string) (node : Node) :
  let dir := parametersDirOf K (CreateSystemdUnitName other) in
  noSlash instanceID = true ->
  noSlash other = true ->
  instanceID <> other ->
  path = dir \/ path = dir +:+ "/" +:+ cParametersFileName K ->
  mFS w !! path = Some node ->
  mFS (snd (StartInstance K sd ff instanceID runtimeDir params ticks w)) !! path
  = Some node
  /\ mFS (snd (StopInstance K sd ff instanceID w)) !! path = Some node.
Proof.
  intros dir Hi Ho Hne Hpath Hnode.
  destruct (drop_ins_apart K instanceID other Hi Ho Hne) as [Hd Hf].
  fold dir in Hd, Hf.
  assert (Hu : under (parametersDirOf K (CreateSystemdUnitName instanceID)) path = false)
    by (destruct Hpath as [-> | ->]; assumption).
  split.
  - unfold StartInstance.
    pose proof (SetRunParameters_keeps K ff (CreateSystemdUnitName instanceID)
                  (FixRunParameters K params)
                  (emit (EvLog LogDbg "Start service instance") w) path node Hu Hnode)
      as Hk.
    destruct (SetRunParameters K ff _ _ _) as [err w1]. cbn [snd] in Hk.
    destruct (negb (IsNone err)); [exact Hk |].
    destruct (negb (IsNone (StartUnit sd _ _ _))); [exact Hk |].
    pose proof (GetStartingUnitState_frame K sd (CreateSystemdUnitName instanceID)
                  (startTime K (deref (mStartInterval (FixRunParameters K params))))
                  ticks
                  (emit (EvStartUnit (CreateSystemdUnitName instanceID) "replace"
                           (startTime K (deref (mStartInterval
                                                  (FixRunParameters K params))))) w1))
      as [Hfs _].
    destruct (GetStartingUnitState K sd _ _ ticks _) as [[state err3] w3].
    cbn [snd mFS emit] in *. now rewrite Hfs.
  - destruct (StopInstance_effect K sd ff instanceID w) as (_ & _ & _ & Hfs).
    rewrite Hfs, RemoveAll_keeps by exact Hu. exact Hnode.
Qed.

End DropInSeparation.

Lemma drop_ins_of_other_instances_stay_witness :
  let sd := Doubles.systemd UnitStateEnum.eActive None in
  let w := snd (StartInstance Doubles.K sd Doubles.noFaults "service1" ""
                  (mkRunParameters None None None) [] Doubles.started) in
  mFS (snd (StopInstance Doubles.K sd Doubles.noFaults "service0" w))
  !! "/run/systemd/system/aos-service@service1.service.d/parameters.conf"
  = Some (File perms_0644 (dropInContent (5 * cSeconds) 3 (1 * cSeconds))).
Proof.
  intros sd w.
  refine (proj2 (drop_ins_of_other_instances_stay Doubles.K sd Doubles.noFaults
                   "service0" "service1" "" (mkRunParameters None None None) [] w
                   "/run/systemd/system/aos-service@service1.service.d/parameters.conf"
                   _ _ _ _ _ _)).
  - reflexivity.
  - reflexivity.
  - discriminate.
  - right. reflexivity.
  - reflexivity.
Defined.

(** ** Wire conversions: round trips and bounded arrays *)

Section ConvertRoundTrips.

Import Convert.

Lemma to_int32_small (v : Z) : - 2 ^ 31 <= v < 2 ^ 31 -> to_int32 v = v.
Proof. intros H. unfold to_int32. rewrite Z.mod_small; lia. Qed.

Lemma to_int64_to_uint64 (v : Z) : - 2 ^ 63 <= v < 2 ^ 63 -> to_int64 (to_uint64 v) = v.
Proof.
  intros H. unfold to_int64, to_uint64.
  destruct (Z_lt_le_dec v 0).
  - replace v with ((v + 2 ^ 64) + (-1) * 2 ^ 64) at 1 by lia.
    rewrite Z.mod_add by lia. rewrite (Z.mod_small (v + 2 ^ 64)) by lia.
    replace (v + 2 ^ 64 + 2 ^ 63) with ((v + 2 ^ 63) + 1 * 2 ^ 64) by lia.
    rewrite Z.mod_add by lia. rewrite Z.mod_small; lia.
  - rewrite (Z.mod_small v) by lia. rewrite Z.mod_small; lia.
Qed.

Lemma c_str_idempotent (s : string) : c_str (c_str s) = c_str s.
Proof.
  induction s as [|c s IH]; [reflexivity |]. cbn [c_str].
  destruct (Ascii.eqb c zero) eqn:E; [reflexivity |].
  cbn [c_str]. now rewrite E, IH.
Qed.

(** X10. A time after the epoch survives the way to the wire and back
    (its nanoseconds fit the 32-bit field), and so does a wire timestamp with
    positive seconds; a time at or before the epoch comes back as absent. *)
Theorem Timestamp_round_trip :
  (forall t : Time,
     0 < tv_sec t -> - 2 ^ 31 <= tv_nsec t < 2 ^ 31 ->
     ConvertToAos_Timestamp (TimestampToPB t) = Some t)
  /\ (forall t : Time,
        tv_sec t <= 0 -> ConvertToAos_Timestamp (TimestampToPB t) = None)
  /\ (forall val : Timestamp,
        0 < seconds val -> - 2 ^ 31 <= nanos val < 2 ^ 31 ->
        TimestampToPB <$> ConvertToAos_Timestamp val = Some val).
Proof.
  unfold ConvertToAos_Timestamp, TimestampToPB, UnixTime, Unix.
  split; [| split].
  - intros [sec nsec] Hs Hn. cbn in *. rewrite to_int32_small by exact Hn.
    destruct (Z.gtb_spec sec 0); [reflexivity | lia].
  - intros [sec nsec] Hs. cbn in *. destruct (Z.gtb_spec sec 0); [lia | reflexivity].
  - intros [sec ns] Hs Hn. cbn in *. destruct (Z.gtb_spec sec 0); [| lia].
    cbn. now rewrite to_int32_small by exact Hn.
Qed.

Lemma ConvertToProto_InstanceFilter_eq (f : InstanceFilter) (dst : PbInstanceFilter) :
  ConvertToProto_InstanceFilter f dst
  = mkPbInstanceFilter
      (match mServiceID f with Some v => c_str v | None => service_id dst end)
      (match mSubjectID f with Some v => c_str v | None => subject_id dst end)
      (match mInstance f with Some v => to_int64 v | None => -1 end).
Proof.
  unfold ConvertToProto_InstanceFilter.
  destruct (mServiceID f), (mSubjectID f), (mInstance f); reflexivity.
Qed.

Lemma ConvertToAos_InstanceFilter_eq (val : PbInstanceFilter) :
  ConvertToAos_InstanceFilter val
  = mkInstanceFilter
      (if String.eqb (service_id val) "" then None else Some (c_str (service_id val)))
      (if String.eqb (subject_id val) "" then None else Some (c_str (subject_id val)))
      (if instance val =? -1 then None else Some (to_uint64 (instance val))).
Proof.
  unfold ConvertToAos_InstanceFilter.
  destruct (String.eqb (service_id val) ""), (String.eqb (subject_id val) ""),
    (instance val =? -1); reflexivity.
Qed.

Lemma c_str_empty (s : string) : s = "" -> c_str s = "".
Proof. now intros ->. Qed.

(** An identifier written with [CStr()] and read back. *)
Lemma readableID_written (o : option string) :
  (let written := match o with Some v => c_str v | None => "" end in
   if String.eqb written "" then None else Some (c_str written))
  = readableID o.
Proof.
  destruct o as [v|]; [| reflexivity]. cbn. now rewrite c_str_idempotent.
Qed.

Lemma readableID_kept (o : option string) : readableID o = o <-> keptID o.
Proof.
  unfold readableID, keptID. destruct o as [v|].
  - destruct (String.eqb_spec (c_str v) "") as [E | E]; split.
    + discriminate.
    + intros H. destruct (H v eq_refl) as [Hne Hc]. congruence.
    + intros [= H] v' [= <-]. split; [congruence | exact H].
    + intros H. destruct (H v eq_refl) as [_ Hc]. now rewrite Hc.
  - split; [intros _ v H; discriminate | reflexivity].
Qed.

(** X11. An instance filter written to a fresh wire message and read back
    has its service and subject ID cut at the first zero character and
    absent when nothing is left, and the instance 2^64-1 absent: it is the
    same filter exactly when its identifiers are not empty and hold no zero
    character and its instance is not 2^64-1. A wire filter read and written
    to a fresh message has its two strings cut at the first zero character,
    and is the same message when they hold none. An absent service or
    subject ID leaves what the wire message held before. *)
Theorem InstanceFilter_round_trip (f : InstanceFilter) (val dst : PbInstanceFilter) :
  wf_filter f ->
  ConvertToAos_InstanceFilter (ConvertToProto_InstanceFilter f PbInstanceFilter_new)
  = readable f
  /\ (readable f = f
      <-> keptID (mServiceID f) /\ keptID (mSubjectID f)
          /\ mInstance f <> Some (2 ^ 64 - 1))
  /\ (- 2 ^ 63 <= instance val < 2 ^ 63 ->
      ConvertToProto_InstanceFilter (ConvertToAos_InstanceFilter val) PbInstanceFilter_new
      = mkPbInstanceFilter (c_str (service_id val)) (c_str (subject_id val))
          (instance val))
  /\ (- 2 ^ 63 <= instance val < 2 ^ 63 ->
      c_str (service_id val) = service_id val ->
      c_str (subject_id val) = subject_id val ->
      ConvertToProto_InstanceFilter (ConvertToAos_InstanceFilter val) PbInstanceFilter_new
      = val)
  /\ (mServiceID f = None ->
      service_id (ConvertToProto_InstanceFilter f dst) = service_id dst)
  /\ (mSubjectID f = None ->
      subject_id (ConvertToProto_InstanceFilter f dst) = subject_id dst).
Proof.
  intros Hwf. unfold wf_filter in Hwf.
  assert (Hback : - 2 ^ 63 <= instance val < 2 ^ 63 ->
            ConvertToProto_InstanceFilter (ConvertToAos_InstanceFilter val)
              PbInstanceFilter_new
            = mkPbInstanceFilter (c_str (service_id val)) (c_str (subject_id val))
                (instance val)).
  { intros Hi. rewrite ConvertToProto_InstanceFilter_eq, ConvertToAos_InstanceFilter_eq.
    cbn [mServiceID mSubjectID mInstance PbInstanceFilter_new service_id subject_id].
    f_equal.
    - destruct (String.eqb_spec (service_id val) "") as [E | E];
        [now rewrite c_str_empty | apply c_str_idempotent].
    - destruct (String.eqb_spec (subject_id val) "") as [E | E];
        [now rewrite c_str_empty | apply c_str_idempotent].
    - destruct (Z.eqb_spec (instance val) (-1)) as [E | E]; [now rewrite E |].
      now apply to_int64_to_uint64. }
  split; [| split; [| split; [| split; [| split]]]].
  - rewrite ConvertToAos_InstanceFilter_eq, ConvertToProto_InstanceFilter_eq.
    cbn [service_id subject_id instance PbInstanceFilter_new].
    unfold readable. f_equal.
    + apply (readableID_written (mServiceID f)).
    + apply (readableID_written (mSubjectID f)).
    + destruct (mInstance f) as [v|]; [| reflexivity].
      pose proof (to_int64_minus_one v Hwf) as Hm.
      destruct (Z.eqb_spec v (2 ^ 64 - 1)) as [E | E].
      * now rewrite (proj2 Hm E).
      * destruct (Z.eqb_spec (to_int64 v) (-1)) as [E' | E']; [tauto |].
        now rewrite to_uint64_to_int64.
  - unfold readable. destruct f as [sid subj inst].
    cbn [mServiceID mSubjectID mInstance].
    rewrite <- !readableID_kept. split.
    + intros [= H1 H2 H3]. split; [exact H1 |]. split; [exact H2 |].
      destruct inst as [v|]; [| discriminate].
      destruct (Z.eqb_spec v (2 ^ 64 - 1)); [discriminate | congruence].
    + intros (H1 & H2 & H3). rewrite H1, H2. f_equal.
      destruct inst as [v|]; [| reflexivity].
      destruct (Z.eqb_spec v (2 ^ 64 - 1)); [congruence | reflexivity].
  - exact Hback.
  - intros Hi Hs Ht. rewrite (Hback Hi), Hs, Ht. now destruct val.
  - intros H. rewrite ConvertToProto_InstanceFilter_eq. now rewrite H.
  - intros H. rewrite ConvertToProto_InstanceFilter_eq. now rewrite H.
Qed.

(** X12. An instance identifier survives the way to the wire and back,
    whatever the wire message held before, and so does a wire identifier on
    the way to the domain and back, as long as its two strings hold no zero
    character; in general a string arrives cut at its first zero
    character. *)
Theorem InstanceIdent_round_trip (src : InstanceIdent.t) (val dst : PbInstanceIdent.t) :
  ConvertToAos_InstanceIdent (ConvertToProto_InstanceIdent src dst)
  = InstanceIdent.mk (c_str (InstanceIdent.mServiceID src))
      (c_str (InstanceIdent.mSubjectID src)) (InstanceIdent.mInstance src)
  /\ (c_str (InstanceIdent.mServiceID src) = InstanceIdent.mServiceID src ->
      c_str (InstanceIdent.mSubjectID src) = InstanceIdent.mSubjectID src ->
      ConvertToAos_InstanceIdent (ConvertToProto_InstanceIdent src dst) = src)
  /\ (c_str (PbInstanceIdent.service_id val) = PbInstanceIdent.service_id val ->
      c_str (PbInstanceIdent.subject_id val) = PbInstanceIdent.subject_id val ->
      ConvertToProto_InstanceIdent (ConvertToAos_InstanceIdent val) dst = val).
Proof.
  unfold ConvertToAos_InstanceIdent, ConvertToProto_InstanceIdent.
  destruct src as [sid subj inst], val as [psid psubj pinst]. cbn.
  rewrite !c_str_idempotent. split; [reflexivity |]. split.
  - now intros -> ->.
  - intros H1 H2. now rewrite H1, H2.
Qed.

Lemma foldl_PushBack {A B} (capacity : nat) (f : B -> A) (l : list B) (acc : list A) :
  foldl (fun acc x => snd (PushBack capacity (f x) acc)) acc l
  = acc ++ take (capacity - length acc) (map f l).
Proof.
  revert acc. induction l as [|x l IH]; intros acc; cbn [foldl map].
  - now rewrite take_nil, app_nil_r.
  - rewrite IH. unfold PushBack. destruct (Nat.ltb_spec (length acc) capacity).
    + cbn [snd]. rewrite length_app. cbn [length].
      replace (capacity - length acc)%nat with (S (capacity - (length acc + 1)))%nat
        by lia.
      cbn [take]. now rewrite <- app_assoc.
    + cbn [snd]. replace (capacity - length acc)%nat with 0%nat by lia.
      reflexivity.
Qed.

(** X13. [ConvertToAos] of network parameters has no error path: DNS
    servers and firewall rules beyond the capacity of their arrays are
    dropped without notice; those that fit are kept in order. *)
Theorem NetworkParameters_truncated (C : Capacities) (val : PbNetworkParameters) :
  let result := ConvertToAos_NetworkParameters C val in
  let rule r := mkFirewallRule (c_str (dst_ip r)) (c_str (dst_port r))
                  (c_str (proto r)) (c_str (src_ip r)) in
  mDNSServers result = take (cMaxNumDNSServers C) (map c_str (dns_servers val))
  /\ mFirewallRules result = take (cMaxNumFirewallRules C) (map rule (rules val))
  /\ length (mDNSServers result)
     = Nat.min (cMaxNumDNSServers C) (length (dns_servers val))
  /\ length (mFirewallRules result)
     = Nat.min (cMaxNumFirewallRules C) (length (rules val))
  /\ mNetworkID result = c_str (network_id val)
  /\ mSubnet result = c_str (subnet val)
  /\ mIP result = c_str (ip val)
  /\ mVlanID result = vlan_id val.
Proof.
  intros result rule.
  assert (Hdns : forall l r0,
             foldl (fun result dns =>
                      mkNetworkParameters (mNetworkID result) (mSubnet result)
                        (mIP result) (mVlanID result)
                        (snd (PushBack (cMaxNumDNSServers C) (c_str dns)
                                (mDNSServers result)))
                        (mFirewallRules result)) r0 l
             = mkNetworkParameters (mNetworkID r0) (mSubnet r0) (mIP r0) (mVlanID r0)
                 (foldl (fun acc x => snd (PushBack (cMaxNumDNSServers C) (c_str x) acc))
                        (mDNSServers r0) l)
                 (mFirewallRules r0)).
  { induction l as [|x l IH]; intros r0; cbn [foldl]; [now destruct r0 |].
    now rewrite IH. }
  assert (Hrules : forall l r0,
             foldl (fun result r =>
                      let firewallRule :=
                        mkFirewallRule (c_str (dst_ip r)) (c_str (dst_port r))
                          (c_str (proto r)) (c_str (src_ip r)) in
                      mkNetworkParameters (mNetworkID result) (mSubnet result)
                        (mIP result) (mVlanID result) (mDNSServers result)
                        (snd (PushBack (cMaxNumFirewallRules C) firewallRule
                                (mFirewallRules result)))) r0 l
             = mkNetworkParameters (mNetworkID r0) (mSubnet r0) (mIP r0) (mVlanID r0)
                 (mDNSServers r0)
                 (foldl (fun acc x => snd (PushBack (cMaxNumFirewallRules C) (rule x) acc))
                        (mFirewallRules r0) l)).
  { induction l as [|x l IH]; intros r0; cbn [foldl]; [now destruct r0 |].
    now rewrite IH. }
  subst result. unfold ConvertToAos_NetworkParameters.
  rewrite Hrules, Hdns. cbn [mNetworkID mSubnet mIP mVlanID mDNSServers mFirewallRules].
  rewrite !foldl_PushBack. cbn [length app]. rewrite !Nat.sub_0_r.
  rewrite !length_take, !length_map.
  repeat split; reflexivity.
Qed.

Lemma convertVariables_fit (C : Capacities) (vars : list PbEnvVarInfo)
  (acc : list EnvVarInfo) :
  (length acc + length vars <= cMaxNumEnvVariables C)%nat ->
  convertVariables C vars acc = (ErrNone, acc ++ map ConvertToAos_EnvVarInfo vars).
Proof.
  revert acc. induction vars as [|v vars IH]; intros acc H; cbn [convertVariables map].
  - now rewrite app_nil_r.
  - cbn [length] in H. unfold PushBack.
    destruct (Nat.ltb_spec (length acc) (cMaxNumEnvVariables C)); [| lia].
    cbn [negb IsNone]. rewrite IsNone_ErrNone. cbn [negb].
    rewrite IH by (rewrite length_app; cbn [length]; lia).
    now rewrite <- app_assoc.
Qed.

Lemma convertVariables_overflow (C : Capacities) (vars : list PbEnvVarInfo)
  (acc : list EnvVarInfo) :
  (length acc <= cMaxNumEnvVariables C)%nat ->
  (cMaxNumEnvVariables C < length acc + length vars)%nat ->
  fst (convertVariables C vars acc)
  = ErrorOf eNoMemory "received instance's env vars count exceeds application limit".
Proof.
  revert acc. induction vars as [|v vars IH]; intros acc Ha H; cbn [convertVariables].
  - cbn [length] in H. lia.
  - cbn [length] in H. unfold PushBack.
    destruct (Nat.ltb_spec (length acc) (cMaxNumEnvVariables C)).
    + rewrite IsNone_ErrNone. cbn [negb]. apply IH.
      * rewrite length_app. cbn [length]. lia.
      * rewrite length_app. cbn [length]. lia.
    + reflexivity.
Qed.

Lemma convertEnvVars_spec (C : Capacities) (envVars : list PbOverrideInstanceEnvVar)
  (dst : list EnvVarsInstanceInfo) :
  (length dst <= cMaxNumInstances C)%nat ->
  (forallb (fun envVar => (length (variables envVar) <=? cMaxNumEnvVariables C)%nat)
           envVars
   && (length dst + length envVars <=? cMaxNumInstances C)%nat = true ->
   convertEnvVars C envVars dst = (ErrNone, dst ++ map convertedEntry envVars))
  /\ (forallb (fun envVar => (length (variables envVar) <=? cMaxNumEnvVariables C)%nat)
              envVars
      && (length dst + length envVars <=? cMaxNumInstances C)%nat = false ->
      mErr (fst (convertEnvVars C envVars dst)) = eNoMemory
      /\ (mMessage (fst (convertEnvVars C envVars dst))
          = "received instance's env vars count exceeds application limit"
          \/ mMessage (fst (convertEnvVars C envVars dst))
             = "received env vars instances count exceeds application limit")
      /\ exists n,
           (n < length envVars)%nat
           /\ snd (convertEnvVars C envVars dst)
              = dst ++ map convertedEntry (take n envVars)).
Proof.
  revert dst. induction envVars as [|e envVars IH]; intros dst Hdst.
  - cbn [forallb length convertEnvVars map andb]. split.
    + intros _. now rewrite app_nil_r.
    + intros H. apply Nat.leb_gt in H. lia.
  - cbn [forallb length convertEnvVars map].
    destruct (Nat.leb_spec (length (variables e)) (cMaxNumEnvVariables C)) as [Hv | Hv];
      cbn [andb].
    + rewrite (convertVariables_fit C (variables e) []) by (cbn [length]; lia).
      cbn [app]. rewrite IsNone_ErrNone. cbn [negb]. unfold PushBack.
      fold (convertedEntry e).
      destruct (Nat.ltb_spec (length dst) (cMaxNumInstances C)) as [Hd | Hd].
      * rewrite IsNone_ErrNone. cbn [negb].
        destruct (IH (dst ++ [convertedEntry e])) as [IHfit IHover].
        { rewrite length_app. cbn [length]. lia. }
        rewrite length_app in IHfit, IHover. cbn [length] in IHfit, IHover.
        replace (length dst + 1 + length envVars)%nat
          with (length dst + S (length envVars))%nat in IHfit, IHover by lia.
        split.
        -- intros Hfit. rewrite (IHfit Hfit). now rewrite <- app_assoc.
        -- intros Hover. destruct (IHover Hover) as (Hk & Hm & n & Hn & Hs).
           split; [exact Hk |]. split; [exact Hm |].
           exists (S n). split; [lia |]. rewrite Hs. cbn [take map].
           now rewrite <- app_assoc.
      * split.
        -- intros H. apply andb_true_iff in H as [_ H]. apply Nat.leb_le in H. lia.
        -- intros _. cbn [fst snd]. split; [reflexivity |].
           split; [now right |]. exists 0%nat. split; [lia |].
           cbn [take map]. now rewrite app_nil_r.
    + split; [discriminate |]. intros _.
      pose proof (convertVariables_overflow C (variables e) []) as Ho.
      cbn [length] in Ho. specialize (Ho (Nat.le_0_l _) Hv).
      destruct (convertVariables C (variables e) []) as [err vs].
      cbn [fst] in Ho. subst err. cbn [negb fst snd].
      split; [reflexivity |]. split; [now left |].
      exists 0%nat. split; [lia |]. cbn [take map]. now rewrite app_nil_r.
Qed.

(** X14. [ConvertToAos] of an override request appends one entry per
    request entry to [dst], in order, each with its filter and its variables
    converted, when the request fits the application: no entry has more
    variables than an entry can hold and the entries fit behind those of
    [dst]. Otherwise it returns NoMemory under one of its two messages, and
    [dst] keeps the entries converted before the one that did not fit. *)
Theorem OverrideEnvVars_fit_or_fail (C : Capacities) (src : PbOverrideEnvVars)
  (dst : list EnvVarsInstanceInfo) :
  (length dst <= cMaxNumInstances C)%nat ->
  let result := ConvertToAos_OverrideEnvVars C src dst in
  (fits C src dst = true ->
   result = (ErrNone, dst ++ map convertedEntry (env_vars src)))
  /\ (fits C src dst = false ->
      mErr (fst result) = eNoMemory
      /\ (mMessage (fst result)
          = "received instance's env vars count exceeds application limit"
          \/ mMessage (fst result)
             = "received env vars instances count exceeds application limit")
      /\ exists n,
           (n < length (env_vars src))%nat
           /\ snd result = dst ++ map convertedEntry (take n (env_vars src))).
Proof.
  intros Hdst result. subst result. unfold ConvertToAos_OverrideEnvVars, fits.
  exact (convertEnvVars_spec C (env_vars src) dst Hdst).
Qed.

End ConvertRoundTrips.

Lemma InstanceFilter_round_trip_witness :
  let f := Convert.mkInstanceFilter (Some "")
             (Some (String "s" (String Ascii.zero "ubject0"))) (Some 7) in
  let val := Convert.mkPbInstanceFilter "service0" "" 7 in
  Convert.ConvertToAos_InstanceFilter
    (Convert.ConvertToProto_InstanceFilter f Convert.PbInstanceFilter_new)
  = Convert.mkInstanceFilter None (Some "s") (Some 7)
  /\ Convert.ConvertToProto_InstanceFilter (Convert.ConvertToAos_InstanceFilter val)
       Convert.PbInstanceFilter_new
     = val.
Proof.
  intros f val.
  assert (Hwf : Convert.wf_filter f) by (unfold Convert.wf_filter; simpl; lia).
  split.
  - exact (proj1 (InstanceFilter_round_trip f val Convert.PbInstanceFilter_new Hwf)).
  - refine (proj1 (proj2 (proj2 (proj2 (InstanceFilter_round_trip f val
                                          Convert.PbInstanceFilter_new Hwf))))
              _ eq_refl eq_refl).
    simpl. lia.
Defined.

Lemma OverrideEnvVars_fit_or_fail_witness :
  let C := Convert.mkCapacities 2 2 1 2 in
  let var := Convert.mkPbEnvVarInfo "LOG" "debug" (Convert.mkTimestamp 0 0) in
  let entry := Convert.mkPbOverrideInstanceEnvVar Convert.PbInstanceFilter_new [var; var] in
  Aos.mErr (fst (Convert.ConvertToAos_OverrideEnvVars C
                   (Convert.mkPbOverrideEnvVars [entry]) []))
  = eNoMemory.
Proof.
  intros C var entry.
  refine (proj1 (proj2 (OverrideEnvVars_fit_or_fail C
                          (Convert.mkPbOverrideEnvVars [entry]) [] _) _)).
  - simpl. lia.
  - reflexivity.
Defined.

Section LauncherArrays.

Import Config.

Context {Obj : Type} (J : JsonItf Obj) (L : Lib).

(** A loop that appends to a static array of the out-parameter and throws
    when an element does not fit. *)
Lemma forEach_EmplaceBack {St A B} (capacity : nat) (msg : string)
  (proj : St -> list A) (upd : list A -> St -> St) (f : B -> A)
  (body : B -> M St unit) :
  (forall l s, proj (upd l s) = l) ->
  (forall l l' s, upd l (upd l' s) = upd l s) ->
  (forall s, upd (proj s) s = s) ->
  (forall x s,
     body x s = if (length (proj s) <? capacity)%nat
                then (Ok tt, upd (proj s ++ [f x]) s)
                else (Throw (AosException msg (ErrorOf eNoMemory "")), s)) ->
  forall l s,
    forEach body l s
    = if (length l <=? capacity - length (proj s))%nat
      then (Ok tt, upd (proj s ++ map f l) s)
      else (Throw (AosException msg (ErrorOf eNoMemory "")),
            upd (proj s ++ take (capacity - length (proj s)) (map f l)) s).
Proof.
  intros Hpu Huu Heta Hbody. induction l as [|x l IH]; intros s.
  - cbn [forEach length map]. now rewrite app_nil_r, Heta.
  - cbn [forEach length map]. unfold mbind, M_bind. rewrite Hbody.
    destruct (Nat.ltb_spec (length (proj s)) capacity) as [Hlt | Hge].
    + rewrite IH, Hpu, Huu, Huu, length_app. cbn [length].
      destruct (capacity - length (proj s))%nat as [|room] eqn:Er; [lia |].
      replace (capacity - (length (proj s) + 1))%nat with room by lia.
      cbn [take]. rewrite <- !app_assoc. cbn [app].
      destruct (Nat.leb_spec (length l) room), (Nat.leb_spec (S (length l)) (S room));
        try lia; reflexivity.
    + destruct (Nat.leb_spec (S (length l)) (capacity - length (proj s))); [lia |].
      replace (capacity - length (proj s))%nat with 0%nat by lia.
      cbn [take]. now rewrite app_nil_r, Heta.
Qed.

End LauncherArrays.

(** ** Configuration: what a successful parse has read *)

Section ConfigReads.

Import Config.

Context {Obj : Type} (J : JsonItf Obj) (L : Lib).

Lemma parseDurationInto_returns {St} (text : string) (assign : Duration -> St -> St)
  (msg : string) (s : St) (u : unit) (s' : St) :
  parseDurationInto L text assign msg s = (Ok u, s') ->
  s' = assign (fst (ParseDuration L text)) s
  /\ IsNone (snd (ParseDuration L text)) = true.
Proof.
  unfold parseDurationInto. destruct (ParseDuration L text) as [d err].
  unfold mbind, M_bind, modify, lift, AOS_ERROR_CHECK_AND_THROW. cbn [fst snd].
  destruct (IsNone err); [| discriminate]. now intros [= <-].
Qed.

Lemma parseRemoveOutdatedPeriod_returns {St} (object : Obj)
  (assign : Duration -> St -> St) (s : St) (u : unit) (s' : St) :
  parseRemoveOutdatedPeriod J L object assign s = (Ok u, s') ->
  exists o,
    GetOptionalString J object "removeOutdatedPeriod" = Value o
    /\ s' = match o with
            | Some text => assign (fst (ParseDuration L text)) s
            | None => s
            end.
Proof.
  unfold parseRemoveOutdatedPeriod. intros H.
  apply bind_returns in H as (o & s1 & Hp & H).
  apply poco_returns in Hp as [Hp ->]. exists o. split; [exact Hp |].
  destruct o as [text|].
  - now apply parseDurationInto_returns in H as [-> _].
  - now injection H as _ <-.
Qed.

Ltac invert_reads :=
  repeat match goal with
    | H : returnsInto _ _ _ |- _ => unfold returnsInto in H
    | H : (_ ≫= _) _ = (Ok _, _) |- _ =>
        apply bind_returns in H as (? & ? & ? & H)
    | H : poco _ _ = (Ok _, _) |- _ => apply poco_returns in H as [H ->]
    | H : modify _ _ = (Ok _, _) |- _ => apply modify_returns in H as ->
    | H : get _ = (Ok _, _) |- _ => apply get_returns in H as [-> ->]
    | H : parseDurationInto _ _ _ _ _ = (Ok _, _) |- _ =>
        apply parseDurationInto_returns in H as [-> H]
    | H : parseRemoveOutdatedPeriod _ _ _ _ _ = (Ok _, _) |- _ =>
        apply parseRemoveOutdatedPeriod_returns in H as (? & H & ->)
    end.

Lemma ParseServiceManagerConfig_reads (object : Obj) (workingDir : string)
  (a b : ServiceManagerConfig) :
  returnsInto (ParseServiceManagerConfig J L object workingDir) a b ->
  (exists d,
     GetStringOr J object "servicesDir" (JoinPath workingDir "services") = Value d
     /\ mServicesDir b = c_str d)
  /\ (exists d,
        GetStringOr J object "downloadDir" (JoinPath workingDir "downloads") = Value d
        /\ smDownloadDir b = c_str d)
  /\ GetSizeOr J object "servicesPartLimit" 0 = Value (smPartLimit b)
  /\ (exists ttl,
        GetStringOr J object "serviceTTL" cDefaultServiceTTLDays = Value ttl
        /\ smTTL b = fst (ParseDuration L ttl))
  /\ exists o,
       GetOptionalString J object "removeOutdatedPeriod" = Value o
       /\ smRemoveOutdatedPeriod b
          = match o with
            | Some text => fst (ParseDuration L text)
            | None => smRemoveOutdatedPeriod a
            end.
Proof.
  intros H. unfold ParseServiceManagerConfig in H. invert_reads.
  match goal with
  | Ho : GetOptionalString J object "removeOutdatedPeriod" = Value ?o |- _ =>
      destruct o
  end;
    cbn [mServicesDir smDownloadDir smPartLimit smTTL smRemoveOutdatedPeriod];
    repeat split; eauto.
Qed.

Lemma ParseLayerManagerConfig_reads (object : Obj) (workingDir : string)
  (a b : LayerManagerConfig) :
  returnsInto (ParseLayerManagerConfig J L object workingDir) a b ->
  (exists d,
     GetStringOr J object "layersDir" (JoinPath workingDir "layers") = Value d
     /\ mLayersDir b = c_str d)
  /\ (exists d,
        GetStringOr J object "downloadDir" (JoinPath workingDir "downloads") = Value d
        /\ lmDownloadDir b = c_str d)
  /\ GetSizeOr J object "layersPartLimit" 0 = Value (lmPartLimit b)
  /\ (exists ttl,
        GetStringOr J object "layerTTL" cDefaultLayerTTLDays = Value ttl
        /\ lmTTL b = fst (ParseDuration L ttl))
  /\ exists o,
       GetOptionalString J object "removeOutdatedPeriod" = Value o
       /\ lmRemoveOutdatedPeriod b
          = match o with
            | Some text => fst (ParseDuration L text)
            | None => lmRemoveOutdatedPeriod a
            end.
Proof.
  intros H. unfold ParseLayerManagerConfig in H. invert_reads.
  match goal with
  | Ho : GetOptionalString J object "removeOutdatedPeriod" = Value ?o |- _ =>
      destruct o
  end;
    cbn [mLayersDir lmDownloadDir lmPartLimit lmTTL lmRemoveOutdatedPeriod];
    repeat split; eauto.
Qed.

Lemma ParseSMClientConfig_reads (object : Obj) (a b : SMClientConfig) :
  returnsInto (ParseSMClientConfig J L object) a b ->
  (exists d, GetString J object "certStorage" = Value d /\ scCertStorage b = c_str d)
  /\ GetString J object "cmServerURL" = Value (mCMServerURL b)
  /\ exists t,
       GetStringOr J object "cmReconnectTimeout" cDefaultCMReconnectTimeout = Value t
       /\ mCMReconnectTimeout b = fst (ParseDuration L t).
Proof.
  intros H. unfold ParseSMClientConfig in H. invert_reads.
  cbn [scCertStorage mCMServerURL mCMReconnectTimeout]. repeat split; eauto.
Qed.

Lemma ParseMonitoringConfig_reads (object : Obj) (a b : MonitoringConfig) :
  returnsInto (ParseMonitoringConfig J L object) a b ->
  exists pollPeriod averageWindow,
    mPollPeriod b = fst (ParseDuration L pollPeriod)
    /\ mAverageWindow b = fst (ParseDuration L averageWindow)
    /\ if Has J object "monitoring"
       then exists o,
              GetObject J object "monitoring" = Value o
              /\ GetStringOr J o "pollPeriod" cDefaultMonitoringPollPeriod
                 = Value pollPeriod
              /\ GetStringOr J o "averageWindow" cDefaultMonitoringAverageWindow
                 = Value averageWindow
       else pollPeriod = cDefaultMonitoringPollPeriod
            /\ averageWindow = cDefaultMonitoringAverageWindow.
Proof.
  intros H. unfold ParseMonitoringConfig in H.
  destruct (Has J object "monitoring"); invert_reads.
  - match goal with
    | H1 : GetObject J object "monitoring" = Value ?o1,
      H2 : GetObject J object "monitoring" = Value ?o2 |- _ =>
        assert (o1 = o2) by congruence; subst
    end.
    eexists _, _. cbn [mPollPeriod mAverageWindow].
    split; [reflexivity |]. split; [reflexivity |]. eauto.
  - repeat match goal with
      | H : mret _ _ = (Ok _, _) |- _ => injection H as <- <-
      end.
    eexists _, _. cbn [mPollPeriod mAverageWindow].
    split; [reflexivity |]. split; [reflexivity |]. split; reflexivity.
Qed.

Lemma ParseLoggingConfig_reads (object : Obj) (a b : LoggingConfig) :
  returnsInto (ParseLoggingConfig J L object) a b ->
  GetUInt64Or J object "maxPartSize" (cLogContentLen L) = Value (mMaxPartSize b)
  /\ GetUInt64Or J object "maxPartCount" 80 = Value (mMaxPartCount b).
Proof.
  intros H. unfold ParseLoggingConfig in H. invert_reads.
  cbn [mMaxPartSize mMaxPartCount]. split; assumption.
Qed.

Lemma ParseMigrationConfig_reads (object : Obj) (workingDir : string)
  (a b : MigrationConfig) :
  returnsInto (ParseMigrationConfig J object workingDir) a b ->
  exists p q,
    GetOptionalString J object "migrationPath" = Value p
    /\ GetOptionalString J object "mergedMigrationPath" = Value q
    /\ mMigrationPath b = default "/usr/share/aos/servicemanager/migration" p
    /\ mMergedMigrationPath b
       = default (c_str (JoinPath workingDir "mergedMigration")) q.
Proof.
  intros H. unfold ParseMigrationConfig in H. invert_reads.
  eexists _, _. cbn [mMigrationPath mMergedMigrationPath]. repeat split; eauto.
Qed.

Lemma ParseJournalAlertsConfig_reads (object : Obj)
  (a b : JournalAlertsConfig * list Event) :
  returnsInto (ParseJournalAlertsConfig J object) a b ->
  exists filter service system,
    GetArrayString J object "filter" = Value filter
    /\ GetOptionalInt J object "serviceAlertPriority" = Value service
    /\ GetOptionalInt J object "systemAlertPriority" = Value system.
Proof.
  unfold returnsInto, ParseJournalAlertsConfig.
  unfold mbind, M_bind, mret, M_ret, poco, lift, modify, get.
  destruct a as [c0 l0].
  destruct (GetArrayString J object "filter") as [filter | m]; [| discriminate].
  destruct (GetOptionalInt J object "serviceAlertPriority") as [service | m];
    [| discriminate].
  destruct (GetOptionalInt J object "systemAlertPriority") as [system | m].
  - intros _. now exists filter, service, system.
  - cbn. destruct (_ || _); discriminate.
Qed.

(** When the launcher section returns, what it has read and where it has
    put it. *)
Lemma ParseLauncherConfig_reads (object : Obj) (workingDir : string)
  (a b : LauncherConfig) :
  returnsInto (ParseLauncherConfig J L object workingDir) a b ->
  (exists d,
     GetStringOr J object "storageDir" (JoinPath workingDir "storages") = Value d
     /\ mStorageDir b = c_str d)
  /\ (exists d,
        GetStringOr J object "stateDir" (JoinPath workingDir "states") = Value d
        /\ mStateDir b = c_str d)
  /\ mWorkDir b = c_str workingDir
  /\ (exists binds,
        GetArrayString J object "hostBinds" = Value binds
        /\ (length binds <= cMaxNumHostBinds L - length (mHostBinds a))%nat
        /\ mHostBinds b = mHostBinds a ++ map c_str binds)
  /\ (exists objects hosts,
        GetArrayObject J object "hosts" = Value objects
        /\ parseHosts J objects = Ok hosts
        /\ (length hosts <= cMaxNumHosts L - length (mHosts a))%nat
        /\ mHosts b = mHosts a ++ hosts)
  /\ exists o,
       GetOptionalString J object "removeOutdatedPeriod" = Value o
       /\ lRemoveOutdatedPeriod b
          = match o with
            | Some text => fst (ParseDuration L text)
            | None => lRemoveOutdatedPeriod a
            end.
Proof.
  unfold returnsInto, ParseLauncherConfig. intros H.
  apply bind_returns in H as (storage & ? & H1 & H).
  apply poco_returns in H1 as [H1 ->].
  apply bind_returns in H as (u1 & ? & Hm & H). apply modify_returns in Hm as ->.
  apply bind_returns in H as (state & ? & H2 & H).
  apply poco_returns in H2 as [H2 ->].
  apply bind_returns in H as (u2 & ? & Hm & H). apply modify_returns in Hm as ->.
  apply bind_returns in H as (u3 & ? & Hm & H). apply modify_returns in Hm as ->.
  apply bind_returns in H as (binds & ? & H3 & H).
  apply poco_returns in H3 as [H3 ->].
  apply bind_returns in H as (u4 & ? & Hloop & H).
  cbn [mStorageDir mStateDir mWorkDir mHostBinds mHosts lRemoveOutdatedPeriod] in Hloop.
  match type of Hloop with
  | forEach ?body binds ?s = _ =>
      rewrite (forEach_EmplaceBack (cMaxNumHostBinds L) "error parsing hostBinds tag"
                 mHostBinds
                 (fun l c => mkLauncherConfig (mStorageDir c) (mStateDir c) (mWorkDir c)
                               l (mHosts c) (lRemoveOutdatedPeriod c))
                 c_str body) in Hloop
  end.
  2: reflexivity. 2: reflexivity. 2: now intros [].
  2:{ intros item c. unfold mbind, M_bind, get, modify, lift, EmplaceBack.
      destruct (length (mHostBinds c) <? cMaxNumHostBinds L)%nat;
        [reflexivity | now destruct c]. }
  cbn [mStorageDir mStateDir mWorkDir mHostBinds mHosts lRemoveOutdatedPeriod] in Hloop.
  destruct (Nat.leb_spec (length binds) (cMaxNumHostBinds L - length (mHostBinds a)))
    as [Hfit | Hover]; [| discriminate].
  apply (f_equal snd) in Hloop. cbn [snd] in Hloop. subst.
  apply bind_returns in H as (objects & ? & H4 & H).
  apply poco_returns in H4 as [H4 ->].
  apply bind_returns in H as (hosts & ? & H5 & H).
  unfold lift in H5. cbv beta in H5.
  assert (H5' := f_equal fst H5). assert (H5'' := f_equal snd H5).
  cbn [fst snd] in H5', H5''. subst. clear H5. rename H5' into H5.
  apply bind_returns in H as (u5 & ? & Hloop & H).
  cbn [mStorageDir mStateDir mWorkDir mHostBinds mHosts lRemoveOutdatedPeriod] in Hloop.
  match type of Hloop with
  | forEach ?body hosts ?s = _ =>
      rewrite (forEach_EmplaceBack (cMaxNumHosts L) "error parsing hosts tag"
                 mHosts
                 (fun l c => mkLauncherConfig (mStorageDir c) (mStateDir c) (mWorkDir c)
                               (mHostBinds c) l (lRemoveOutdatedPeriod c))
                 id body) in Hloop
  end.
  2: reflexivity. 2: reflexivity. 2: now intros [].
  2:{ intros item c. unfold mbind, M_bind, get, modify, lift, EmplaceBack.
      destruct (length (mHosts c) <? cMaxNumHosts L)%nat;
        [reflexivity | now destruct c]. }
  cbn [mStorageDir mStateDir mWorkDir mHostBinds mHosts lRemoveOutdatedPeriod] in Hloop.
  destruct (Nat.leb_spec (length hosts) (cMaxNumHosts L - length (mHosts a)))
    as [Hfit' | Hover']; [| discriminate].
  apply (f_equal snd) in Hloop. cbn [snd] in Hloop. subst.
  apply parseRemoveOutdatedPeriod_returns in H as (o & Ho & ->).
  assert (Hfields : forall c : LauncherConfig,
             (match o with
              | Some text =>
                  mkLauncherConfig (mStorageDir c) (mStateDir c) (mWorkDir c)
                    (mHostBinds c) (mHosts c) (fst (ParseDuration L text))
              | None => c
              end)
             = mkLauncherConfig (mStorageDir c) (mStateDir c) (mWorkDir c)
                 (mHostBinds c) (mHosts c)
                 (match o with
                  | Some text => fst (ParseDuration L text)
                  | None => lRemoveOutdatedPeriod c
                  end))
    by (intros []; now destruct o).
  rewrite Hfields.
  cbn [mStorageDir mStateDir mWorkDir mHostBinds mHosts lRemoveOutdatedPeriod].
  rewrite ?map_id in *.
  split; [exists storage; auto |]. split; [exists state; auto |].
  split; [reflexivity |].
  split; [exists binds; auto |]. split; [exists objects, hosts; auto |].
  exists o. auto.
Qed.

(** The hosts of the file: each is made of the ip and the hostname of its
    object, as C strings. *)
Lemma parseHosts_reads (objects : list Obj) (hosts : list Host) :
  parseHosts J objects = Ok hosts ->
  Forall2 (fun o h =>
             exists ip hostname,
               GetString J o "ip" = Value ip
               /\ GetString J o "hostname" = Value hostname
               /\ h = mkHost (c_str ip) (c_str hostname))
          objects hosts.
Proof.
  revert hosts. induction objects as [|o objects IH]; intros hosts; cbn [parseHosts].
  - intros [= <-]. constructor.
  - unfold ParseHostConfig.
    destruct (GetString J o "ip") as [ip | msg] eqn:Ei; [| discriminate].
    destruct (GetString J o "hostname") as [hostname | msg] eqn:Eh; [| discriminate].
    destruct (parseHosts J objects) as [hs | e]; [| discriminate].
    intros [= <-]. constructor; [eauto | now apply IH].
Qed.

(** X15. [ParseLauncherConfig] appends the host binds and the hosts of
    the file to those the configuration already holds (a second parse into
    the same configuration holds them twice). Every string it stores is the
    C string of what the file gives, cut at the first zero character: the
    three directories, each host bind, the ip and the hostname of each host.
    When the host binds do not fit the room left in their array it throws
    NoMemory under the message error parsing hostBinds tag, with the array
    filled up and the hosts not read; when it returns, both arrays hold the
    old entries followed by all the new ones. *)
Theorem ParseLauncherConfig_appends (object : Obj) (workingDir : string)
  (c0 : LauncherConfig) (storage state : string) (binds : list string) :
  GetStringOr J object "storageDir" (JoinPath workingDir "storages") = Value storage ->
  GetStringOr J object "stateDir" (JoinPath workingDir "states") = Value state ->
  GetArrayString J object "hostBinds" = Value binds ->
  let room := (cMaxNumHostBinds L - length (mHostBinds c0))%nat in
  ((room < length binds)%nat ->
   ParseLauncherConfig J L object workingDir c0
   = (Throw (AosException "error parsing hostBinds tag" (ErrorOf eNoMemory "")),
      mkLauncherConfig (c_str storage) (c_str state) (c_str workingDir)
        (mHostBinds c0 ++ take room (map c_str binds))
        (mHosts c0) (lRemoveOutdatedPeriod c0)))
  /\ (forall c',
        ParseLauncherConfig J L object workingDir c0 = (Ok tt, c') ->
        (length binds <= room)%nat
        /\ mHostBinds c' = mHostBinds c0 ++ map c_str binds
        /\ (exists objects hosts,
              GetArrayObject J object "hosts" = Value objects
              /\ Forall2 (fun o h =>
                            exists ip hostname,
                              GetString J o "ip" = Value ip
                              /\ GetString J o "hostname" = Value hostname
                              /\ h = mkHost (c_str ip) (c_str hostname))
                         objects hosts
              /\ (length hosts <= cMaxNumHosts L - length (mHosts c0))%nat
              /\ mHosts c' = mHosts c0 ++ hosts)
        /\ mStorageDir c' = c_str storage
        /\ mStateDir c' = c_str state
        /\ mWorkDir c' = c_str workingDir).
Proof.
  intros H1 H2 H3 room. split.
  - intros Hover. unfold ParseLauncherConfig.
    unfold mbind, M_bind, mret, M_ret, poco, lift, modify, get. rewrite H1, H2, H3.
    cbn [mStorageDir mStateDir mWorkDir mHostBinds mHosts lRemoveOutdatedPeriod].
    match goal with
    | |- context [forEach ?body binds ?s] =>
        rewrite (forEach_EmplaceBack (cMaxNumHostBinds L) "error parsing hostBinds tag"
                   mHostBinds
                   (fun l c => mkLauncherConfig (mStorageDir c) (mStateDir c)
                                 (mWorkDir c) l (mHosts c) (lRemoveOutdatedPeriod c))
                   c_str body)
    end.
    2: reflexivity. 2: reflexivity. 2: now intros [].
    2:{ intros item c. unfold EmplaceBack.
        destruct (length (mHostBinds c) <? cMaxNumHostBinds L)%nat;
          [reflexivity | now destruct c]. }
    cbn [mStorageDir mStateDir mWorkDir mHostBinds mHosts lRemoveOutdatedPeriod].
    fold room.
    destruct (Nat.leb_spec (length binds) room) as [Hfit | _]; [lia | reflexivity].
  - intros c' H.
    destruct (ParseLauncherConfig_reads object workingDir c0 c' H)
      as ((d1 & Hd1 & Hs) & (d2 & Hd2 & Ht) & Hw & (binds' & Hb & Hfit & Hbinds)
          & (objects & hosts & Ho & Hp & Hlen & Hhosts) & _).
    assert (binds' = binds) by congruence. subst binds'.
    assert (d1 = storage) by congruence. assert (d2 = state) by congruence. subst.
    split; [exact Hfit |]. split; [exact Hbinds |].
    split.
    { exists objects, hosts. split; [exact Ho |].
      split; [now apply parseHosts_reads |]. split; assumption. }
    split; [exact Hs |]. split; [exact Ht | exact Hw].
Qed.

Ltac invert_sections :=
  repeat match goal with
    | H : (_ ≫= _) _ = (Ok _, _) |- _ =>
        apply bind_returns in H as (? & ? & ? & H)
    | H : poco _ _ = (Ok _, _) |- _ => apply poco_returns in H as [H ->]
    | H : assign _ _ = (Ok _, _) |- _ => apply modify_returns in H as ->
    | H : modify _ _ = (Ok _, _) |- _ => apply modify_returns in H as ->
    | H : get _ = (Ok _, _) |- _ => apply get_returns in H as [-> ->]
    | H : section _ _ _ _ = (Ok _, _) |- _ =>
        apply zoom_returns in H as (? & H & ->)
    | H : zoom _ _ _ _ = (Ok _, _) |- _ =>
        apply zoom_returns in H as (? & H & ->)
    | H : subObject _ _ _ _ = (Ok _, _) |- _ =>
        apply subObject_returns in H as [-> H]
    end.

(** What the statements of the try block outside the section parsers have
    read when the block returns. *)
Lemma parseSections_top (object : Obj) (s s' : PState) :
  parseSections J L object s = (Ok tt, s') ->
  (exists cs,
     GetOptionalString J object "certStorage" = Value cs
     /\ mCertStorage (cfg s') = default "/var/aos/crypt/sm/" cs)
  /\ GetString J object "iamProtectedServerURL" = Value (mIAMProtectedServerURL (cfg s'))
  /\ GetUInt32 J object "servicesPartLimit" = Value (mServicesPartLimit (cfg s'))
  /\ GetUInt32 J object "layersPartLimit" = Value (mLayersPartLimit (cfg s'))
  /\ exists f,
       GetOptionalString J object "nodeConfigFile" = Value f
       /\ mNodeConfigFile (cfg s')
          = default (JoinPath (mWorkingDir (cfg s')) "aos_node.cfg") f.
Proof.
  intros H. unfold parseSections in H. invert_sections.
  repeat match goal with
    | x : (JournalAlertsConfig * list Event)%type |- _ => destruct x
    end.
  cbn. repeat split; eauto.
Qed.

(** A successful [ParseConfig] has opened the file, parsed its text and run
    the rest of the try block to its end. *)
Lemma ParseConfig_success (file : option string) (s : PState) (err : Error)
  (s' : PState) :
  ParseConfig J L file s = (err, s') ->
  IsNone err = true ->
  exists text object,
    file = Some text
    /\ parse J text = Value object
    /\ parseSections J L object s = (Ok tt, s').
Proof.
  intros H Hn. destruct file as [text|]; [| injection H as <- _; discriminate].
  unfold ParseConfig in H.
  destruct (tryBlock J L text s) as [[[]|e] s1] eqn:Et.
  - injection H as _ <-. unfold tryBlock, readObject in Et.
    apply bind_returns in Et as (object & s0 & Hp & Hs).
    apply poco_returns in Hp as [Hp ->]. eauto.
  - injection H as <- _. rewrite (honest_tryBlock J L text s e s1 Et) in Hn.
    discriminate.
Qed.

(** X16. Keys that several sections read. After a successful
    [ParseConfig] the download directory of the service manager and that of
    the layer manager are the same directory; the work directory of the
    launcher is the working directory of the file as a C string, cut at its
    first zero character, while the configuration itself keeps the working
    directory whole, so the two are the same exactly when it holds no zero
    character; and when the file gives a removeOutdatedPeriod, the service
    manager, the layer manager and the launcher all have that period; when
    it gives none, each keeps the one it had. *)
Theorem ParseConfig_shared_keys (file : option string) (s : PState) (err : Error)
  (s' : PState) :
  ParseConfig J L file s = (err, s') ->
  IsNone err = true ->
  smDownloadDir (mServiceManagerConfig (cfg s'))
  = lmDownloadDir (mLayerManagerConfig (cfg s'))
  /\ mWorkDir (mLauncherConfig (cfg s')) = c_str (mWorkingDir (cfg s'))
  /\ (mWorkDir (mLauncherConfig (cfg s')) = mWorkingDir (cfg s')
      <-> c_str (mWorkingDir (cfg s')) = mWorkingDir (cfg s'))
  /\ exists text object period,
       file = Some text
       /\ parse J text = Value object
       /\ GetString J object "workingDir" = Value (mWorkingDir (cfg s'))
       /\ GetOptionalString J object "removeOutdatedPeriod" = Value period
       /\ match period with
          | Some p =>
              smRemoveOutdatedPeriod (mServiceManagerConfig (cfg s'))
              = fst (ParseDuration L p)
              /\ lmRemoveOutdatedPeriod (mLayerManagerConfig (cfg s'))
                 = fst (ParseDuration L p)
              /\ lRemoveOutdatedPeriod (mLauncherConfig (cfg s'))
                 = fst (ParseDuration L p)
          | None =>
              smRemoveOutdatedPeriod (mServiceManagerConfig (cfg s'))
              = smRemoveOutdatedPeriod (mServiceManagerConfig (cfg s))
              /\ lmRemoveOutdatedPeriod (mLayerManagerConfig (cfg s'))
                 = lmRemoveOutdatedPeriod (mLayerManagerConfig (cfg s))
              /\ lRemoveOutdatedPeriod (mLauncherConfig (cfg s'))
                 = lRemoveOutdatedPeriod (mLauncherConfig (cfg s))
          end.
Proof.
  intros H Hn.
  destruct (ParseConfig_success file s err s' H Hn) as (text & object & -> & Hp & Hs).
  destruct (parseSections_returns J L object s s' Hs)
    as (logging & journalAlerts & migration & Hwd & _ & _ & _ & _ & Hlm & Hsm & Hl & _).
  destruct (ParseServiceManagerConfig_reads _ _ _ _ Hsm)
    as (_ & (d1 & Hd1 & Hsd) & _ & _ & o1 & Ho1 & Hr1).
  destruct (ParseLayerManagerConfig_reads _ _ _ _ Hlm)
    as (_ & (d2 & Hd2 & Hld) & _ & _ & o2 & Ho2 & Hr2).
  destruct (ParseLauncherConfig_reads _ _ _ _ Hl)
    as (_ & _ & Hw & _ & _ & o3 & Ho3 & Hr3).
  assert (o2 = o1) by congruence. assert (o3 = o1) by congruence. subst o2 o3.
  assert (d2 = d1) by congruence. subst d2.
  split; [congruence |]. split; [exact Hw |]. split; [now rewrite Hw |].
  exists text, object, o1. split; [reflexivity |]. split; [exact Hp |].
  split; [exact Hwd |]. split; [exact Ho1 |].
  destruct o1; repeat split; assumption.
Qed.

End ConfigReads.

(** ** Configuration: the defaults of absent keys *)

Section ConfigDefaults.

Import Config JsonDouble.

Context (files : string -> Outcome Json) (L : Lib).

Lemma double_absent (fields : list (string * Json)) (key : string) :
  find fields key = None ->
  Has (double files) (JObj fields) key = false
  /\ (forall d, GetStringOr (double files) (JObj fields) key d = Value d)
  /\ (forall d, GetUInt64Or (double files) (JObj fields) key d = Value d)
  /\ GetOptionalString (double files) (JObj fields) key = Value None
  /\ GetOptionalInt (double files) (JObj fields) key = Value None
  /\ GetArrayString (double files) (JObj fields) key = Value [].
Proof.
  intros H. cbn. unfold withDefault, optional, arrayOf, member. rewrite H.
  repeat split; reflexivity.
Qed.

Lemma double_subObject_absent (fields : list (string * Json)) (key : string)
  (s : PState) (o : Json) :
  find fields key = None ->
  subObject (double files) (JObj fields) key s = (Ok o, s) ->
  o = JObj [].
Proof.
  intros H. unfold subObject.
  rewrite (proj1 (double_absent fields key H)). now intros [= <-].
Qed.

(** X17. The defaults of [ParseConfig], over the JSON double: after a
    successful parse of an object that lacks a key (in any letter case), the
    value that key governs is its default. The directories default to fixed
    names under the working directory of the file, stored as C strings and
    so cut at the first zero character of the joined path (the node
    configuration file is stored whole), the two TTLs to 30d, the
    reconnect timeout to 10s, both monitoring durations to 35s, the log
    limits to the log content length and 80 parts, the journal alerts to no
    filter and the priorities 4 and 3 with no warning logged, the migration
    paths to the installed one and to mergedMigration under the working
    directory. *)
Theorem ParseConfig_defaults (text : string) (fields : list (string * Json))
  (s : PState) (err : Error) (s' : PState) :
  let absent key := find fields key = None in
  let wd := mWorkingDir (cfg s') in
  files text = Value (JObj fields) ->
  ParseConfig (double files) L (Some text) s = (err, s') ->
  IsNone err = true ->
  (absent "servicesDir" ->
   mServicesDir (mServiceManagerConfig (cfg s')) = c_str (JoinPath wd "services"))
  /\ (absent "layersDir" ->
      mLayersDir (mLayerManagerConfig (cfg s')) = c_str (JoinPath wd "layers"))
  /\ (absent "downloadDir" ->
      smDownloadDir (mServiceManagerConfig (cfg s')) = c_str (JoinPath wd "downloads")
      /\ lmDownloadDir (mLayerManagerConfig (cfg s')) = c_str (JoinPath wd "downloads"))
  /\ (absent "storageDir" ->
      mStorageDir (mLauncherConfig (cfg s')) = c_str (JoinPath wd "storages"))
  /\ (absent "stateDir" ->
      mStateDir (mLauncherConfig (cfg s')) = c_str (JoinPath wd "states"))
  /\ (absent "nodeConfigFile" ->
      mNodeConfigFile (cfg s') = JoinPath wd "aos_node.cfg")
  /\ (absent "serviceTTL" ->
      smTTL (mServiceManagerConfig (cfg s')) = fst (ParseDuration L "30d"))
  /\ (absent "layerTTL" ->
      lmTTL (mLayerManagerConfig (cfg s')) = fst (ParseDuration L "30d"))
  /\ (absent "cmReconnectTimeout" ->
      mCMReconnectTimeout (mSMClientConfig (cfg s')) = fst (ParseDuration L "10s"))
  /\ (absent "monitoring" ->
      mPollPeriod (mMonitoring (cfg s')) = fst (ParseDuration L "35s")
      /\ mAverageWindow (mMonitoring (cfg s')) = fst (ParseDuration L "35s"))
  /\ (absent "logging" ->
      mLogging (cfg s') = mkLoggingConfig (cLogContentLen L) 80)
  /\ (absent "journalAlerts" ->
      mJournalAlerts (cfg s') = mkJournalAlertsConfig [] 4 3
      /\ logged s' = logged s)
  /\ (absent "migration" ->
      mMigration (cfg s')
      = mkMigrationConfig "/usr/share/aos/servicemanager/migration"
          (c_str (JoinPath wd "mergedMigration"))).
Proof.
  intros absent wd Hf H Hn.
  destruct (ParseConfig_success (double files) L _ s err s' H Hn)
    as (text' & object & Heq & Hp & Hs).
  injection Heq as <-.
  assert (object = JObj fields).
  { cbn in Hp. rewrite Hf in Hp. cbn in Hp. now injection Hp. }
  subst object.
  destruct (parseSections_returns (double files) L _ s s' Hs)
    as (logging & journalAlerts & migration & Hwd & Hlog & Hja & Hmig & _ & Hlm & Hsm
        & Hl & Hsc & Hmon & Hlogg & Hjal & Hmigr).
  destruct (parseSections_top (double files) L _ s s' Hs)
    as (_ & _ & _ & _ & f & Hnode & Hnodev).
  fold wd in Hlm, Hsm, Hl, Hmigr, Hnodev.
  destruct (ParseServiceManagerConfig_reads _ _ _ _ _ _ Hsm)
    as ((sd & Hsd & Hsdv) & (sdl & Hsdl & Hsdlv) & _ & (sttl & Hsttl & Hsttlv) & _).
  destruct (ParseLayerManagerConfig_reads _ _ _ _ _ _ Hlm)
    as ((ld & Hld & Hldv) & (ldl & Hldl & Hldlv) & _ & (lttl & Hlttl & Hlttlv) & _).
  destruct (ParseLauncherConfig_reads _ _ _ _ _ _ Hl)
    as ((st & Hst & Hstv) & (sta & Hsta & Hstav) & _).
  destruct (ParseSMClientConfig_reads _ _ _ _ _ Hsc) as (_ & _ & t & Ht & Htv).
  destruct (ParseMonitoringConfig_reads _ _ _ _ _ Hmon) as (pp & aw & Hpp & Haw & Hhas).
  repeat match goal with |- _ /\ _ => split end; intros Ha;
    destruct (double_absent fields _ Ha) as (Hh & Hso & Hu & Hos & Hoi & Har).
  - rewrite Hso in Hsd. injection Hsd as <-. exact Hsdv.
  - rewrite Hso in Hld. injection Hld as <-. exact Hldv.
  - rewrite Hso in Hsdl, Hldl. injection Hsdl as <-. injection Hldl as <-.
    split; assumption.
  - rewrite Hso in Hst. injection Hst as <-. exact Hstv.
  - rewrite Hso in Hsta. injection Hsta as <-. exact Hstav.
  - rewrite Hos in Hnode. injection Hnode as <-. exact Hnodev.
  - rewrite Hso in Hsttl. injection Hsttl as <-. exact Hsttlv.
  - rewrite Hso in Hlttl. injection Hlttl as <-. exact Hlttlv.
  - rewrite Hso in Ht. injection Ht as <-. exact Htv.
  - rewrite Hh in Hhas. destruct Hhas as [-> ->]. split; assumption.
  - apply (double_subObject_absent fields _ s logging Ha) in Hlog. subst logging.
    destruct (ParseLoggingConfig_reads _ _ _ _ _ Hlogg) as [Hsz Hcnt].
    cbn in Hsz, Hcnt. injection Hsz as Hsz. injection Hcnt as Hcnt.
    destruct (mLogging (cfg s')). cbn in *. now subst.
  - apply (double_subObject_absent fields _ s journalAlerts Ha) in Hja.
    subst journalAlerts.
    pose proof (ParseJournalAlertsConfig_returns (double files) (JObj [])
                  (mJournalAlerts (cfg s)) (logged s) [] None None
                  eq_refl eq_refl eq_refl) as Hrun.
    cbv zeta in Hrun. unfold returnsInto in Hjal. rewrite Hrun in Hjal.
    cbn in Hjal. rewrite app_nil_r in Hjal.
    injection Hjal as Hjc Hjl. split; [now rewrite <- Hjc | now rewrite <- Hjl].
  - apply (double_subObject_absent fields _ s migration Ha) in Hmig. subst migration.
    destruct (ParseMigrationConfig_reads _ _ _ _ _ Hmigr) as (p & q & Hp' & Hq & Hpv & Hqv).
    cbn in Hp', Hq. injection Hp' as <-. injection Hq as <-.
    destruct (mMigration (cfg s')). cbn in *. now subst.
Qed.

End ConfigDefaults.

Lemma ParseConfig_shared_keys_witness :
  let J := JsonDouble.double JsonDouble.files in
  let s := Config.mkPState Config.emptyConfig [] in
  let s' := snd (Config.ParseConfig J JsonDouble.lib (Some "aos_servicemanager.cfg") s) in
  Config.smDownloadDir (Config.mServiceManagerConfig (Config.cfg s'))
  = Config.lmDownloadDir (Config.mLayerManagerConfig (Config.cfg s')).
Proof.
  intros J s s'.
  refine (proj1 (ParseConfig_shared_keys J JsonDouble.lib (Some "aos_servicemanager.cfg")
                   s (fst (Config.ParseConfig J JsonDouble.lib
                             (Some "aos_servicemanager.cfg") s)) s' _ _)).
  - subst s'. now destruct (Config.ParseConfig J JsonDouble.lib
                              (Some "aos_servicemanager.cfg") s).
  - vm_compute. reflexivity.
Defined.

Lemma ParseConfig_defaults_witness :
  let J := JsonDouble.double JsonDouble.files in
  let s := Config.mkPState Config.emptyConfig [] in
  let s' := snd (Config.ParseConfig J JsonDouble.lib (Some "aos_servicemanager.cfg") s) in
  Config.mServicesDir (Config.mServiceManagerConfig (Config.cfg s'))
  = c_str (Config.JoinPath (Config.mWorkingDir (Config.cfg s')) "services").
Proof.
  intros J s s'.
  refine (proj1 (ParseConfig_defaults JsonDouble.files JsonDouble.lib
                   "aos_servicemanager.cfg" _ s
                   (fst (Config.ParseConfig J JsonDouble.lib
                           (Some "aos_servicemanager.cfg") s)) s' _ _ _) _).
  - reflexivity.
  - subst J s'. now destruct (Config.ParseConfig (JsonDouble.double JsonDouble.files)
                                JsonDouble.lib
                              (Some "aos_servicemanager.cfg") s).
  - vm_compute. reflexivity.
  - vm_compute. reflexivity.
Defined.

Lemma ParseLauncherConfig_appends_witness :
  let J := JsonDouble.double JsonDouble.files in
  let c0 := Config.mkLauncherConfig "" "" "" ["bin"; "lib"; "usr"] [] 0 in
  fst (Config.ParseLauncherConfig J JsonDouble.lib JsonDouble.document "/var/aos/sm" c0)
  = Throw (AosException "error parsing hostBinds tag" (ErrorOf eNoMemory "")).
Proof.
  intros J c0.
  rewrite (proj1 (ParseLauncherConfig_appends J JsonDouble.lib JsonDouble.document
                    "/var/aos/sm" c0 "/var/aos/sm/storages" "/var/aos/sm/states"
                    ["bin"; "lib"] eq_refl eq_refl eq_refl)).
  - reflexivity.
  - vm_compute. lia.
Defined.

(** ** The application: start order and the stops that undo it *)

Section AppFacts.

Variable E : App.Collaborators.

(** The blocks of [AosCore::Start] behave as one loop over the members in
    their order that ends at the first failing start. *)
Lemma App_Start_run (a : App.AosCore) (runnerErr : Error) (w : World) :
  Start (App.createSystemdConn E) (App.mRunner a) = Some (runnerErr, w) ->
  exists a',
    App.Start E a
    = Some (match App.firstFailing (App.startError E runnerErr) App.order with
            | None => Ok tt
            | Some c => Throw (AosException (App.startMessage c) (App.startError E runnerErr c))
            end, a')
    /\ App.mRunner a' = w
    /\ App.mCleanupManager a'
       = rev (App.startedBefore (App.startError E runnerErr) App.order) ++ App.mCleanupManager a
    /\ App.mCalls a'
       = App.mCalls a
         ++ map App.CallStart
              (App.startedBefore (App.startError E runnerErr) App.order
               ++ match App.firstFailing (App.startError E runnerErr) App.order with
                  | None => []
                  | Some c => [c]
                  end).
Proof.
  intros Hr. unfold App.Start. rewrite Hr.
  unfold App.startComponent, App.checkAndRegister.
  unfold mbind, Config.M_bind, Config.lift, Config.modify, AOS_ERROR_CHECK_AND_THROW.
  unfold App.order. cbn [App.firstFailing App.startedBefore App.startError].
  destruct (IsNone runnerErr);
    [| eexists; split; [reflexivity |]; cbn; repeat split; reflexivity].
  destruct (IsNone (App.startOf E App.Launcher));
    [| eexists; split; [reflexivity |]; cbn; rewrite <- ?app_assoc;
       repeat split; reflexivity].
  destruct (IsNone (App.startOf E App.LayerManager));
    [| eexists; split; [reflexivity |]; cbn; rewrite <- ?app_assoc;
       repeat split; reflexivity].
  destruct (IsNone (App.startOf E App.NetworkManager));
    [| eexists; split; [reflexivity |]; cbn; rewrite <- ?app_assoc;
       repeat split; reflexivity].
  destruct (IsNone (App.startOf E App.ResourceMonitor));
    [| eexists; split; [reflexivity |]; cbn; rewrite <- ?app_assoc;
       repeat split; reflexivity].
  destruct (IsNone (App.startOf E App.ServiceManager));
    [| eexists; split; [reflexivity |]; cbn; rewrite <- ?app_assoc;
       repeat split; reflexivity].
  destruct (IsNone (App.startOf E App.LogProvider));
    [| eexists; split; [reflexivity |]; cbn; rewrite <- ?app_assoc;
       repeat split; reflexivity].
  destruct (IsNone (App.startOf E App.JournalAlerts));
    [| eexists; split; [reflexivity |]; cbn; rewrite <- ?app_assoc;
       repeat split; reflexivity].
  destruct (IsNone (App.startOf E App.SMClient));
    eexists; (split; [reflexivity |]); cbn; rewrite <- ?app_assoc;
    repeat split; reflexivity.
Qed.

Lemma startedBefore_prefix (err : App.Component -> Error) (l : list App.Component) :
  l = App.startedBefore err l
      ++ match App.firstFailing err l with
         | None => []
         | Some c => c :: drop (S (length (App.startedBefore err l))) l
         end
  /\ (forall c, In c (App.startedBefore err l) -> IsNone (err c) = true)
  /\ (forall c, App.firstFailing err l = Some c -> IsNone (err c) = false).
Proof.
  induction l as [|x l (IH1 & IH2 & IH3)]; cbn [App.startedBefore App.firstFailing].
  - repeat split; [intros c [] | discriminate].
  - destruct (IsNone (err x)) eqn:Ex.
    + split; [| split].
      * cbn [app length drop]. f_equal. exact IH1.
      * intros c [<- | Hc]; auto.
      * exact IH3.
    + split; [| split].
      * cbn. now rewrite drop_0.
      * intros c [].
      * intros c [= <-]. exact Ex.
Qed.

(** X18. [AosCore::Start] starts its members in one fixed order, the
    runner first, and stops at the first start that fails: it throws the
    exception with the message of that member and the error of its start, no
    later member is started, and the cleanup manager holds exactly the
    members that were started successfully, the last one first. When no
    start fails it returns with all nine registered. It ends the process
    exactly when the runner's start does. *)
Theorem AosCore_Start_in_order (a : App.AosCore) :
  (App.Start E a = None
   <-> Start (App.createSystemdConn E) (App.mRunner a) = None)
  /\ forall r a',
       App.Start E a = Some (r, a') ->
       exists runnerErr started,
         Start (App.createSystemdConn E) (App.mRunner a)
         = Some (runnerErr, App.mRunner a')
         /\ App.mCleanupManager a' = rev started ++ App.mCleanupManager a
         /\ (forall c, In c started -> IsNone (App.startError E runnerErr c) = true)
         /\ match r with
            | Ok _ =>
                started = App.order
                /\ App.mCalls a' = App.mCalls a ++ map App.CallStart App.order
            | Throw e =>
                exists c later,
                  App.order = started ++ c :: later
                  /\ IsNone (App.startError E runnerErr c) = false
                  /\ e = AosException (App.startMessage c) (App.startError E runnerErr c)
                  /\ App.mCalls a'
                     = App.mCalls a ++ map App.CallStart (started ++ [c])
            end.
Proof.
  split.
  - unfold App.Start.
    destruct (Start (App.createSystemdConn E) (App.mRunner a)) as [[err w]|];
      [split; discriminate | split; reflexivity].
  - intros r a' H.
    destruct (Start (App.createSystemdConn E) (App.mRunner a)) as [[runnerErr w]|] eqn:Hr.
    2:{ unfold App.Start in H. rewrite Hr in H. discriminate. }
    destruct (App_Start_run a runnerErr w Hr) as (a1 & Hs & Hw & Hc & Hcalls).
    rewrite Hs in H.
    destruct (startedBefore_prefix (App.startError E runnerErr) App.order) as (Hsplit & Hok & Hfail).
    exists runnerErr, (App.startedBefore (App.startError E runnerErr) App.order).
    destruct (App.firstFailing (App.startError E runnerErr) App.order) as [c|] eqn:Ef.
    + injection H as <- <-. rewrite Hw.
      split; [reflexivity |]. split; [exact Hc |]. split; [exact Hok |].
      exists c, (drop (S (length (App.startedBefore (App.startError E runnerErr) App.order)))
                   App.order).
      split; [exact Hsplit |]. split; [now apply Hfail |].
      split; [reflexivity | exact Hcalls].
    + injection H as <- <-. rewrite Hw.
      split; [reflexivity |]. split; [exact Hc |]. split; [exact Hok |].
      rewrite app_nil_r in Hsplit, Hcalls. rewrite <- Hsplit in Hcalls.
      split; [now symmetry | exact Hcalls].
Qed.

Lemma Stop_returns_none (w : World) : fst (Stop w) = ErrNone.
Proof. unfold Stop. now destruct (mClosed w). Qed.

Lemma Stop_closes (w : World) : mClosed (snd (Stop w)) = true.
Proof.
  unfold Stop. destruct (mClosed w) eqn:Hc; [exact Hc |].
  cbn [snd]. now destruct (joinable _).
Qed.

(** One cleanup. *)
Lemma cleanup_effect (a : App.AosCore) (c : App.Component) :
  App.mCleanupManager (App.cleanup E a c) = App.mCleanupManager a
  /\ App.mRunner (App.cleanup E a c)
     = (if decide (c = App.Runner) then snd (Stop (App.mRunner a)) else App.mRunner a)
  /\ App.mCalls (App.cleanup E a c)
     = App.mCalls a
       ++ App.CallStop c
          :: (if decide (c = App.Runner) then []
              else if IsNone (App.stopOf E c) then []
                   else [App.CallLogErr (App.stopMessage c)]).
Proof.
  unfold App.cleanup. destruct c; cbn [decide decide_rel];
    try (destruct (IsNone (App.stopOf E _)); cbn; rewrite <- ?app_assoc;
         repeat split; reflexivity).
  cbn [App.mRunner App.call].
  pose proof (Stop_returns_none (App.mRunner a)) as Hn.
  destruct (Stop (App.mRunner a)) as [err w]. cbn [fst snd] in *. subst err.
  cbn. repeat split; reflexivity.
Qed.

(** What the cleanups of a stack do, one after the other. *)
Lemma cleanups_run (l : list App.Component) (a : App.AosCore) :
  exists calls,
    App.mCalls (foldl (App.cleanup E) a l) = App.mCalls a ++ calls
    /\ List.filter App.isStop calls = map App.CallStop l
    /\ (forall msg, In (App.CallLogErr msg) calls ->
          exists c, In c l /\ c <> App.Runner /\ msg = App.stopMessage c
                    /\ IsNone (App.stopOf E c) = false)
    /\ (forall c, In c l -> c <> App.Runner -> IsNone (App.stopOf E c) = false ->
          In (App.CallLogErr (App.stopMessage c)) calls)
    /\ App.mCleanupManager (foldl (App.cleanup E) a l) = App.mCleanupManager a.
Proof.
  revert a. induction l as [|c l IH]; intros a; cbn [foldl].
  - exists []. rewrite app_nil_r. repeat split; try reflexivity.
    + intros msg [].
    + intros c [].
  - destruct (cleanup_effect a c) as (Hm & _ & Hc).
    destruct (IH (App.cleanup E a c)) as (calls & Hcalls & Hf & Hlog & Hall & Hm').
    rewrite Hcalls, Hc, Hm', Hm. rewrite <- app_assoc.
    eexists. split; [reflexivity |]. cbn [app].
    destruct (decide (c = App.Runner)) as [-> | Hne].
    + cbn [app List.filter App.isStop map]. rewrite Hf.
      split; [reflexivity |]. split; [| split; [| reflexivity]].
      * intros msg [H | H]; [discriminate |].
        destruct (Hlog msg H) as (c & Hin & Hr & Hmsg & Hs).
        exists c. repeat split; auto. now right.
      * intros c [<- | Hin] Hr Hs; [congruence |]. right. auto.
    + destruct (IsNone (App.stopOf E c)) eqn:Es.
      * cbn [app List.filter App.isStop map]. rewrite Hf.
        split; [reflexivity |]. split; [| split; [| reflexivity]].
        -- intros msg [H | H]; [discriminate |].
           destruct (Hlog msg H) as (c' & Hin & Hr & Hmsg & Hs).
           exists c'. repeat split; auto. now right.
        -- intros c' [<- | Hin] Hr Hs; [congruence |]. right. auto.
      * cbn [app List.filter App.isStop map]. rewrite Hf.
        split; [reflexivity |]. split; [| split; [| reflexivity]].
        -- intros msg [H | [H | H]]; [discriminate | |].
           ++ injection H as <-. exists c. repeat split; auto. now left.
           ++ destruct (Hlog msg H) as (c' & Hin & Hr & Hmsg & Hs).
              exists c'. repeat split; auto. now right.
        -- intros c' [<- | Hin] Hr Hs; [right; now left |]. right. right. auto.
Qed.

(** The runner after the cleanups of a stack that holds it last. *)
Lemma cleanups_runner (l : list App.Component) (a : App.AosCore) :
  ~ In App.Runner l ->
  App.mRunner (foldl (App.cleanup E) a l) = App.mRunner a
  /\ App.mRunner (foldl (App.cleanup E) a (l ++ [App.Runner]))
     = snd (Stop (App.mRunner a)).
Proof.
  intros Hn.
  assert (H : App.mRunner (foldl (App.cleanup E) a l) = App.mRunner a).
  { revert a. induction l as [|c l IH]; intros a; cbn [foldl]; [reflexivity |].
    rewrite IH by (intros Hin; apply Hn; now right).
    destruct (cleanup_effect a c) as (_ & Hr & _). rewrite Hr.
    destruct (decide (c = App.Runner)) as [-> |]; [| reflexivity].
    exfalso. apply Hn. now left. }
  split; [exact H |].
  rewrite foldl_app. cbn [foldl].
  destruct (cleanup_effect (foldl (App.cleanup E) a l) App.Runner) as (_ & Hr & _).
  rewrite Hr, H. reflexivity.
Qed.

(** X19. [AosCore::Stop] after [AosCore::Start], whether that returned or
    threw: exactly the members that were started successfully are stopped,
    in the reverse of the order of their start; a stop that fails is logged
    and the remaining stops still run; the cleanup manager is left empty, so
    that a second [Stop] does nothing; and a runner that was started is
    closed with its monitor thread joined. *)
Theorem AosCore_Stop_undoes_Start (a : App.AosCore) (r : Result unit)
  (a' : App.AosCore) :
  App.mCleanupManager a = [] ->
  App.Start E a = Some (r, a') ->
  let a'' := App.Stop E a' in
  exists runnerErr calls,
    Start (App.createSystemdConn E) (App.mRunner a) = Some (runnerErr, App.mRunner a')
    /\ App.mCalls a'' = App.mCalls a' ++ calls
    /\ List.filter App.isStop calls
       = map App.CallStop
           (rev (App.startedBefore (App.startError E runnerErr) App.order))
    /\ (forall msg, In (App.CallLogErr msg) calls ->
          exists c, msg = App.stopMessage c /\ IsNone (App.stopOf E c) = false)
    /\ (forall c, In c (App.startedBefore (App.startError E runnerErr) App.order) ->
          c <> App.Runner -> IsNone (App.stopOf E c) = false ->
          In (App.CallLogErr (App.stopMessage c)) calls)
    /\ App.mCleanupManager a'' = []
    /\ App.Stop E a'' = a''
    /\ (IsNone runnerErr = true ->
        App.mRunner a'' = snd (Stop (App.mRunner a'))
        /\ mClosed (App.mRunner a'') = true)
    /\ (App.createSystemdConn E = Ok tt ->
        mMonitoringThread (App.mRunner a'') = NoThread).
Proof.
  intros Hempty H a''.
  destruct (Start (App.createSystemdConn E) (App.mRunner a)) as [[runnerErr w]|] eqn:Hr.
  2:{ unfold App.Start in H. rewrite Hr in H. discriminate. }
  destruct (App_Start_run a runnerErr w Hr) as (a1 & Hs & Hw & Hc & _).
  rewrite Hs in H. injection H as _ <-. rewrite Hempty, app_nil_r in Hc.
  exists runnerErr.
  destruct (cleanups_run (App.mCleanupManager a1) a1)
    as (calls & Hcalls & Hf & Hlog & Hall & _).
  exists calls. subst a''. unfold App.Stop, App.ExecuteCleanups.
  cbn [App.mCalls App.mCleanupManager App.mRunner foldl].
  rewrite Hc in *.
  split; [now rewrite Hw |]. split; [exact Hcalls |]. split; [exact Hf |].
  split.
  { intros msg Hin. destruct (Hlog msg Hin) as (c & _ & _ & Hm & Hn). eauto. }
  split.
  { intros c Hin. apply Hall. now apply in_rev in Hin. }
  split; [reflexivity |]. split; [reflexivity |].
  assert (Hlast : IsNone runnerErr = true ->
            App.mRunner
              (foldl (App.cleanup E) a1
                 (rev (App.startedBefore (App.startError E runnerErr) App.order)))
            = snd (Stop (App.mRunner a1))).
  { intros Hok. unfold App.order. cbn [App.startedBefore App.startError].
    rewrite Hok. cbn [rev].
    apply cleanups_runner. intros Hin%in_rev.
    destruct (startedBefore_prefix (App.startError E runnerErr)
                [App.Launcher; App.LayerManager; App.NetworkManager;
                 App.ResourceMonitor; App.ServiceManager; App.LogProvider;
                 App.JournalAlerts; App.SMClient]) as (Hsplit & _).
    assert (Hin' : In App.Runner
                     [App.Launcher; App.LayerManager; App.NetworkManager;
                      App.ResourceMonitor; App.ServiceManager; App.LogProvider;
                      App.JournalAlerts; App.SMClient]).
    { rewrite Hsplit. apply in_app_iff. now left. }
    cbn in Hin'. intuition discriminate. }
  split.
  - intros Hok. rewrite (Hlast Hok). split; [reflexivity | apply Stop_closes].
  - intros Hconn. unfold Start in Hr. rewrite Hconn in Hr.
    destruct (joinable _); [discriminate |]. injection Hr as <- <-.
    rewrite (Hlast eq_refl), Hw. reflexivity.
Qed.


End AppFacts.

(** A start that fails at the network manager, over a launcher whose stop
    fails: the layer manager, the launcher and the runner are stopped. *)
Lemma AosCore_Stop_undoes_Start_witness :
  let E := App.mkCollaborators (Ok tt)
             (fun c => if decide (c = App.NetworkManager)
                       then ErrorOf eFailed "no network" else ErrNone)
             (fun c => if decide (c = App.Launcher)
                       then ErrorOf eFailed "busy" else ErrNone) in
  let a := App.mkAosCore (initWorld true ∅) [] [] in
  exists r a',
    App.mCleanupManager a = []
    /\ App.Start E a = Some (r, a')
    /\ App.mCalls (App.Stop E a')
       = App.mCalls a'
         ++ [App.CallStop App.LayerManager; App.CallStop App.Launcher;
             App.CallLogErr "Can't stop launcher"; App.CallStop App.Runner]
    /\ exists runnerErr calls,
         Start (App.createSystemdConn E) (App.mRunner a) = Some (runnerErr, App.mRunner a')
         /\ App.mCalls (App.Stop E a') = App.mCalls a' ++ calls
         /\ List.filter App.isStop calls
            = map App.CallStop
                (rev (App.startedBefore (App.startError E runnerErr) App.order))
         /\ (forall msg, In (App.CallLogErr msg) calls ->
               exists c, msg = App.stopMessage c /\ IsNone (App.stopOf E c) = false)
         /\ (forall c, In c (App.startedBefore (App.startError E runnerErr) App.order) ->
               c <> App.Runner -> IsNone (App.stopOf E c) = false ->
               In (App.CallLogErr (App.stopMessage c)) calls)
         /\ App.mCleanupManager (App.Stop E a') = []
         /\ App.Stop E (App.Stop E a') = App.Stop E a'
         /\ (IsNone runnerErr = true ->
             App.mRunner (App.Stop E a') = snd (Stop (App.mRunner a'))
             /\ mClosed (App.mRunner (App.Stop E a')) = true)
         /\ (App.createSystemdConn E = Ok tt ->
             mMonitoringThread (App.mRunner (App.Stop E a')) = NoThread).
Proof.
  intros E a.
  destruct (App.Start E a) as [[r a']|] eqn:Hs; [| vm_compute in Hs; discriminate].
  exists r, a'.
  split; [reflexivity |]. split; [reflexivity |].
  split; [vm_compute in Hs; injection Hs as <- <-; vm_compute; reflexivity |].
  exact (AosCore_Stop_undoes_Start E a r a' eq_refl Hs).
Defined.

(** ** The life cycle of the runner *)

(** X20. [Start] and [Stop] of the runner as a cycle. [Start] ends the
    process exactly when the monitor thread of an earlier start has not been
    joined, so a second [Start] without a [Stop] between the two does; a
    [Start] whose connection to the supervisor throws returns the error of
    the exception and leaves the runner as it was. A [Start] that returns
    opens the runner and runs the monitor thread; after [Stop] a new [Start]
    succeeds, and the running units and the cached statuses of before the
    restart are still there. *)
Theorem Runner_Start_Stop_cycle (w : World) (u : unit) :
  (Start (Ok u) w = None <-> mMonitoringThread w <> NoThread)
  /\ (forall e,
        Start (Throw e) w
        = Some (ToAosError e, emit (EvLog LogDbg "Start runner") w))
  /\ (forall err w1,
        Start (Ok u) w = Some (err, w1) ->
        err = ErrNone
        /\ mClosed w1 = false
        /\ mMonitoringThread w1 = ThreadRunning
        /\ mRunningUnits w1 = mRunningUnits w
        /\ mStartingUnits w1 = mStartingUnits w
        /\ mFS w1 = mFS w
        /\ Start (Ok u) w1 = None
        /\ exists w3,
             Start (Ok u) (snd (Stop w1)) = Some (ErrNone, w3)
             /\ mClosed w3 = false
             /\ mMonitoringThread w3 = ThreadRunning
             /\ mRunningUnits w3 = mRunningUnits w
             /\ mStartingUnits w3 = mStartingUnits w
             /\ mRunningInstances w3 = mRunningInstances w
             /\ mHistory w3
                = mHistory w ++ [EvLog LogDbg "Start runner";
                                 EvLog LogDbg "Stop runner";
                                 EvLog LogDbg "Start runner"]).
Proof.
  split; [| split].
  - unfold Start. cbn [mMonitoringThread setClosed emit].
    destruct (mMonitoringThread w); cbn [joinable]; split; congruence.
  - intros e. reflexivity.
  - intros err w1 H. unfold Start in H.
    cbn [mMonitoringThread setClosed emit] in H.
    destruct (mMonitoringThread w) eqn:Ht; cbn [joinable] in H; try discriminate.
    injection H as <- <-.
    repeat (split; [reflexivity |]).
    eexists. split; [reflexivity |].
    cbn. rewrite <- !app_assoc. repeat split; reflexivity.
Qed.

(** ** Monitoring data on the wire *)

Section MonitoringFacts.

Import Convert.

Context {Double : Type} (static_cast_uint64 : Double -> Z).

Lemma ConvertToProto_MonitoringData_eq (src : MonitoringData.t Double)
  (timestamp : Time) (dst : PbMonitoringData.t) :
  ConvertToProto_MonitoringData static_cast_uint64 src timestamp dst
  = PbMonitoringData.mk (MonitoringData.mRAM src)
      (static_cast_uint64 (MonitoringData.mCPU src))
      (MonitoringData.mDownload src) (MonitoringData.mUpload src)
      (Some (TimestampToPB timestamp))
      (PbMonitoringData.partitions dst
       ++ map partitionUsage (MonitoringData.mPartitions src)).
Proof.
  unfold ConvertToProto_MonitoringData.
  generalize (PbMonitoringData.partitions dst) as acc.
  generalize (MonitoringData.mRAM src) (static_cast_uint64 (MonitoringData.mCPU src))
    (MonitoringData.mDownload src) (MonitoringData.mUpload src)
    (Some (TimestampToPB timestamp)).
  induction (MonitoringData.mPartitions src) as [|p l IH]; intros a b c d e acc;
    cbn [foldl map].
  - now rewrite app_nil_r.
  - cbn [PbMonitoringData.ram PbMonitoringData.cpu PbMonitoringData.download
         PbMonitoringData.upload PbMonitoringData.timestamp
         PbMonitoringData.partitions].
    rewrite IH, <- app_assoc. reflexivity.
Qed.

(** X21. The monitoring data of a node on the wire: one entry is added
    behind those the instance list already holds for each service instance,
    in order, with the instance's identifier and its own monitoring data;
    every entry carries the timestamp of the node, the one the node's own
    data carries. The partitions of the node are added to those the message
    of the node already holds, so a message that is used again keeps the
    partitions of before. *)
Theorem NodeMonitoringData_on_the_wire (src : NodeMonitoringData.t Double)
  (dstMonitoringData : PbMonitoringData.t)
  (dstInstanceMonitoring : list PbInstanceMonitoring.t) :
  let result :=
    ConvertToProto_NodeMonitoringData static_cast_uint64 src dstMonitoringData
      dstInstanceMonitoring in
  let entry instance :=
    PbInstanceMonitoring.mk
      (Some (PbInstanceIdent.mk
               (c_str (InstanceIdent.mServiceID (InstanceMonitoringData.mInstanceIdent instance)))
               (c_str (InstanceIdent.mSubjectID (InstanceMonitoringData.mInstanceIdent instance)))
               (InstanceIdent.mInstance (InstanceMonitoringData.mInstanceIdent instance))))
      (Some (monitoringOf static_cast_uint64
               (InstanceMonitoringData.mMonitoringData instance)
               (NodeMonitoringData.mTimestamp src))) in
  snd result
  = dstInstanceMonitoring ++ map entry (NodeMonitoringData.mServiceInstances src)
  /\ length (snd result)
     = (length dstInstanceMonitoring
        + length (NodeMonitoringData.mServiceInstances src))%nat
  /\ PbMonitoringData.timestamp (fst result)
     = Some (TimestampToPB (NodeMonitoringData.mTimestamp src))
  /\ (forall i e md,
        (length dstInstanceMonitoring <= i)%nat ->
        snd result !! i = Some e ->
        PbInstanceMonitoring.monitoring_data e = Some md ->
        PbMonitoringData.timestamp md = PbMonitoringData.timestamp (fst result))
  /\ PbMonitoringData.partitions (fst result)
     = PbMonitoringData.partitions dstMonitoringData
       ++ map partitionUsage
            (MonitoringData.mPartitions (NodeMonitoringData.mMonitoringData src)).
Proof.
  intros result entry.
  assert (Hsnd : snd result
                 = dstInstanceMonitoring
                   ++ map entry (NodeMonitoringData.mServiceInstances src)).
  { subst result. unfold ConvertToProto_NodeMonitoringData. cbn [snd].
    generalize dstInstanceMonitoring as acc.
    induction (NodeMonitoringData.mServiceInstances src) as [|x l IH]; intros acc;
      cbn [foldl map].
    - now rewrite app_nil_r.
    - rewrite IH, <- app_assoc. cbn [app]. do 2 f_equal.
      subst entry. cbv beta.
      rewrite ConvertToProto_MonitoringData_eq. reflexivity. }
  assert (Hfst : fst result
                 = ConvertToProto_MonitoringData static_cast_uint64
                     (NodeMonitoringData.mMonitoringData src)
                     (NodeMonitoringData.mTimestamp src) dstMonitoringData)
    by reflexivity.
  split; [exact Hsnd |].
  split; [rewrite Hsnd, length_app, length_map; reflexivity |].
  split; [rewrite Hfst, ConvertToProto_MonitoringData_eq; reflexivity |].
  split.
  { intros i e md Hi He Hmd. rewrite Hsnd in He.
    rewrite lookup_app_r in He by exact Hi.
    rewrite list_lookup_fmap in He.
    destruct (NodeMonitoringData.mServiceInstances src !! _) as [x|]; [| discriminate].
    cbn in He. injection He as <-. subst entry. cbn in Hmd. injection Hmd as <-.
    rewrite Hfst, ConvertToProto_MonitoringData_eq. reflexivity. }
  rewrite Hfst, ConvertToProto_MonitoringData_eq. reflexivity.
Qed.

End MonitoringFacts.
